(** * VoiceOfHer: the SOS alert routes (routes/sos.js)

    A shallow embedding of the SOS route handlers: the phone-number
    formatter, the notification loop with its three outcomes, and the
    handlers that create an alert, update its status, record a contact's
    response and notify the creator's emergency contacts; with them the
    schema of models/SOSAlert.js, whose validators every [save] runs.

    JavaScript strings are sequences of UTF-16 code units; a handler is a
    function from the request, the environment it runs in (transport,
    clock, the driver's cast of an id and its faults) and the database to
    a reply and the database it leaves behind. *)

From Stdlib Require Import NArith ZArith QArith List String Ascii Bool Lia DecimalString.
From stdpp Require Import base decidable option list gmap sorting.

Local Close Scope Q_scope.
Local Open Scope N_scope.

(** ** JavaScript strings *)

Module JsString.

(** A string is the list of its UTF-16 code units. *)
Abbreviation jsstring := (list N).

(** A source literal made of ASCII characters. *)
Definition js (s : string) : jsstring :=
  List.map N_of_ascii (list_ascii_of_string s).

Definition inRange (lo hi c : N) : bool := (lo <=? c) && (c <=? hi).

(** ECMAScript WhiteSpace and LineTerminator code points, the ones that
    [String.prototype.trim] strips.  All of them are single code units. *)
Definition isWhiteSpace (c : N) : bool :=
  existsb (N.eqb c)
    [0x09; 0x0A; 0x0B; 0x0C; 0x0D; 0x20; 0xA0; 0x1680;
     0x2028; 0x2029; 0x202F; 0x205F; 0x3000; 0xFEFF]
  || inRange 0x2000 0x200A c.

Fixpoint trimStart (s : jsstring) : jsstring :=
  match s with
  | c :: rest => if isWhiteSpace c then trimStart rest else s
  | [] => []
  end.

Definition trimEnd (s : jsstring) : jsstring := rev (trimStart (rev s)).

(** A string is left alone by [trimStart] exactly when it does not begin
    with white space. *)
Definition clean_head (s : jsstring) : Prop :=
  match s with
  | c :: _ => isWhiteSpace c = false
  | [] => True
  end.

(** [s.trim()] *)
Definition trim (s : jsstring) : jsstring := trimEnd (trimStart s).

(** [s.startsWith(p)] *)
Fixpoint startsWith (s p : jsstring) {struct p} : bool :=
  match p, s with
  | [], _ => true
  | a :: p', b :: s' => (a =? b) && startsWith s' p'
  | _ :: _, [] => false
  end.

(** [s.slice(1)] *)
Definition slice1 (s : jsstring) : jsstring := tl s.

(** The regular expression classes [\d] and [[6-9]]. *)
Definition isDigit : N -> bool := inRange 48 57.
Definition is6to9 : N -> bool := inRange 54 57.

(** [/^[6-9]\d{9}$/.test(s)]: without the [m] flag [$] matches at the
    end of the input only. *)
Definition re_mobile (s : jsstring) : bool :=
  match s with
  | c :: rest => is6to9 c && (length rest =? 9)%nat && forallb isDigit rest
  | [] => false
  end.

(** [/^0[6-9]\d{9}$/.test(s)] *)
Definition re_zero_mobile (s : jsstring) : bool :=
  match s with
  | c :: rest => (c =? 48) && re_mobile rest
  | [] => false
  end.

(** The two halves of a surrogate pair, [[\uD800-\uDBFF]] and
    [[\uDC00-\uDFFF]], and the variation selectors [\uFE0E] and
    [\uFE0F]. *)
Definition isHighSurrogate : N -> bool := inRange 0xD800 0xDBFF.
Definition isLowSurrogate : N -> bool := inRange 0xDC00 0xDFFF.
Definition isVariationSelector (c : N) : bool := (c =? 0xFE0E) || (c =? 0xFE0F).

(** [(s.match(/[\uD800-\uDBFF][\uDC00-\uDFFF]/g) || []).length]: the
    matches are found from left to right and do not overlap. *)
Fixpoint surrogatePairs (s : jsstring) : nat :=
  match s with
  | a :: rest =>
      match rest with
      | b :: rest' =>
          if isHighSurrogate a && isLowSurrogate b then S (surrogatePairs rest')
          else surrogatePairs rest
      | [] => O
      end
  | [] => O
  end.

(** [(s.match(/(\uFE0F|\uFE0E)/g) || []).length] *)
Definition variationSelectors (s : jsstring) : nat :=
  length (List.filter isVariationSelector s).

(** A hexadecimal digit, and its lower-case form. *)
Definition isHexDigit (c : N) : bool :=
  inRange 48 57 c || inRange 65 70 c || inRange 97 102 c.

Definition toLowerHex (c : N) : N := if inRange 65 70 c then c + 32 else c.

End JsString.
Import JsString.

(** ** Values and exceptions *)

(** The primitive values a field of a document or of a request body can
    hold.  Numbers are kept to the integers: only their truthiness and
    the fact that they are not strings is used. *)
Inductive JsVal : Type :=
| VUndefined
| VNull
| VBool (b : bool)
| VNumber (z : Z)
| VString (s : jsstring).

(** [!!v] *)
Definition truthy (v : JsVal) : bool :=
  match v with
  | VUndefined | VNull => false
  | VBool b => b
  | VNumber z => negb (z =? 0)%Z
  | VString s => negb (match s with [] => true | _ => false end)
  end.

(** A thrown exception, with its [message]. *)
Record JsError : Type := mkError { message : jsstring }.

(** A computation either returns or throws. *)
Inductive outcome (A : Type) : Type :=
| Returns (a : A)
| Throws (e : JsError).
Arguments Returns {A} a.
Arguments Throws {A} e.

(** Sequencing: a throw skips the rest, as in a [try] block. *)
#[global] Instance outcome_ret : MRet outcome := fun A a => Returns a.
#[global] Instance outcome_bind : MBind outcome := fun A B k m =>
  match m with
  | Returns a => k a
  | Throws e => Throws e
  end.

(** ** The fields of a JSON body *)

(** A field of [req.body] on which no sanitizer has run: absent; a
    string; or any other JSON value (a number, a boolean, an array, an
    object).  Such a value is [===] to no string.  Of it the model keeps
    what the code can observe: the strings that a validator of a chain is
    run on ([String(value)], or that of every element when the value is an
    array), and the string that a path of schema type String casts it to,
    if it can be cast ([9876543210] is cast to its digits; an array or a
    plain object cannot be cast). *)
Inductive BodyField : Type :=
| Missing
| Text (s : jsstring)
| Foreign (seen : list jsstring) (cast : option jsstring).

(** What the handler reads from a field that has passed a chain without
    [optional()]: the string, or the other value. *)
Inductive Supplied : Type :=
| Str (s : jsstring)
| NonStr (cast : option jsstring).

(** The assignment of such a value to a path of schema type String.  A
    value that cannot be cast invalidates the document, and the [save]
    that follows rejects; nothing is written or sent in between, so the
    exception is raised here. *)
Definition castString (v : Supplied) : outcome jsstring :=
  match v with
  | Str s => Returns s
  | NonStr (Some s) => Returns s
  | NonStr None => Throws (mkError (js "Cast to string failed"))
  end.

(** [stored === v], for what a path of type String holds. *)
Definition strictEq (stored : option jsstring) (v : Supplied) : Prop :=
  match v with
  | Str s => stored = Some s
  | NonStr _ => False
  end.

#[global] Instance strictEq_dec stored v : Decision (strictEq stored v).
Proof. destruct v; simpl; apply _. Defined.

(** ** formatPhoneNumber *)

(** [function formatPhoneNumber(phone)]: a value that is truthy and not a
    string has no [trim] method, and the call throws a TypeError. *)
Definition formatPhoneNumber (phone : JsVal) : outcome jsstring :=
  if negb (truthy phone) then Returns []
  else
    match phone with
    | VString s =>
        let phone := trim s in
        if startsWith phone (js "+") then Returns phone
        else if re_mobile phone then Returns (js "+91" ++ phone)
        else if re_zero_mobile phone then Returns (js "+91" ++ slice1 phone)
        else Returns phone
    | _ => Throws (mkError (js "phone.trim is not a function"))
    end.

(** ** Documents *)

(** An ObjectId is represented by its hexadecimal rendering, the string
    that [toString()] returns. *)
Abbreviation ObjectId := jsstring.
Definition toString (id : ObjectId) : jsstring := id.

(** A [Date], in milliseconds since the epoch. *)
Abbreviation Date := N.

(** A path of schema type String: absent or a string. *)
Definition field (f : option jsstring) : JsVal :=
  match f with
  | Some s => VString s
  | None => VUndefined
  end.

(** [f || d] on such a path. *)
Definition orElse (f : option jsstring) (d : jsstring) : jsstring :=
  match f with
  | Some (c :: s) => c :: s
  | _ => d
  end.

Record Contact : Type := mkContact {
  contact_name : option jsstring;
  contact_phone : option jsstring;
  contact_relationship : option jsstring
}.

Record User : Type := mkUser {
  user_id : ObjectId;
  user_aadhar : option jsstring;
  user_name : option jsstring;
  user_phone : option jsstring;
  isActive : bool;
  emergencyContacts : option (list Contact)
}.

(** The [userId] path of an alert in memory: the stored id, or after
    [populate('userId')] the user's document, or [null] when no such
    user is found. *)
Inductive UserRef : Type :=
| RefId (id : ObjectId)
| RefDoc (u : User)
| RefNull.

(** [location].  A coordinate is a number of the language, a double,
    and is given by its value, which is a rational; the comparisons that
    the code makes of two such numbers are exact.  NaN and the
    infinities, which [isFloat] does not let through, are left out. *)
Record Location : Type := mkLocation {
  latitude : option Q;
  longitude : option Q;
  address : jsstring
}.

(** A subdocument of [notifiedContacts], as sosAlertSchema declares it:
    [phone], [response] and [notifiedAt].  The schema has no path
    [status] or [error], so the two properties of that name that the
    routes put into the objects they assign are dropped when the objects
    are cast to subdocuments (the schema is strict, as by default).  Its
    path [name] is set by no route. *)
Record NotifiedContact : Type := mkNotified {
  nc_phone : jsstring;
  nc_response : jsstring;
  nc_notifiedAt : Date
}.

Record SOSAlert : Type := mkAlert {
  alert_id : ObjectId;
  userId : UserRef;
  userAadhar : option jsstring;
  userName : jsstring;
  userPhone : option jsstring;
  location : Location;
  description : jsstring;
  emergencyType : jsstring;
  status : jsstring;
  priority : jsstring;
  notifiedContacts : list NotifiedContact;
  resolvedAt : option Date;
  resolvedBy : option ObjectId;
  createdAt : Date
}.

Definition set_notifiedContacts (l : list NotifiedContact) (a : SOSAlert) : SOSAlert :=
  mkAlert (alert_id a) (userId a) (userAadhar a) (userName a) (userPhone a)
    (location a) (description a) (emergencyType a) (status a) (priority a)
    l (resolvedAt a) (resolvedBy a) (createdAt a).

Definition set_status (s : jsstring) (a : SOSAlert) : SOSAlert :=
  mkAlert (alert_id a) (userId a) (userAadhar a) (userName a) (userPhone a)
    (location a) (description a) (emergencyType a) s (priority a)
    (notifiedContacts a) (resolvedAt a) (resolvedBy a) (createdAt a).

Definition set_resolved (at_ : Date) (by_ : ObjectId) (a : SOSAlert) : SOSAlert :=
  mkAlert (alert_id a) (userId a) (userAadhar a) (userName a) (userPhone a)
    (location a) (description a) (emergencyType a) (status a) (priority a)
    (notifiedContacts a) (Some at_) (Some by_) (createdAt a).

Definition set_userId (r : UserRef) (a : SOSAlert) : SOSAlert :=
  mkAlert (alert_id a) r (userAadhar a) (userName a) (userPhone a)
    (location a) (description a) (emergencyType a) (status a) (priority a)
    (notifiedContacts a) (resolvedAt a) (resolvedBy a) (createdAt a).

(** What [sosAlertSchema.methods.getSummary] of models/SOSAlert.js
    returns: the eight properties [id], [status], [priority],
    [emergencyType], [location], [createdAt], [userName] and
    [userPhone]. *)
Record Summary : Type := mkSummary {
  sum_id : ObjectId;
  sum_status : jsstring;
  sum_priority : jsstring;
  sum_emergencyType : jsstring;
  sum_location : Location;
  sum_createdAt : Date;
  sum_userName : jsstring;
  sum_userPhone : option jsstring
}.

(** [alert.getSummary()] *)
Definition getSummary (a : SOSAlert) : Summary :=
  mkSummary (alert_id a) (status a) (priority a) (emergencyType a)
    (location a) (createdAt a) (userName a) (userPhone a).

(** An element of the [notificationResults] array. *)
Record NotificationResult : Type := mkResult {
  nr_name : option jsstring;
  nr_phone : jsstring;
  nr_relationship : option jsstring;
  nr_status : jsstring;
  nr_error : jsstring
}.

(** The database: the alert collection by [_id], and the user collection
    in the order in which [find] iterates it. *)
Record Db : Type := mkDb {
  alerts : gmap ObjectId SOSAlert;
  users : list User
}.

(** ** Requests, replies and the environment *)

(** [req]: the user that [authenticateToken] attached (absent on a route
    without that middleware), the [:alertId] parameter as the text of the
    URL, and the body.  Of the body, [latitude] and [longitude] are given
    by the value of the number that the field is read as, if it is read
    as one: [isFloat] reads the text of the field with [parseFloat], and
    the schema casts the field to the same double.
    [contactPhone], which is compared with [===], is given as the field
    itself.  The other fields are given as the string that they hold;
    bodies that hold another value than a string in one of them are left
    out. *)
Record Request : Type := mkRequest {
  req_user : option User;
  params_alertId : ObjectId;
  body_latitude : option Q;
  body_longitude : option Q;
  body_address : option jsstring;
  body_description : option jsstring;
  body_emergencyType : option jsstring;
  body_status : option jsstring;
  body_resolutionNotes : option jsstring;
  body_contactPhone : BodyField;
  body_response : option jsstring
}.

(** What a handler sends: one constructor for each [res.json] of the
    routes; the status code and the [error] text that the source sends
    with it are given by [statusCode] and [errorText]. *)
Inductive Reply : Type :=
| Created (alert : Summary) (notifications : list NotificationResult)
| StatusUpdated (alert : Summary)
| ResponseRecorded (alert : Summary)
| ContactsNotified (notifications : list NotificationResult) (alert : Summary)
| ValidationFailed (details : list jsstring)
| NotFound
| InvalidTransition
| Forbidden
| NoContacts
| ServerError (error : jsstring).

Definition statusCode (r : Reply) : N :=
  match r with
  | Created _ _ => 201
  | StatusUpdated _ | ResponseRecorded _ | ContactsNotified _ _ => 200
  | ValidationFailed _ | InvalidTransition | NoContacts => 400
  | Forbidden => 403
  | NotFound => 404
  | ServerError _ => 500
  end.

Definition errorText (r : Reply) : option jsstring :=
  match r with
  | ValidationFailed _ => Some (js "Validation failed")
  | NotFound => Some (js "SOS alert not found")
  | InvalidTransition => Some (js "Can only update active alerts")
  | Forbidden => Some (js "Not authorized to notify contacts for this alert")
  | NoContacts =>
      Some (js "No emergency contacts found. Please add emergency contacts in your profile.")
  | ServerError e => Some e
  | _ => None
  end.

(** The text of [emergencyMessage]: the template's three holes. *)
Record Message : Type := mkMessage {
  msg_name : jsstring;
  msg_phone : option jsstring;
  msg_location : option (Q * Q)
}.

(** The awaited calls to the database driver, any of which may reject. *)
Inductive DbCall : Type :=
| AlertSave (n : nat)
| AlertFindById
| UserFind
| UserFindById.

(** What a request runs in: whether [twilioClient && twilioPhone] holds;
    what [twilioClient.messages.create] does for the recipient at a given
    position of the loop ([None]: it resolves, [Some e]: it rejects with
    [e]); the value of the k-th [new Date()]; the [_id] and [createdAt]
    given to a new document; the faults of the database driver, which
    stand for whatever makes an awaited call reject other than the
    validators of the schema (a lost connection, a write that the server
    refuses); and the cast of a text to an ObjectId that [findById]
    applies to its argument ([None]: the text is no ObjectId and the
    query rejects with a CastError).  The cast belongs to the driver,
    which is not among the sources: every release takes the 24
    hexadecimal digits of an id, and none takes a text of another length
    than 12 or 24. *)
Record Env : Type := mkEnv {
  twilioConfigured : bool;
  twilioSend : nat -> Message -> jsstring -> option JsError;
  clock : nat -> Date;
  newObjectId : ObjectId;
  timestamp : Date;
  dbFault : DbCall -> option JsError;
  castObjectId : jsstring -> option ObjectId
}.

(** [try { body } catch (error) { handler }] *)
Definition try_catch {A} (body : outcome A) (handler : JsError -> A) : A :=
  match body with
  | Returns a => a
  | Throws e => handler e
  end.

(** [req.user]: reading a property of it throws when it is absent. *)
Definition authenticated (req : Request) : outcome User :=
  match req_user req with
  | Some u => Returns u
  | None => Throws (mkError (js "Cannot read properties of undefined"))
  end.

(** ** The database driver *)

Definition rejects {A} (env : Env) (call : DbCall) (result : A) : outcome A :=
  match dbFault env call with
  | Some e => Throws e
  | None => Returns result
  end.

(** [SOSAlert.findById(req.params.alertId)]: the text is cast to an
    ObjectId first, and the query rejects when it cannot be. *)
Definition findById (env : Env) (db : Db) (alertId : jsstring)
  : outcome (option SOSAlert) :=
  match castObjectId env alertId with
  | None => Throws (mkError (js "Cast to ObjectId failed"))
  | Some id => rejects env AlertFindById (alerts db !! id)
  end.

(** [.populate('userId')] *)
Definition populate (us : list User) (a : SOSAlert) : SOSAlert :=
  match userId a with
  | RefId i =>
      match find (fun u => bool_decide (user_id u = i)) us with
      | Some u => set_userId (RefDoc u) a
      | None => set_userId RefNull a
      end
  | _ => a
  end.

(** A populated path is stored as the id again. *)
Definition depopulate (a : SOSAlert) : SOSAlert :=
  match userId a with
  | RefDoc u => set_userId (RefId (user_id u)) a
  | _ => a
  end.

(** *** The validators of sosAlertSchema *)

(** The [enum] lists of the schema. *)
Definition statusEnum : list string :=
  ["active"; "resolved"; "false_alarm"]%string.

Definition priorityEnum : list string :=
  ["low"; "medium"; "high"; "critical"]%string.

Definition emergencyTypeEnum : list string :=
  ["harassment"; "assault"; "medical"; "accident"; "other"]%string.

Definition responseEnum : list string :=
  ["pending"; "acknowledged"; "responding"; "unreachable"]%string.

(** [enum: values] on a path that holds a string. *)
Definition enum (values : list string) (s : jsstring) : bool :=
  existsb (fun v => bool_decide (s = js v)) values.

(** [required: true] on a path of type String: the path must hold a
    string, and not the empty one. *)
Definition requiredString (f : option jsstring) : bool :=
  match f with
  | Some (_ :: _) => true
  | _ => false
  end.

(** [required: true] on a path of another type: the path must hold a
    value. *)
Definition requiredRef (r : UserRef) : bool :=
  match r with
  | RefNull => false
  | _ => true
  end.

(** [maxlength: n]: the length is [value.length], in code units. *)
Definition maxlength (n : nat) (s : jsstring) : bool := (length s <=? n)%nat.

(** [doc.validate()], which every [save] runs first, on the paths that
    the document was loaded with as well as on those that were set:
    [userId], [userAadhar], [userName], [userPhone] and the two
    coordinates are required; [description] has at most 500 code units;
    [status], [priority], [emergencyType] and the [response] of every
    entry of [notifiedContacts] are of their enums. *)
Definition validate (a : SOSAlert) : bool :=
  requiredRef (userId a)
  && requiredString (userAadhar a)
  && requiredString (Some (userName a))
  && requiredString (userPhone a)
  && bool_decide (is_Some (latitude (location a)))
  && bool_decide (is_Some (longitude (location a)))
  && maxlength 500 (description a)
  && enum statusEnum (status a)
  && enum priorityEnum (priority a)
  && enum emergencyTypeEnum (emergencyType a)
  && forallb (fun c => enum responseEnum (nc_response c)) (notifiedContacts a).

(** [doc.save()], the n-th of the request: it rejects with a
    ValidationError when the document does not satisfy its schema, and
    with the fault of the driver, if any, when it does. *)
Definition save (env : Env) (n : nat) (db : Db) (a : SOSAlert) : outcome Db :=
  if validate a
  then rejects env (AlertSave n)
         (mkDb (<[alert_id a := depopulate a]> (alerts db)) (users db))
  else Throws (mkError (js "SOSAlert validation failed")).

(** [User.find({ isActive: true, _id: { $ne: id } })] *)
Definition findOtherActiveUsers (env : Env) (db : Db) (id : ObjectId)
  : outcome (list User) :=
  rejects env UserFind
    (List.filter (fun u => isActive u && negb (bool_decide (user_id u = id))) (users db)).

(** [User.findById(id)] *)
Definition findUserById (env : Env) (db : Db) (id : ObjectId) : outcome (option User) :=
  rejects env UserFindById (find (fun u => bool_decide (user_id u = id)) (users db)).

(** ** Validation chains *)

Module Validator.

(** One chain: the validated value, or the chain's [withMessage] text. *)
Definition check {A} (v : option A) (msg : string) : list jsstring + A :=
  match v with
  | Some a => inr a
  | None => inl [js msg]
  end.

(** All chains of a route run; [validationResult(req)] collects the
    messages of those that fail. *)
Definition both {A B} (x : list jsstring + A) (y : list jsstring + B)
  : list jsstring + (A * B) :=
  match x, y with
  | inr a, inr b => inr (a, b)
  | inl e, inr _ => inl e
  | inr _, inl e => inl e
  | inl e1, inl e2 => inl (e1 ++ e2)
  end.

(** [isFloat({ min, max })]: the field must read as a number, and the
    number, a double, must lie within the two bounds. *)
Definition isFloat (lo hi : Z) (v : option Q) : option Q :=
  match v with
  | Some q => if Qle_bool (inject_Z lo) q && Qle_bool q (inject_Z hi) then Some q else None
  | None => None
  end.

(** The length that [isLength] of validator.js measures:
    [str.length - presentationSequences.length - surrogatePairs.length],
    so that a surrogate pair counts once and a variation selector not at
    all. *)
Definition strLength (s : jsstring) : nat :=
  length s - variationSelectors s - surrogatePairs s.

(** [isLength({ max })] *)
Definition isLength (max : nat) (s : jsstring) : bool := (strLength s <=? max)%nat.

(** [isLength({ min })] *)
Definition atLeast (min : nat) (s : jsstring) : bool := (min <=? strLength s)%nat.

(** [isLength({ min: n, max: n })] *)
Definition exactly (n : nat) (s : jsstring) : bool := (strLength s =? n)%nat.

(** [isIn(values)] *)
Definition isIn (values : list string) (s : jsstring) : bool :=
  existsb (fun v => bool_decide (s = js v)) values.

(** [notEmpty()] *)
Definition notEmpty (s : jsstring) : bool :=
  match s with
  | [] => false
  | _ :: _ => true
  end.

(** A check that the field must pass. *)
Definition required (chk : jsstring -> bool) (v : option jsstring) : option jsstring :=
  match v with
  | Some s => if chk s then Some s else None
  | None => None
  end.

(** [.optional()]: an absent field passes. *)
Definition optional (chk : jsstring -> bool) (v : option jsstring)
  : option (option jsstring) :=
  match v with
  | Some s => if chk s then Some (Some s) else None
  | None => Some None
  end.

(** A check that a field on which no sanitizer has run must pass.  The
    check is run on what the validator sees of the value, on every
    element when the value is an array, and the value goes on to the
    handler as it is.  An absent field is seen as the empty string; the
    checks that this is used with, [notEmpty()] and the pattern of a
    mobile number, both fail on it. *)
Definition supplied (chk : jsstring -> bool) (f : BodyField) : option Supplied :=
  match f with
  | Missing => None
  | Text s => if chk s then Some (Str s) else None
  | Foreign seen cast => if forallb chk seen then Some (NonStr cast) else None
  end.

(** The same after [.optional()]. *)
Definition suppliedIfAny (chk : jsstring -> bool) (f : BodyField)
  : option (option Supplied) :=
  match f with
  | Missing => Some None
  | _ => Some <$> supplied chk f
  end.

End Validator.
Import Validator.

(** [createAlertValidation], then [const { latitude, longitude, address,
    description, emergencyType } = req.body]. *)
Record CreateBody : Type := mkCreateBody {
  cb_latitude : Q;
  cb_longitude : Q;
  cb_address : option jsstring;
  cb_description : option jsstring;
  cb_emergencyType : option jsstring
}.

Definition createAlertValidation (req : Request) : list jsstring + CreateBody :=
  match
    both (check (isFloat (-90) 90 (body_latitude req)) "Valid latitude is required")
   (both (check (isFloat (-180) 180 (body_longitude req)) "Valid longitude is required")
   (both (check (optional (isLength 500) (body_description req))
            "Description must be less than 500 characters")
         (check (optional (isIn ["harassment"; "assault"; "medical"; "accident"; "other"]%string)
                   (body_emergencyType req))
            "Invalid emergency type")))
  with
  | inl details => inl details
  | inr (la, (lo, (d, t))) => inr (mkCreateBody la lo (body_address req) d t)
  end.

(** The chain of the status route, then [const { status } = req.body]. *)
Definition statusValidation (req : Request) : list jsstring + jsstring :=
  check (required (isIn ["active"; "resolved"; "false_alarm"]%string) (body_status req))
    "Invalid status".

(** The chains of the contact-response route, then
    [const { contactPhone, response } = req.body]. *)
Definition contactResponseValidation (req : Request)
  : list jsstring + (Supplied * jsstring) :=
  both (check (supplied notEmpty (body_contactPhone req)) "Contact phone is required")
       (check (required (isIn ["acknowledged"; "responding"; "unreachable"]%string)
                 (body_response req))
          "Invalid response").

(** ** The notification loop *)

(** Whom a loop iteration notifies: [userDoc] with the fixed relationship
    in the create route, [contact] in the notify-contacts route. *)
Record Recipient : Type := mkRecipient {
  rc_name : option jsstring;
  rc_phone : option jsstring;
  rc_relationship : option jsstring
}.

Definition systemUser (userDoc : User) : Recipient :=
  mkRecipient (user_name userDoc) (user_phone userDoc) (Some (js "System User")).

Definition emergencyContact (contact : Contact) : Recipient :=
  mkRecipient (contact_name contact) (contact_phone contact) (contact_relationship contact).

(** [alertLocation]: a map link when both coordinates are truthy. *)
Definition alertLocation (loc : Location) : option (Q * Q) :=
  match latitude loc, longitude loc with
  | Some la, Some lo =>
      if negb (Qeq_bool la 0) && negb (Qeq_bool lo 0) then Some (la, lo) else None
  | _, _ => None
  end.

Definition emergencyMessage (user : User) (a : SOSAlert) : Message :=
  mkMessage (orElse (user_name user) (js "A user")) (user_phone user)
    (alertLocation (location a)).

(** The inner [try]/[catch] of one iteration: [status] and [errorMsg]. *)
Definition attempt (env : Env) (i : nat) (m : Message) (formattedPhone : jsstring)
  : jsstring * jsstring :=
  if twilioConfigured env then
    match twilioSend env i m formattedPhone with
    | None => (js "sent", [])
    | Some err => (js "failed", js "SMS failed: " ++ message err)
    end
  else
    (js "logged", js "SMS not configured - emergency logged for manual notification").

(** One iteration of the loop: the entry that it pushes. *)
Definition notifyOne (env : Env) (i : nat) (m : Message) (r : Recipient)
  : outcome NotificationResult :=
  formattedPhone ← formatPhoneNumber (field (rc_phone r));
  let '(status, errorMsg) := attempt env i m formattedPhone in
  mret (mkResult (rc_name r) formattedPhone (rc_relationship r) status errorMsg).

(** [for (const r of recipients) { ... notificationResults.push(...) }]:
    the array after the loop, and the exception that ended it early, if
    any.  The array keeps what was pushed before the exception. *)
Fixpoint notifyLoop (env : Env) (m : Message) (i : nat) (recipients : list Recipient)
    (notificationResults : list NotificationResult)
  : list NotificationResult * option JsError :=
  match recipients with
  | [] => (notificationResults, None)
  | r :: rest =>
      match notifyOne env i m r with
      | Throws e => (notificationResults, Some e)
      | Returns entry => notifyLoop env m (S i) rest (notificationResults ++ [entry])
      end
  end.

(** [notificationResults.map(result => ({ phone, response: 'pending',
    notifiedAt: new Date(), status, error }))], as the subdocuments that
    the assignment to [notifiedContacts] makes of these objects: [status]
    and [error] are no paths of the schema and do not get into them. *)
Definition ledger (env : Env) (results : list NotificationResult) : list NotifiedContact :=
  imap (fun k result => mkNotified (nr_phone result) (js "pending") (clock env k))
       results.

(** ** POST /create *)

(** [new SOSAlert({ ... })], with the defaults of sosAlertSchema for the
    paths that the route does not set: [status] is active, [priority] is
    high, [notifiedContacts] is empty, and [resolvedAt] and [resolvedBy],
    which have no default, are absent. *)
Definition newSOSAlert (env : Env) (user : User) (body : CreateBody) : SOSAlert :=
  mkAlert (newObjectId env) (RefId (user_id user)) (user_aadhar user)
    (orElse (user_name user) (js "Anonymous")) (user_phone user)
    (mkLocation (Some (cb_latitude body)) (Some (cb_longitude body))
       (orElse (cb_address body) []))
    (orElse (cb_description body) [])
    (orElse (cb_emergencyType body) (js "other"))
    (js "active") (js "high") [] None None (timestamp env).

(** The inner [try] of the create route, lines 76 to 160: what
    [notificationResults] and [sosAlert] hold after it, and the database.
    Its [catch] only logs. *)
Definition notificationPhase (env : Env) (db : Db) (user : User) (sosAlert : SOSAlert)
  : list NotificationResult * SOSAlert * Db :=
  match findOtherActiveUsers env db (user_id user) with
  | Throws _ => ([], sosAlert, db)
  | Returns [] => ([], sosAlert, db)
  | Returns allUsers =>
      match notifyLoop env (emergencyMessage user sosAlert) 0
              (List.map systemUser allUsers) [] with
      | (notificationResults, Some _) => (notificationResults, sosAlert, db)
      | (notificationResults, None) =>
          let sosAlert' := set_notifiedContacts (ledger env notificationResults) sosAlert in
          match save env 1 db sosAlert' with
          | Throws _ => (notificationResults, sosAlert', db)
          | Returns db' => (notificationResults, sosAlert', db')
          end
      end
  end.

(** The handler.  Nothing throws after the first [save], so the outer
    [catch] always leaves the database as it found it. *)
Definition createAlert (env : Env) (db : Db) (req : Request) : Reply * Db :=
  try_catch
    (match createAlertValidation req with
     | inl details => mret (ValidationFailed details, db)
     | inr body =>
         user ← authenticated req;
         let sosAlert := newSOSAlert env user body in
         db1 ← save env 0 db sosAlert;
         let '(notificationResults, sosAlert', db2) :=
           notificationPhase env db1 user sosAlert in
         mret (Created (getSummary sosAlert') notificationResults, db2)
     end)
    (fun _ => (ServerError (js "Failed to create SOS alert"), db)).

(** ** PUT /:alertId/status *)

Definition updateStatus (env : Env) (db : Db) (req : Request) : Reply * Db :=
  try_catch
    (match statusValidation req with
     | inl details => mret (ValidationFailed details, db)
     | inr newStatus =>
         found ← findById env db (params_alertId req);
         match found with
         | None => mret (NotFound, db)
         | Some alert =>
             if negb (bool_decide (status alert = js "active"))
             then mret (InvalidTransition, db)
             else
               let alert1 := set_status newStatus alert in
               alert2 ← (if bool_decide (newStatus = js "resolved")
                         then user ← authenticated req;
                              mret (set_resolved (clock env 0) (user_id user) alert1)
                         else mret alert1);
               db' ← save env 0 db alert2;
               mret (StatusUpdated (getSummary alert2), db')
         end
     end)
    (fun _ => (ServerError (js "Failed to update alert status"), db)).

(** ** POST /:alertId/contact-response *)

(** [notifiedContacts.find(c => c.phone === contactPhone)] for a phone
    that is a string, then the update of the entry found or the push of a
    new one. *)
Definition respond (now : Date) (contactPhone response : jsstring)
    (contacts : list NotifiedContact) : list NotifiedContact :=
  match list_find (fun c => nc_phone c = contactPhone) contacts with
  | Some (i, contact) => <[i := mkNotified (nc_phone contact) response now]> contacts
  | None => contacts ++ [mkNotified contactPhone response now]
  end.

(** The same for whatever the body holds as [contactPhone].  A value
    that is not a string is [===] to the phone of no entry: its entry is
    pushed, with the phone that the path casts the value to. *)
Definition recordResponse (now : Date) (contactPhone : Supplied) (response : jsstring)
    (contacts : list NotifiedContact) : outcome (list NotifiedContact) :=
  match contactPhone with
  | Str phone => Returns (respond now phone response contacts)
  | NonStr _ =>
      phone ← castString contactPhone;
      mret (contacts ++ [mkNotified phone response now])
  end.

Definition recordContactResponse (env : Env) (db : Db) (req : Request) : Reply * Db :=
  try_catch
    (match contactResponseValidation req with
     | inl details => mret (ValidationFailed details, db)
     | inr (contactPhone, response) =>
         found ← findById env db (params_alertId req);
         match found with
         | None => mret (NotFound, db)
         | Some alert =>
             contacts ← recordResponse (clock env 0) contactPhone response
                          (notifiedContacts alert);
             let alert' := set_notifiedContacts contacts alert in
             db' ← save env 0 db alert';
             mret (ResponseRecorded (getSummary alert'), db')
         end
     end)
    (fun _ => (ServerError (js "Failed to record contact response"), db)).

(** ** POST /:alertId/notify-contacts *)

(** [alert.userId._id ? alert.userId._id.toString() : alert.userId.toString()]:
    the id of the populated document, or the rendering of the stored id;
    on [null] the property read throws. *)
Definition alertUserId (r : UserRef) : outcome jsstring :=
  match r with
  | RefDoc u => Returns (toString (user_id u))
  | RefId id => Returns (toString id)
  | RefNull => Throws (mkError (js "Cannot read properties of null"))
  end.

(** [!user || !user.emergencyContacts || user.emergencyContacts.length === 0]
    sends the 400; otherwise the contacts to loop over. *)
Definition contactsOf (user : option User) : list Contact :=
  match user with
  | Some u => default [] (emergencyContacts u)
  | None => []
  end.

(** The handler from the point where [alert] is in memory. *)
Definition notifyLoaded (env : Env) (db : Db) (req : Request) (alert : SOSAlert)
  : outcome (Reply * Db) :=
  alertUser ← alertUserId (userId alert);
  requester ← authenticated req;
  if negb (bool_decide (alertUser = toString (user_id requester)))
  then mret (Forbidden, db)
  else
    user ← findUserById env db (user_id requester);
    match contactsOf user with
    | [] => mret (NoContacts, db)
    | contacts =>
        match notifyLoop env (emergencyMessage requester alert) 0
                (List.map emergencyContact contacts) [] with
        | (_, Some e) => Throws e
        | (notificationResults, None) =>
            let alert' := set_notifiedContacts (ledger env notificationResults) alert in
            db' ← save env 0 db alert';
            mret (ContactsNotified notificationResults (getSummary alert'), db')
        end
    end.

Definition notifyContacts (env : Env) (db : Db) (req : Request) : Reply * Db :=
  try_catch
    (found ← findById env db (params_alertId req);
     match found with
     | None => mret (NotFound, db)
     | Some stored => notifyLoaded env db req (populate (users db) stored)
     end)
    (fun _ => (ServerError (js "Failed to notify contacts"), db)).

(** ** The normalizer as the specification words it *)

Module NormalizerSpec.

(** "Exactly 10 digits starting with a digit 6-9". *)
Definition tenDigitMobile (s : jsstring) : Prop :=
  length s = 10%nat /\
  Forall (fun c => 48 <= c <= 57) s /\
  exists c, head s = Some c /\ 54 <= c <= 57.

(** "Already starts with +". *)
Definition international (s : jsstring) : Prop := exists rest, s = 43 :: rest.

(** "A leading 0 followed by 10 digits starting with 6-9". *)
Definition trunkMobile (s : jsstring) : Prop := exists d, s = 48 :: d /\ tenDigitMobile d.

(** The rules of section 4.1 in their order, each one applying only when
    none before it does.  The input is absent or a string. *)
Inductive normalize : option jsstring -> jsstring -> Prop :=
| rule_absent : normalize None []
| rule_empty : normalize (Some []) []
| rule_international s :
    s <> [] -> international (trim s) -> normalize (Some s) (trim s)
| rule_mobile s :
    s <> [] -> ~ international (trim s) -> tenDigitMobile (trim s) ->
    normalize (Some s) (js "+91" ++ trim s)
| rule_trunk s d :
    s <> [] -> ~ international (trim s) -> ~ tenDigitMobile (trim s) ->
    trim s = 48 :: d -> tenDigitMobile d ->
    normalize (Some s) (js "+91" ++ d)
| rule_otherwise s :
    s <> [] -> ~ international (trim s) -> ~ tenDigitMobile (trim s) ->
    ~ trunkMobile (trim s) ->
    normalize (Some s) (trim s).

End NormalizerSpec.

(** ** Notions of the specification about alerts *)

(** The identity of the creator that a [userId] path stands for, stored
    raw or expanded; [null] stands for nobody. *)
Definition creatorOf (r : UserRef) : option ObjectId :=
  match r with
  | RefId id => Some id
  | RefDoc u => Some (user_id u)
  | RefNull => None
  end.

(** The recipient set of the broadcast mode: every other active user. *)
Definition otherActiveUsers (db : Db) (creator : User) : list User :=
  List.filter (fun u => isActive u && negb (bool_decide (user_id u = user_id creator)))
    (users db).

(** No call to the database driver rejects. *)
Definition reliable (env : Env) : Prop := forall call, dbFault env call = None.

(** ** Sample data *)

Module Sample.

(** The cast of a release that takes the 24 hexadecimal digits of an id
    and nothing else; the id is kept in lower case, as [toString()]
    renders it. *)
Definition hexObjectId (s : jsstring) : option ObjectId :=
  if (length s =? 24)%nat && forallb isHexDigit s
  then Some (List.map toLowerHex s)
  else None.

(** Three active users and one who is not.  Asha has saved three
    emergency contacts, two of them under one number; Bina has no aadhar
    and an empty list of contacts; Chitra has no name and no list. *)
Definition asha : User :=
  mkUser (js "64a100000000000000000001") (Some (js "123412341234")) (Some (js "Asha"))
    (Some (js "9876543210")) true
    (Some [mkContact (Some (js "Meena")) (Some (js "9123456789")) (Some (js "Mother"));
           mkContact (Some (js "Kiran")) (Some (js "09811111111")) (Some (js "Brother"));
           mkContact (Some (js "Kiran (office)")) (Some (js "+919811111111")) (Some [])]).

Definition bina : User :=
  mkUser (js "64b200000000000000000002") None (Some (js "Bina"))
    (Some (js "09812345678")) true (Some []).

Definition chitra : User :=
  mkUser (js "64c300000000000000000003") (Some (js "555566667777")) None
    (Some (js "+15550001")) true None.

Definition devi : User :=
  mkUser (js "64d400000000000000000004") None (Some (js "Devi"))
    (Some (js "9000000000")) false None.

(** A configured transport that rejects the first send of a loop, and a
    database driver that answers. *)
Definition env : Env :=
  mkEnv true
    (fun i _ _ => match i with O => Some (mkError (js "unreachable")) | _ => None end)
    (fun k => 1700000000000 + N.of_nat k)
    (js "a1e700000000000000000007") 1700000000000
    (fun _ => None)
    hexObjectId.

(** The same with a driver that rejects the second save of a request. *)
Definition flaky : Env :=
  mkEnv (twilioConfigured env) (twilioSend env) (clock env) (newObjectId env)
    (timestamp env)
    (fun call => match call with
                 | AlertSave 1 => Some (mkError (js "disconnected"))
                 | _ => None
                 end)
    (castObjectId env).

(** The same with a driver that cannot find users. *)
Definition blind : Env :=
  mkEnv (twilioConfigured env) (twilioSend env) (clock env) (newObjectId env)
    (timestamp env)
    (fun call => match call with
                 | UserFind => Some (mkError (js "timed out"))
                 | _ => None
                 end)
    (castObjectId env).

(** An active alert of Asha's whose ledger has an entry for each of her
    contacts, the last two under one phone. *)
Definition alert : SOSAlert :=
  mkAlert (js "a1e000000000000000000001") (RefId (user_id asha)) (user_aadhar asha)
    (js "Asha") (user_phone asha)
    (mkLocation (Some (129 # 10)%Q) (Some (776 # 10)%Q) [])
    [] (js "assault") (js "active") (js "high")
    [mkNotified (js "+919123456789") (js "pending") 1699999999000;
     mkNotified (js "+919811111111") (js "pending") 1699999999001;
     mkNotified (js "+919811111111") (js "pending") 1699999999002]
    None None 1699999990000.

(** An older active alert of Chitra's, with an empty ledger. *)
Definition alert2 : SOSAlert :=
  mkAlert (js "a1e000000000000000000002") (RefId (user_id chitra)) (user_aadhar chitra)
    (js "Anonymous") (user_phone chitra)
    (mkLocation (Some (285 # 10)%Q) (Some (772 # 10)%Q) [])
    [] (js "other") (js "active") (js "high") [] None None 1699999980000.

Definition db : Db :=
  mkDb (<[alert_id alert2 := alert2]> {[ alert_id alert := alert ]})
    [asha; bina; chitra; devi].

(** A request about Asha's alert, from [who], with a status and with a
    contact's response in its body. *)
Definition request (who : option User) (newStatus : option jsstring) : Request :=
  mkRequest who (alert_id alert) None None None None None newStatus None
    (Text (js "+919123456789")) (Some (js "acknowledged")).

(** A response of the contact with [phone] to the alert under [alertId],
    from nobody in particular. *)
Definition responseRequest (alertId : jsstring) (phone : BodyField) : Request :=
  mkRequest None alertId None None None None None None None
    phone (Some (js "responding")).


(** A request whose [:alertId] is no ObjectId. *)
Definition strayRequest : Request :=
  mkRequest (Some asha) (js "not-an-id") None None None None None
    (Some (js "resolved")) None (Text (js "+919123456789")) (Some (js "acknowledged")).

(** A request with a castable [:alertId] under which nothing is stored. *)
Definition absentRequest : Request :=
  mkRequest (Some asha) (js "a1e0000000000000000000ff") None None None None None
    (Some (js "resolved")) None (Text (js "+919123456789")) (Some (js "acknowledged")).

(** An alert whose creator has no document in the user collection any
    more, alone in its database, and a request of [who] about it. *)
Definition orphan : SOSAlert :=
  mkAlert (js "a1e000000000000000000003") (RefId (js "64ee00000000000000000005"))
    (Some (js "999900001111")) (js "Esha") (Some (js "9555500000"))
    (mkLocation (Some (191 # 10)%Q) (Some (728 # 10)%Q) [])
    [] (js "other") (js "active") (js "high") [] None None 1699999970000.



(** Asha's alert once Bina has resolved it, alone in its database. *)
Definition closed : SOSAlert :=
  set_resolved 1699999995000 (user_id bina) (set_status (js "resolved") alert).

Definition closedDb : Db :=
  mkDb {[ alert_id closed := closed ]} [asha; bina; chitra; devi].

(** The alert without creator once a contact has answered under a bare
    ten-digit number, alone in its database. *)
Definition answered : SOSAlert :=
  set_notifiedContacts [mkNotified (js "9555500000") (js "acknowledged") 1699999975000]
    orphan.

Definition answeredDb : Db :=
  mkDb {[ alert_id answered := answered ]} [asha; bina; chitra; devi].

(** The request of [who] to create an alert. *)
Definition createRequestOf (who : User) : Request :=
  mkRequest (Some who) [] (Some (129 # 10)%Q) (Some (776 # 10)%Q) None None
    (Some (js "assault")) None None Missing None.

(** Asha's request to create an alert. *)
Definition createRequest : Request := createRequestOf asha.

Definition createBody : CreateBody :=
  mkCreateBody (129 # 10)%Q (776 # 10)%Q None None (Some (js "assault")).

End Sample.

(** * The rest of the code *)

(** ** Invariants of the alert collection *)

(** Every alert is stored under its own [_id]. *)
Definition keyed (db : Db) : Prop :=
  forall id a, alerts db !! id = Some a -> alert_id a = id.

(** An alert as the routes leave it: it satisfies its schema, and it
    carries the time and the author of its resolution exactly when it is
    resolved. *)
Definition settled (a : SOSAlert) : Prop :=
  validate a = true /\
  (status a = js "resolved" <-> is_Some (resolvedAt a)) /\
  (status a = js "resolved" <-> is_Some (resolvedBy a)).

Definition consistent (db : Db) : Prop :=
  keyed db /\ forall id a, alerts db !! id = Some a -> settled a.

(** The four handlers that write to the alert collection. *)
Definition handlers : list (Env -> Db -> Request -> Reply * Db) :=
  [createAlert; updateStatus; recordContactResponse; notifyContacts].

(** ** The client: sendSOSAlert of public/fire.js *)

(** What [getCurrentLocation()] resolves with. *)
Record Position : Type := mkPosition {
  pos_latitude : Q;
  pos_longitude : Q;
  pos_accuracy : Q
}.

(** The browser that the client runs in: what the k-th call of
    [getCurrentLocation()] does ([None]: it rejects), what reverse
    geocoding gives as [display_name] for a point ([None]: the fetch
    fails or the reply has none), and the user that the stored token
    authenticates at the server. *)
Record Browser : Type := mkBrowser {
  getCurrentLocation : nat -> option Position;
  display_name : Q -> Q -> option jsstring;
  tokenUser : option User
}.

Definition maxLocationAttempts : nat := 2.

(** The retry loop of lines 396 to 417, with [fuel] iterations left:
    [location] after it, undefined when the fuel runs out first. *)
Fixpoint retryLocation (b : Browser) (locationAttempts fuel : nat) : option Position :=
  match fuel with
  | O => None
  | S fuel' =>
      if (locationAttempts <? maxLocationAttempts)%nat then
        match getCurrentLocation b locationAttempts with
        | Some location => Some location
        | None =>
            let locationAttempts := S locationAttempts in
            if (maxLocationAttempts <=? locationAttempts)%nat
            then Some (mkPosition 0 0 (inject_Z 999999))
            else retryLocation b locationAttempts fuel'
        end
      else None
  end.

(** [getAddressFromCoordinates]: it catches its own failures. *)
Definition getAddressFromCoordinates (b : Browser) (lat lon : Q) : jsstring :=
  orElse (display_name b lat lon) (js "Address not available").

(** The request that [createSOSAlert] posts for [sendSOSAlert]. *)
Definition sosRequest (b : Browser) (fuel : nat) (description emergencyType : jsstring)
  : option Request :=
  location ← retryLocation b 0 fuel;
  let address :=
    if negb (Qeq_bool (pos_latitude location) 0) &&
       negb (Qeq_bool (pos_longitude location) 0)
    then getAddressFromCoordinates b (pos_latitude location) (pos_longitude location)
    else js "Location not available" in
  Some (mkRequest (tokenUser b) []
          (Some (pos_latitude location)) (Some (pos_longitude location))
          (Some address) (Some description) (Some emergencyType)
          None None Missing None).

(** [response.notifications.filter(n => n.status === s)], lines 448 to
    450. *)
Definition withStatus (s : string) (notifications : list NotificationResult)
  : list NotificationResult :=
  List.filter (fun n => bool_decide (nr_status n = js s)) notifications.

(** ** Reading alerts: the statics of models/SOSAlert.js and their routes *)

(** [find(filter)] on the alert collection, in the order of the
    collection. *)
Definition findAlerts (db : Db) (filter : SOSAlert -> bool) : list SOSAlert :=
  List.filter filter (map_to_list (alerts db)).*2.

(** [.sort({ createdAt: -1 })]: newer before older. *)
Definition newerFirst (a b : SOSAlert) : Prop := createdAt b <= createdAt a.

#[global] Instance newerFirst_dec : RelDecision newerFirst.
Proof. intros a b. unfold newerFirst. apply _. Defined.

(** [SOSAlert.getActiveAlerts()], rejecting with [fault] if the query
    does. *)
Definition getActiveAlerts (fault : option JsError) (db : Db) : outcome (list SOSAlert) :=
  match fault with
  | Some e => Throws e
  | None =>
      Returns (populate (users db) <$>
                 merge_sort newerFirst
                   (findAlerts db (fun a => bool_decide (status a = js "active"))))
  end.

(** [SOSAlert.getUserAlerts(userId)] *)
Definition getUserAlerts (fault : option JsError) (db : Db) (id : ObjectId)
  : outcome (list SOSAlert) :=
  match fault with
  | Some e => Throws e
  | None =>
      Returns (merge_sort newerFirst
                 (findAlerts db (fun a => bool_decide (creatorOf (userId a) = Some id))))
  end.

(** What the two list routes send. *)
Inductive AlertsReply : Type :=
| AlertList (alerts : list Summary) (count : nat)
| AlertsError (error : jsstring).

(** GET /active *)
Definition activeAlerts (fault : option JsError) (db : Db) : AlertsReply :=
  try_catch
    (activeAlerts ← getActiveAlerts fault db;
     mret (AlertList (getSummary <$> activeAlerts) (length activeAlerts)))
    (fun _ => AlertsError (js "Failed to get active alerts")).

(** GET /my-alerts *)
Definition myAlerts (fault : option JsError) (db : Db) (req : Request) : AlertsReply :=
  try_catch
    (user ← authenticated req;
     userAlerts ← getUserAlerts fault db (user_id user);
     mret (AlertList (getSummary <$> userAlerts) (length userAlerts)))
    (fun _ => AlertsError (js "Failed to get user alerts")).

(** ** The two test routes *)

(** [{ id: u._id, name: u.name, phone: u.phone }] *)
Record UserCard : Type := mkCard {
  card_id : ObjectId;
  card_name : option jsstring;
  card_phone : option jsstring
}.

Definition cardOf (u : User) : UserCard := mkCard (user_id u) (user_name u) (user_phone u).

(** A count in a template literal. *)
Definition decimal (n : nat) : jsstring := js (NilEmpty.string_of_uint (Nat.to_uint n)).

(** GET /test/emergency-contacts *)
Record ContactsReport : Type := mkContactsReport {
  cr_user : UserCard;
  cr_emergencyContacts : list Contact;
  cr_contactCount : nat;
  cr_twilioConfigured : bool;
  cr_message : jsstring
}.

Inductive ContactsTestReply : Type :=
| ContactsTest (report : ContactsReport)
| ContactsTestNoUser
| ContactsTestError (error : jsstring).

Definition testEmergencyContacts (env : Env) (db : Db) (req : Request) : ContactsTestReply :=
  try_catch
    (requester ← authenticated req;
     found ← findUserById env db (user_id requester);
     match found with
     | None => mret ContactsTestNoUser
     | Some user =>
         mret (ContactsTest
                 (mkContactsReport (cardOf user)
                    (default [] (emergencyContacts user))
                    (from_option length 0%nat (emergencyContacts user))
                    (twilioConfigured env)
                    (match emergencyContacts user with
                     | Some (_ :: _) =>
                         js "Emergency contacts found and ready for notifications"
                     | _ =>
                         js "No emergency contacts found. Please add contacts in your profile."
                     end)))
     end)
    (fun _ => ContactsTestError (js "Failed to test emergency contacts")).

(** GET /test/all-users *)
Record UsersReport : Type := mkUsersReport {
  ur_currentUser : UserCard;
  ur_totalUsers : nat;
  ur_otherUsers : nat;
  ur_usersList : list (UserCard * bool);
  ur_twilioConfigured : bool;
  ur_message : jsstring
}.

Inductive UsersTestReply : Type :=
| UsersTest (report : UsersReport)
| UsersTestError (error : jsstring).

Definition testAllUsers (env : Env) (db : Db) (req : Request) : UsersTestReply :=
  try_catch
    (allUsers ← rejects env UserFind (List.filter isActive (users db));
     requester ← authenticated req;
     found ← findUserById env db (user_id requester);
     let otherUsers :=
       List.filter
         (fun u => negb (bool_decide (toString (user_id u) = toString (user_id requester))))
         allUsers in
     match found with
     | None => Throws (mkError (js "Cannot read properties of null"))
     | Some currentUser =>
         mret (UsersTest
                 (mkUsersReport (cardOf currentUser)
                    (length allUsers) (length otherUsers)
                    ((fun u => (cardOf u, isActive u)) <$> otherUsers)
                    (twilioConfigured env)
                    (match otherUsers with
                     | _ :: _ =>
                         decimal (length otherUsers) ++
                           js " other users found and ready for notifications"
                     | [] => js "No other users found in the system."
                     end)))
     end)
    (fun _ => UsersTestError (js "Failed to test all users")).

(** Newest first, on summaries. *)
Definition newestFirst (l : list Summary) : Prop :=
  StronglySorted (fun s t => sum_createdAt t <= sum_createdAt s) l.

(** ** routes/users.js: the emergency contacts of a user *)

Module Contacts.

(** A subdocument of [emergencyContacts], with its [_id]. *)
Record SavedContact : Type := mkSaved {
  saved_id : ObjectId;
  saved : Contact
}.

(** A document of the user collection as these routes see it: the user
    with the ids of the contacts. *)
Record Account : Type := mkAccount {
  account_id : ObjectId;
  account_aadhar : option jsstring;
  account_name : option jsstring;
  account_phone : option jsstring;
  account_active : bool;
  account_contacts : list SavedContact
}.

(** The same document as the SOS routes read it. *)
Definition userOf (a : Account) : User :=
  mkUser (account_id a) (account_aadhar a) (account_name a) (account_phone a)
    (account_active a) (Some (saved <$> account_contacts a)).

Definition set_contacts (l : list SavedContact) (a : Account) : Account :=
  mkAccount (account_id a) (account_aadhar a) (account_name a) (account_phone a)
    (account_active a) l.

(** [req] of these routes: the document that [authenticateToken]
    attached, the [:contactId] parameter and the body.  [name] and
    [relationship] go through the sanitizer [trim()], which makes a
    string of what was sent (of each element, when that is an array,
    which is left out), and are given as the string that they hold;
    [phone], on which no sanitizer runs and which is compared with [===],
    is given as the field itself. *)
Record ContactRequest : Type := mkContactRequest {
  creq_user : option Account;
  params_contactId : jsstring;
  cbody_name : option jsstring;
  cbody_phone : BodyField;
  cbody_relationship : option jsstring
}.

Inductive ContactsReply : Type :=
| ContactList (contacts : list SavedContact)
| ContactAdded (contacts : list SavedContact)
| ContactUpdated (contacts : list SavedContact)
| ContactDeleted (contacts : list SavedContact)
| ContactInvalid (details : list jsstring)
| ContactExists
| ContactNotFound
| UserNotFound
| ContactsError (error : jsstring).

Definition contactsCode (r : ContactsReply) : N :=
  match r with
  | ContactList _ | ContactUpdated _ | ContactDeleted _ => 200
  | ContactAdded _ => 201
  | ContactInvalid _ | ContactExists => 400
  | ContactNotFound | UserNotFound => 404
  | ContactsError _ => 500
  end.

(** [req.user]: reading a property of it throws when it is absent. *)
Definition account (req : ContactRequest) : outcome Account :=
  match creq_user req with
  | Some a => Returns a
  | None => Throws (mkError (js "Cannot read properties of undefined"))
  end.

(** The collection once the document [a] has replaced the one of its
    id. *)
Definition saved_as (a : Account) (accounts : list Account) : list Account :=
  (fun b => if bool_decide (account_id b = account_id a) then a else b) <$> accounts.

(** [user.save()]: the document replaces the one of its id; [fault] is
    what the call rejects with, if it does, be it for the driver or for a
    validator of models/User.js, which is not among the sources. *)
Definition saveAccount (fault : option JsError) (accounts : list Account) (a : Account)
  : outcome (list Account) :=
  match fault with
  | Some e => Throws e
  | None => Returns (saved_as a accounts)
  end.

(** GET /emergency-contacts *)
Definition getContacts (fault : option JsError) (accounts : list Account)
    (req : ContactRequest) : ContactsReply :=
  try_catch
    (requester ← account req;
     found ← (match fault with
              | Some e => Throws e
              | None =>
                  Returns (find (fun b => bool_decide (account_id b = account_id requester))
                             accounts)
              end);
     match found with
     | None => mret UserNotFound
     | Some user => mret (ContactList (account_contacts user))
     end)
    (fun _ => ContactsError (js "Failed to get user")).

(** The chains of POST /emergency-contacts; [trim()] sanitizes the name
    and the relationship before their checks, and an absent name is
    sanitized to the empty string. *)
Definition addValidation (req : ContactRequest)
  : list jsstring + (jsstring * (Supplied * option jsstring)) :=
  both (check (required (atLeast 2) (Some (trim (default [] (cbody_name req)))))
          "Contact name must be at least 2 characters long")
 (both (check (supplied re_mobile (cbody_phone req))
          "Please enter a valid Indian mobile number")
       (check (optional (isLength 50) (trim <$> cbody_relationship req))
          "Relationship must be less than 50 characters")).

(** POST /emergency-contacts; [fresh] is the [_id] of the pushed
    subdocument. *)
Definition addContact (fresh : ObjectId) (fault : option JsError)
    (accounts : list Account) (req : ContactRequest)
  : ContactsReply * list Account :=
  try_catch
    (match addValidation req with
     | inl details => mret (ContactInvalid details, accounts)
     | inr (name, (phone, relationship)) =>
         user ← account req;
         match find (fun contact => bool_decide (strictEq (contact_phone (saved contact)) phone))
                 (account_contacts user) with
         | Some existingContact => mret (ContactExists, accounts)
         | None =>
             phone' ← castString phone;
             let contacts :=
               account_contacts user ++
               [mkSaved fresh
                  (mkContact (Some name) (Some phone') (Some (orElse relationship [])))] in
             accounts' ← saveAccount fault accounts (set_contacts contacts user);
             mret (ContactAdded contacts, accounts')
         end
     end)
    (fun _ => (ContactsError (js "Failed to add emergency contact"), accounts)).

(** The chains of PUT /emergency-contacts/:contactId: every field is
    optional. *)
Definition updateValidation (req : ContactRequest)
  : list jsstring + (option jsstring * (option Supplied * option jsstring)) :=
  both (check (optional (atLeast 2) (trim <$> cbody_name req))
          "Contact name must be at least 2 characters long")
 (both (check (suppliedIfAny re_mobile (cbody_phone req))
          "Please enter a valid Indian mobile number")
       (check (optional (isLength 50) (trim <$> cbody_relationship req))
          "Relationship must be less than 50 characters")).

(** [findIndex(contact => contact._id.toString() === req.params.contactId)] *)
Definition findIndex (contactId : jsstring) (contacts : list SavedContact)
  : option (nat * SavedContact) :=
  list_find (fun contact => toString (saved_id contact) = contactId) contacts.

(** [if (phone)] on what the chain has let through: a string is falsy
    when it is empty; a value that is not a string and passes the pattern
    is a number other than zero or an array, and both are truthy. *)
Definition truthyPhone (phone : option Supplied) : option Supplied :=
  match phone with
  | Some (Str []) | None => None
  | Some v => Some v
  end.

(** The three conditional assignments of the update; the phone is cast
    to the string that its path holds. *)
Definition updated (name : option jsstring) (phone : option Supplied)
    (relationship : option jsstring) (c : Contact) : outcome Contact :=
  phone' ← match truthyPhone phone with
           | Some v => p ← castString v; mret (Some p)
           | None => mret (contact_phone c)
           end;
  mret (mkContact
          (match name with Some (_ :: _) => name | _ => contact_name c end)
          phone'
          (match relationship with Some _ => relationship | None => contact_relationship c end)).

(** PUT /emergency-contacts/:contactId *)
Definition updateContact (fault : option JsError) (accounts : list Account)
    (req : ContactRequest) : ContactsReply * list Account :=
  try_catch
    (match updateValidation req with
     | inl details => mret (ContactInvalid details, accounts)
     | inr (name, (phone, relationship)) =>
         user ← account req;
         match findIndex (params_contactId req) (account_contacts user) with
         | None => mret (ContactNotFound, accounts)
         | Some (contactIndex, contact) =>
             contact' ← updated name phone relationship (saved contact);
             let contacts :=
               <[contactIndex := mkSaved (saved_id contact) contact']>
                 (account_contacts user) in
             accounts' ← saveAccount fault accounts (set_contacts contacts user);
             mret (ContactUpdated contacts, accounts')
         end
     end)
    (fun _ => (ContactsError (js "Failed to update emergency contact"), accounts)).

(** DELETE /emergency-contacts/:contactId *)
Definition deleteContact (fault : option JsError) (accounts : list Account)
    (req : ContactRequest) : ContactsReply * list Account :=
  try_catch
    (user ← account req;
     match findIndex (params_contactId req) (account_contacts user) with
     | None => mret (ContactNotFound, accounts)
     | Some (contactIndex, _) =>
         let contacts := delete contactIndex (account_contacts user) in
         accounts' ← saveAccount fault accounts (set_contacts contacts user);
         mret (ContactDeleted contacts, accounts')
     end)
    (fun _ => (ContactsError (js "Failed to delete emergency contact"), accounts)).

(** The phones of the saved contacts are pairwise different. *)
Definition distinctPhones (contacts : list SavedContact) : Prop :=
  NoDup ((fun c => contact_phone (saved c)) <$> contacts).

End Contacts.

(** ** routes/auth.js: registration and login *)

Module Auth.

Import Contacts.

(** A document of the user collection with the fields that these two
    routes use besides those of [Account]. *)
Record UserDoc : Type := mkUserDoc {
  doc_account : Account;
  doc_password : jsstring;
  doc_email : jsstring;
  doc_lastLogin : option Date
}.

(** What these routes take from code that is not among the sources: two
    checks of express-validator; of models/User.js what a saved password
    is stored as, [comparePassword], [toPublicJSON] and the default of
    [isActive]; of middleware/auth.js [generateToken]. *)
Record Library (Public : Type) : Type := mkLibrary {
  isNumeric : jsstring -> bool;
  isEmail : jsstring -> bool;
  storedPassword : jsstring -> jsstring;
  comparePassword : UserDoc -> jsstring -> bool;
  toPublicJSON : UserDoc -> Public;
  defaultActive : bool;
  generateToken : ObjectId -> jsstring
}.
Arguments isNumeric {Public}.
Arguments isEmail {Public}.
Arguments storedPassword {Public}.
Arguments comparePassword {Public}.
Arguments toPublicJSON {Public}.
Arguments defaultActive {Public}.
Arguments generateToken {Public}.

(** How a [save] can reject: with the duplicate-key code 11000 of a
    unique index, or otherwise. *)
Inductive SaveFault : Type :=
| DuplicateKey
| OtherFault.

(** The body of both routes. *)
Record AuthRequest : Type := mkAuthRequest {
  abody_aadhar : option jsstring;
  abody_password : option jsstring;
  abody_phone : option jsstring;
  abody_name : option jsstring;
  abody_email : option jsstring
}.

Inductive AuthReply (Public : Type) : Type :=
| Registered (user : Public) (token : jsstring)
| LoggedIn (user : Public) (token : jsstring)
| AuthInvalid (details : list jsstring)
| AlreadyExists
| InvalidCredentials
| Deactivated
| AuthError (error : jsstring).
Arguments Registered {Public}.
Arguments LoggedIn {Public}.
Arguments AuthInvalid {Public}.
Arguments AlreadyExists {Public}.
Arguments InvalidCredentials {Public}.
Arguments Deactivated {Public}.
Arguments AuthError {Public}.

Definition authCode {Public} (r : AuthReply Public) : N :=
  match r with
  | Registered _ _ => 201
  | LoggedIn _ _ => 200
  | AuthInvalid _ | AlreadyExists => 400
  | InvalidCredentials | Deactivated => 401
  | AuthError _ => 500
  end.

Section Routes.

Context {Public : Type} (lib : Library Public).

(** [registerValidation]: the aadhar chain has two checks, each with its
    message. *)
Definition registerValidation (req : AuthRequest)
  : list jsstring + (jsstring * (jsstring * (jsstring * (option jsstring * option jsstring)))) :=
  match
    both (check (required (exactly 12) (abody_aadhar req))
            "Aadhar number must be exactly 12 digits")
   (both (check (required (isNumeric lib) (abody_aadhar req))
            "Aadhar number must contain only digits")
   (both (check (required (atLeast 6) (abody_password req))
            "Password must be at least 6 characters long")
   (both (check (required re_mobile (abody_phone req))
            "Please enter a valid Indian mobile number")
   (both (check (optional (atLeast 2) (trim <$> abody_name req))
            "Name must be at least 2 characters long")
         (check (optional (isEmail lib) (abody_email req))
            "Please enter a valid email address")))))
  with
  | inl details => inl details
  | inr (aadhar, (_, (password, (phone, (name, email))))) =>
      inr (aadhar, (password, (phone, (name, email))))
  end.

(** [loginValidation] *)
Definition loginValidation (req : AuthRequest) : list jsstring + (jsstring * jsstring) :=
  match
    both (check (required (exactly 12) (abody_aadhar req))
            "Aadhar number must be exactly 12 digits")
   (both (check (required (isNumeric lib) (abody_aadhar req))
            "Aadhar number must contain only digits")
         (check (required notEmpty (abody_password req)) "Password is required"))
  with
  | inl details => inl details
  | inr (aadhar, (_, password)) => inr (aadhar, password)
  end.

(** [new User({ aadhar, password, phone, name: name || '', email: email || '' })] *)
Definition newUser (fresh : ObjectId) (aadhar password phone : jsstring)
    (name email : option jsstring) : UserDoc :=
  mkUserDoc
    (mkAccount fresh (Some aadhar) (Some (orElse name [])) (Some phone)
       (defaultActive lib) [])
    (storedPassword lib password) (orElse email []) None.

(** POST /register; [findFault] and [saveFault] are what the two awaited
    calls reject with, if they do. *)
Definition register (fresh : ObjectId) (findFault : option JsError)
    (saveFault : option SaveFault) (docs : list UserDoc) (req : AuthRequest)
  : AuthReply Public * list UserDoc :=
  match registerValidation req with
  | inl details => (AuthInvalid details, docs)
  | inr (aadhar, (password, (phone, (name, email)))) =>
      match findFault with
      | Some _ => (AuthError (js "Registration failed"), docs)
      | None =>
          match find (fun d => bool_decide (account_aadhar (doc_account d) = Some aadhar)
                               || bool_decide (account_phone (doc_account d) = Some phone))
                  docs with
          | Some existingUser => (AlreadyExists, docs)
          | None =>
              let user := newUser fresh aadhar password phone name email in
              match saveFault with
              | Some DuplicateKey => (AlreadyExists, docs)
              | Some OtherFault => (AuthError (js "Registration failed"), docs)
              | None =>
                  (Registered (toPublicJSON lib user)
                     (generateToken lib (account_id (doc_account user))),
                   docs ++ [user])
              end
          end
      end
  end.

(** [user.lastLogin = new Date()] *)
Definition set_lastLogin (now : Date) (d : UserDoc) : UserDoc :=
  mkUserDoc (doc_account d) (doc_password d) (doc_email d) (Some now).

(** POST /login *)
Definition login (now : Date) (findFault saveFault : option JsError)
    (docs : list UserDoc) (req : AuthRequest) : AuthReply Public * list UserDoc :=
  match loginValidation req with
  | inl details => (AuthInvalid details, docs)
  | inr (aadhar, password) =>
      match findFault with
      | Some _ => (AuthError (js "Login failed"), docs)
      | None =>
          match list_find (fun d => account_aadhar (doc_account d) = Some aadhar) docs with
          | None => (InvalidCredentials, docs)
          | Some (i, user) =>
              if negb (account_active (doc_account user)) then (Deactivated, docs)
              else if negb (comparePassword lib user password)
                   then (InvalidCredentials, docs)
                   else
                     match saveFault with
                     | Some _ => (AuthError (js "Login failed"), docs)
                     | None =>
                         let user' := set_lastLogin now user in
                         (LoggedIn (toPublicJSON lib user')
                            (generateToken lib (account_id (doc_account user'))),
                          <[i := user']> docs)
                     end
          end
      end
  end.

End Routes.

(** No two documents share an aadhar, and no two a phone: what the
    check of the register route is for. *)
Definition uniqueUsers (docs : list UserDoc) : Prop :=
  NoDup ((fun d => account_aadhar (doc_account d)) <$> docs) /\
  NoDup ((fun d => account_phone (doc_account d)) <$> docs).

End Auth.

(** ** More sample data *)

Module More.

Import Sample Contacts Auth.

(** Asha and Bina as the user routes see them. *)
Definition ashaAccount : Account :=
  mkAccount (user_id asha) (user_aadhar asha) (user_name asha) (user_phone asha) true
    [mkSaved (js "c001")
       (mkContact (Some (js "Meena")) (Some (js "9123456789")) (Some (js "Mother")));
     mkSaved (js "c003")
       (mkContact (Some (js "Kiran")) (Some (js "09811111111")) (Some (js "Brother")));
     mkSaved (js "c004")
       (mkContact (Some (js "Kiran (office)")) (Some (js "+919811111111")) (Some []))].

Definition binaAccount : Account :=
  mkAccount (user_id bina) None (Some (js "Bina")) (Some (js "09812345678")) true [].

Definition accounts : list Account := [ashaAccount; binaAccount].

(** Asha adds Ravi, and then deletes the contact under its new id. *)
Definition addRequest : ContactRequest :=
  mkContactRequest (Some ashaAccount) [] (Some (js " Ravi ")) (Text (js "9000000001")) None.

(** Asha adds Meena's number again, sent as a number. *)
Definition numberRequest : ContactRequest :=
  mkContactRequest (Some ashaAccount) [] (Some (js "Meena")) 
    (Foreign [js "9123456789"] (Some (js "9123456789"))) None.

Definition ravi : SavedContact :=
  mkSaved (js "c002") (mkContact (Some (js "Ravi")) (Some (js "9000000001")) (Some [])).

Definition deleteRequest : ContactRequest :=
  mkContactRequest
    (Some (set_contacts (account_contacts ashaAccount ++ [ravi]) ashaAccount))
    (js "c002") None Missing None.

(** Asha renames Meena. *)
Definition renameRequest : ContactRequest :=
  mkContactRequest (Some ashaAccount) (js "c001") (Some (js "Meena K")) Missing None.

(** Asha renames Kiran, and deletes him. *)
Definition renameKiran : ContactRequest :=
  mkContactRequest (Some ashaAccount) (js "c003") (Some (js "Kiran S")) Missing None.

Definition deleteKiran : ContactRequest :=
  mkContactRequest (Some ashaAccount) (js "c003") None Missing None.

(** A library in which a password is stored as it is and a document is
    its own public form. *)
Definition lib : Library UserDoc :=
  mkLibrary UserDoc (forallb isDigit) (fun _ => true) (fun p => p)
    (fun d p => bool_decide (doc_password d = p)) (fun d => d) true (fun id => id).

Definition docs : list UserDoc := [mkUserDoc ashaAccount (js "secret1") [] None].

Definition registerRequest : AuthRequest :=
  mkAuthRequest (Some (js "999988887777")) (Some (js "hunter22"))
    (Some (js "9000000002")) None None.

(** The same phone under another aadhar. *)
Definition secondRequest : AuthRequest :=
  mkAuthRequest (Some (js "111122223333")) (Some (js "hunter23"))
    (Some (js "9000000002")) None None.

(** A browser that cannot locate the device, with Asha's token. *)
Definition lost : Browser := mkBrowser (fun _ => None) (fun _ _ => None) (Some asha).

End More.

(** Runs the sequencing of [outcome] on what is already known. *)
Ltac monad := cbn [mbind outcome_bind mret outcome_ret try_catch].

(** The same in a hypothesis. *)
Ltac monad_in H := cbn [mbind outcome_bind mret outcome_ret try_catch] in H.

(** * Properties *)

(** ** Strings *)

Section Strings.

Implicit Types (s t : jsstring) (c : N).

Lemma trimStart_suffix s : exists w, s = w ++ trimStart s.
Proof.
  induction s as [|c s [w IH]]; [by exists []|]. simpl.
  destruct (isWhiteSpace c); [|by exists []].
  exists (c :: w). simpl. by f_equal.
Qed.

Lemma trimEnd_prefix s : exists w, s = trimEnd s ++ w.
Proof.
  unfold trimEnd. destruct (trimStart_suffix (rev s)) as [w Hw].
  exists (rev w). rewrite <- rev_app_distr, <- Hw. by rewrite rev_involutive.
Qed.

Lemma trimStart_clean s : clean_head (trimStart s).
Proof.
  induction s as [|c s IH]; [done|]. simpl.
  destruct (isWhiteSpace c) eqn:E; [done|]. simpl. done.
Qed.

Lemma trimStart_fixed s : clean_head s -> trimStart s = s.
Proof. destruct s as [|c s]; [done|]. simpl. by intros ->. Qed.

Lemma trimStart_idem s : trimStart (trimStart s) = trimStart s.
Proof. apply trimStart_fixed, trimStart_clean. Qed.

Lemma trimEnd_idem s : trimEnd (trimEnd s) = trimEnd s.
Proof. unfold trimEnd. by rewrite rev_involutive, trimStart_idem. Qed.

Lemma trimEnd_clean s : clean_head s -> clean_head (trimEnd s).
Proof.
  intros H. destruct (trimEnd_prefix s) as [w Hw].
  destruct (trimEnd s) as [|c t]; [done|].
  rewrite Hw in H. exact H.
Qed.

Lemma trim_idem s : trim (trim s) = trim s.
Proof.
  unfold trim.
  rewrite (trimStart_fixed (trimEnd (trimStart s))).
  - apply trimEnd_idem.
  - apply trimEnd_clean, trimStart_clean.
Qed.

Lemma trim_fixed s :
  clean_head s -> clean_head (rev s) -> trim s = s.
Proof.
  intros H1 H2. unfold trim, trimEnd.
  rewrite (trimStart_fixed s H1), (trimStart_fixed (rev s) H2).
  apply rev_involutive.
Qed.

Lemma clean_head_Forall s :
  Forall (fun c => isWhiteSpace c = false) s -> clean_head s.
Proof. destruct 1; done. Qed.

Lemma trim_no_space s :
  Forall (fun c => isWhiteSpace c = false) s -> trim s = s.
Proof.
  intros H. apply trim_fixed; apply clean_head_Forall; [done|].
  by apply Forall_rev.
Qed.

Lemma inRange_spec lo hi c : inRange lo hi c = true <-> lo <= c <= hi.
Proof. unfold inRange. rewrite andb_true_iff, !N.leb_le. done. Qed.

Lemma digit_no_space c : 43 <= c <= 57 -> isWhiteSpace c = false.
Proof.
  intros H. unfold isWhiteSpace, inRange. simpl.
  repeat match goal with
         | |- context [c =? ?k] => destruct (N.eqb_spec c k); [lia|]
         end.
  simpl. destruct (N.leb_spec 8192 c); [lia|done].
Qed.

Lemma forallb_isDigit s :
  forallb isDigit s = true <-> Forall (fun c => 48 <= c <= 57) s.
Proof.
  induction s as [|c s IH]; simpl.
  - split; [constructor|done].
  - rewrite andb_true_iff, IH. unfold isDigit. rewrite inRange_spec.
    split; [intros [??]; by constructor|by inversion 1].
Qed.

Lemma re_mobile_spec s : re_mobile s = true <-> NormalizerSpec.tenDigitMobile s.
Proof.
  unfold NormalizerSpec.tenDigitMobile. destruct s as [|c s]; simpl.
  - split; [done|]. intros [? _]. done.
  - rewrite !andb_true_iff, Nat.eqb_eq, forallb_isDigit.
    unfold is6to9. rewrite inRange_spec. split.
    + intros [[Hc Hl] Hd]. split; [lia|]. split; [|by exists c].
      constructor; [lia|done].
    + intros (Hl & Hd & c' & [= <-] & Hc). inversion Hd; subst.
      split; [split; [done|lia]|done].
Qed.

Lemma re_zero_mobile_spec s : re_zero_mobile s = true <-> NormalizerSpec.trunkMobile s.
Proof.
  unfold NormalizerSpec.trunkMobile. destruct s as [|c s]; simpl.
  - split; [done|]. intros (d & ? & _). done.
  - rewrite andb_true_iff, N.eqb_eq, re_mobile_spec. split.
    + intros [-> H]. by exists s.
    + intros (d & [= -> ->] & H). done.
Qed.

Lemma startsWith_plus_spec s :
  startsWith s (js "+") = true <-> NormalizerSpec.international s.
Proof.
  unfold NormalizerSpec.international. change (js "+") with [43].
  destruct s as [|c s]; cbn [startsWith].
  - split; [done|]. intros [? ?]. done.
  - rewrite andb_true_r, N.eqb_eq. split.
    + intros <-. by exists s.
    + intros (r & [= -> _]). done.
Qed.

Lemma mobile_no_space s :
  NormalizerSpec.tenDigitMobile s -> Forall (fun c => isWhiteSpace c = false) s.
Proof.
  intros (_ & H & _). eapply Forall_impl; [exact H|].
  intros c Hc. simpl in Hc. apply digit_no_space. lia.
Qed.

End Strings.

(** ** The phone normalizer *)

Section Normalizer.

Import NormalizerSpec.

Lemma formatPhoneNumber_string (s : jsstring) :
  s <> [] ->
  formatPhoneNumber (VString s) =
    if startsWith (trim s) (js "+") then Returns (trim s)
    else if re_mobile (trim s) then Returns (js "+91" ++ trim s)
    else if re_zero_mobile (trim s) then Returns (js "+91" ++ slice1 (trim s))
    else Returns (trim s).
Proof. destruct s; done. Qed.

Lemma formatPhoneNumber_sound v r :
  normalize v r -> formatPhoneNumber (field v) = Returns r.
Proof.
  destruct 1 as [| |s Hs Hi|s Hs Hi Hm|s d Hs Hi Hm Ht Hd|s Hs Hi Hm Ht];
    try reflexivity; simpl field; rewrite (formatPhoneNumber_string s Hs).
  - apply startsWith_plus_spec in Hi. by rewrite Hi.
  - destruct (startsWith _ _) eqn:E; [by apply startsWith_plus_spec in E|].
    apply re_mobile_spec in Hm. by rewrite Hm.
  - destruct (startsWith _ _) eqn:E; [by apply startsWith_plus_spec in E|].
    destruct (re_mobile _) eqn:E'; [by apply re_mobile_spec in E'|].
    assert (re_zero_mobile (trim s) = true) as ->.
    { apply re_zero_mobile_spec. by exists d. }
    by rewrite Ht.
  - destruct (startsWith _ _) eqn:E; [by apply startsWith_plus_spec in E|].
    destruct (re_mobile _) eqn:E'; [by apply re_mobile_spec in E'|].
    destruct (re_zero_mobile _) eqn:E''; [by apply re_zero_mobile_spec in E''|].
    done.
Qed.

Lemma formatPhoneNumber_complete v r :
  formatPhoneNumber (field v) = Returns r -> normalize v r.
Proof.
  destruct v as [s|]; simpl field.
  2: { intros [= <-]. constructor. }
  destruct (decide (s = [])) as [->|Hs].
  { intros [= <-]. constructor. }
  rewrite (formatPhoneNumber_string s Hs).
  destruct (startsWith _ _) eqn:E.
  { intros [= <-]. apply rule_international; [done|]. by apply startsWith_plus_spec. }
  assert (~ international (trim s)) as Hi.
  { intros H. apply startsWith_plus_spec in H. congruence. }
  destruct (re_mobile _) eqn:E'.
  { intros [= <-]. apply rule_mobile; [done..|]. by apply re_mobile_spec. }
  assert (~ tenDigitMobile (trim s)) as Hm.
  { intros H. apply re_mobile_spec in H. congruence. }
  destruct (re_zero_mobile _) eqn:E''.
  - intros [= <-]. apply re_zero_mobile_spec in E'' as (d & Hd & Hd').
    rewrite Hd at 1. simpl slice1. by apply rule_trunk.
  - intros [= <-]. apply rule_otherwise; [done..|].
    intros H. apply re_zero_mobile_spec in H. congruence.
Qed.

(** On an absent field or a string the formatter always returns. *)
Lemma formatPhoneNumber_total (v : option jsstring) :
  exists r, formatPhoneNumber (field v) = Returns r.
Proof.
  destruct v as [s|]; [|by exists []]. simpl field.
  destruct (decide (s = [])) as [->|Hs]; [by exists []|].
  rewrite (formatPhoneNumber_string s Hs).
  repeat match goal with |- context [if ?b then _ else _] => destruct b end; eauto.
Qed.

(** What the formatter returns is free of white space at both ends. *)
Lemma formatPhoneNumber_trimmed (s r : jsstring) :
  formatPhoneNumber (VString s) = Returns r -> trim r = r.
Proof.
  intros H. apply (formatPhoneNumber_complete (Some s)) in H.
  inversion H as [| |? ? ?|? ? ? Hm|? d ? ? ? ? Hd|? ? ? ? ?]; subst;
    try apply trim_idem; try done.
  - apply trim_no_space. apply Forall_app. split.
    + repeat constructor.
    + by apply mobile_no_space.
  - apply trim_no_space. apply Forall_app. split.
    + repeat constructor.
    + by apply mobile_no_space.
Qed.

(** C7: the formatter returns on every string (and on an absent field),
    and what it returns is what the rules of the spec give, the first rule
    that applies winning: nothing for an empty or absent input; the
    trimmed input when that starts with +; +91 before ten digits that
    start with 6 to 9; +91 in place of a leading 0 before such ten digits;
    the trimmed input otherwise.  The four sample numbers come out as
    the spec lists them. *)
Theorem C7_formatPhoneNumber_rules :
  (forall v : option jsstring, exists r, formatPhoneNumber (field v) = Returns r) /\
  (forall (v : option jsstring) r,
      formatPhoneNumber (field v) = Returns r <-> normalize v r) /\
  formatPhoneNumber (VString (js "9876543210")) = Returns (js "+919876543210") /\
  formatPhoneNumber (VString (js "09876543210")) = Returns (js "+919876543210") /\
  formatPhoneNumber (VString (js "+19876543210")) = Returns (js "+19876543210") /\
  formatPhoneNumber (VString (js "12345")) = Returns (js "12345").
Proof.
  split; [exact formatPhoneNumber_total|].
  split; [|by repeat split].
  intros v r. split.
  - apply formatPhoneNumber_complete.
  - apply formatPhoneNumber_sound.
Qed.

(** C8: formatting is idempotent: formatting the formatted number gives
    the formatted number again; where the first call throws (a truthy
    value that is not a string) there is nothing to format again. *)
Theorem C8_formatPhoneNumber_idempotent (v : JsVal) :
  (r ← formatPhoneNumber v; formatPhoneNumber (VString r)) = formatPhoneNumber v.
Proof.
  destruct (formatPhoneNumber v) as [r|e] eqn:E; [|done].
  change (formatPhoneNumber (VString r) = Returns r).
  assert (trim r = r) as Ht.
  { destruct v as [| |[]|z|s]; simpl in E; try by inversion E.
    - unfold formatPhoneNumber in E. simpl in E.
      destruct (z =? 0)%Z; by inversion E.
    - by apply (formatPhoneNumber_trimmed s). }
  destruct (decide (r = [])) as [->|Hr]; [done|].
  rewrite (formatPhoneNumber_string r Hr), Ht.
  destruct v as [| |[]|z|s]; try by inversion E.
  { unfold formatPhoneNumber in E. simpl in E. destruct (z =? 0)%Z; by inversion E. }
  destruct (decide (s = [])) as [->|Hs]; [by inversion E|].
  rewrite (formatPhoneNumber_string s Hs) in E.
  destruct (startsWith (trim s) _) eqn:E1.
  { inversion E; subst r. by rewrite E1. }
  destruct (re_mobile (trim s)) eqn:E2.
  { by inversion E. }
  destruct (re_zero_mobile (trim s)) eqn:E3.
  { by inversion E. }
  inversion E; subst r. by rewrite E1, E2, E3.
Qed.

End Normalizer.

(** ** The notification loop *)

Section FanOut.

Variable env : Env.
Variable m : Message.

Lemma notifyOne_returns (i : nat) (r : Recipient) :
  exists phone,
    formatPhoneNumber (field (rc_phone r)) = Returns phone /\
    notifyOne env i m r =
      Returns (mkResult (rc_name r) phone (rc_relationship r)
                 (attempt env i m phone).1 (attempt env i m phone).2).
Proof.
  destruct (formatPhoneNumber_total (rc_phone r)) as [phone H].
  exists phone. split; [done|].
  unfold notifyOne. rewrite H. simpl. by destruct (attempt env i m phone).
Qed.

(** The loop runs to the end: it pushes one entry per recipient, in
    order, after what the array already holds. *)
Lemma notifyLoop_pushes (rs : list Recipient) :
  forall (i : nat) (acc : list NotificationResult),
  exists entries,
    notifyLoop env m i rs acc = (acc ++ entries, None) /\
    length entries = length rs /\
    forall k r, rs !! k = Some r ->
      exists e, entries !! k = Some e /\ notifyOne env (i + k) m r = Returns e.
Proof.
  induction rs as [|r rs IH]; intros i acc.
  - exists []. rewrite app_nil_r. by repeat split.
  - destruct (notifyOne_returns i r) as (phone & _ & Hone).
    simpl. rewrite Hone.
    destruct (IH (S i) (acc ++ [mkResult (rc_name r) phone (rc_relationship r)
                 (attempt env i m phone).1 (attempt env i m phone).2]))
      as (entries & Hloop & Hlen & Hk).
    eexists (_ :: entries). rewrite Hloop, <- app_assoc. split; [done|].
    split; [simpl; lia|].
    intros [|k] r' Hr'; simpl in *.
    + injection Hr' as <-. eexists. split; [done|]. by rewrite Nat.add_0_r.
    + destruct (Hk k r' Hr') as (e & He & Hone').
      exists e. split; [done|]. by rewrite Nat.add_succ_r.
Qed.

Lemma notifyLoop_completes (rs : list Recipient) :
  exists results,
    notifyLoop env m 0 rs [] = (results, None) /\ length results = length rs.
Proof.
  destruct (notifyLoop_pushes rs 0 []) as (entries & H & Hlen & _).
  by exists entries.
Qed.

(** C3: in a fan-out over [rs], the recipient at position [k] gets
    exactly the entry at position [k] of the results, whatever happened to
    the recipients before it: the loop ends without an exception and with
    as many entries as recipients.  The entry carries the recipient's
    name, formatted phone and relationship, and the outcome of the
    transport: sent with an empty error when the send resolves; logged
    with the fixed text when the transport is not configured; failed with
    the text SMS failed: followed by the detail when the send rejects. *)
Theorem C3_fanOut_entry (rs : list Recipient) (k : nat) (r : Recipient) :
  rs !! k = Some r ->
  exists results phone entry,
    notifyLoop env m 0 rs [] = (results, None) /\
    length results = length rs /\
    results !! k = Some entry /\
    formatPhoneNumber (field (rc_phone r)) = Returns phone /\
    nr_name entry = rc_name r /\
    nr_phone entry = phone /\
    nr_relationship entry = rc_relationship r /\
    (twilioConfigured env = true -> twilioSend env k m phone = None ->
       nr_status entry = js "sent" /\ nr_error entry = []) /\
    (twilioConfigured env = false ->
       nr_status entry = js "logged" /\
       nr_error entry =
         js "SMS not configured - emergency logged for manual notification") /\
    (forall err, twilioConfigured env = true -> twilioSend env k m phone = Some err ->
       nr_status entry = js "failed" /\
       nr_error entry = js "SMS failed: " ++ message err).
Proof.
  intros Hr.
  destruct (notifyLoop_pushes rs 0 []) as (results & Hloop & Hlen & Hk).
  destruct (Hk k r Hr) as (entry & Hentry & Hone).
  destruct (notifyOne_returns k r) as (phone & Hphone & Hone').
  simpl in Hone. rewrite Hone' in Hone. injection Hone as <-.
  exists results, phone. eexists.
  repeat split; try done; simpl; unfold attempt;
    match goal with H : twilioConfigured env = _ |- _ => rewrite H end;
    try match goal with H : twilioSend env _ _ _ = _ |- _ => rewrite H end;
    done.
Qed.

End FanOut.

(** ** The database driver and the schema *)

Section Driver.

Variable env : Env.

Lemma rejects_None {A} (call : DbCall) (x : A) :
  dbFault env call = None -> rejects env call x = Returns x.
Proof. unfold rejects. by intros ->. Qed.

(** A document that satisfies its schema is written, unless the driver
    rejects. *)
Lemma save_valid (n : nat) (db : Db) (a : SOSAlert) :
  validate a = true ->
  dbFault env (AlertSave n) = None ->
  save env n db a =
    Returns (mkDb (<[alert_id a := depopulate a]> (alerts db)) (users db)).
Proof. intros Hv Hf. unfold save. by rewrite Hv, rejects_None. Qed.

(** Nothing else is written. *)
Lemma save_Returns (n : nat) (db db' : Db) (a : SOSAlert) :
  save env n db a = Returns db' ->
  validate a = true /\
  db' = mkDb (<[alert_id a := depopulate a]> (alerts db)) (users db).
Proof.
  unfold save, rejects. destruct (validate a); [|done].
  destruct (dbFault env (AlertSave n)); [done|]. by intros [= <-].
Qed.

Lemma findById_cast (db : Db) (alertId : jsstring) (id : ObjectId) :
  castObjectId env alertId = Some id ->
  dbFault env AlertFindById = None ->
  findById env db alertId = Returns (alerts db !! id).
Proof. intros Hc Hf. unfold findById. by rewrite Hc, rejects_None. Qed.

Lemma findById_stray (db : Db) (alertId : jsstring) :
  castObjectId env alertId = None ->
  exists e, findById env db alertId = Throws e.
Proof. intros Hc. unfold findById. rewrite Hc. by eexists. Qed.

Lemma depopulate_notifiedContacts (a : SOSAlert) :
  notifiedContacts (depopulate a) = notifiedContacts a.
Proof. unfold depopulate. by destruct (userId a). Qed.

Lemma depopulate_status (a : SOSAlert) :
  status (depopulate a) = status a /\
  resolvedAt (depopulate a) = resolvedAt a /\
  resolvedBy (depopulate a) = resolvedBy a.
Proof. unfold depopulate. by destruct (userId a). Qed.

Lemma ledger_length (results : list NotificationResult) :
  length (ledger env results) = length results.
Proof. apply length_imap. Qed.

Lemma ledger_pending (results : list NotificationResult) :
  Forall (fun c => nc_response c = js "pending") (ledger env results).
Proof.
  apply Forall_forall. intros c Hc.
  apply elem_of_lookup_imap in Hc as (i & result & -> & _). done.
Qed.

(** The validators read the ledger only through the responses. *)
Lemma validate_ledger (a : SOSAlert) (l l' : list NotifiedContact) :
  validate (set_notifiedContacts l a) = true ->
  forallb (fun c => enum responseEnum (nc_response c)) l' = true ->
  validate (set_notifiedContacts l' a) = true.
Proof.
  unfold validate. cbn [set_notifiedContacts userId userAadhar userName userPhone
    location description status priority emergencyType notifiedContacts].
  rewrite !andb_true_iff. intros [H _] H'. by split.
Qed.

Lemma set_notifiedContacts_same (a : SOSAlert) :
  set_notifiedContacts (notifiedContacts a) a = a.
Proof. by destruct a. Qed.

Lemma validate_responses (a : SOSAlert) :
  validate a = true ->
  forallb (fun c => enum responseEnum (nc_response c)) (notifiedContacts a) = true.
Proof. unfold validate. rewrite !andb_true_iff. by intros [_ H]. Qed.

Lemma ledger_valid (results : list NotificationResult) :
  forallb (fun c => enum responseEnum (nc_response c)) (ledger env results) = true.
Proof.
  apply forallb_forall. intros c Hc. apply list_elem_of_In in Hc.
  apply elem_of_lookup_imap in Hc as (i & result & -> & _). done.
Qed.

(** A fan-out keeps a valid alert valid. *)
Lemma validate_fanOut (a : SOSAlert) (results : list NotificationResult) :
  validate a = true ->
  validate (set_notifiedContacts (ledger env results) a) = true.
Proof.
  intros H. rewrite <- (set_notifiedContacts_same a) in H.
  eapply validate_ledger; [exact H|apply ledger_valid].
Qed.

Lemma validate_populate (us : list User) (a : SOSAlert) :
  requiredRef (userId (populate us a)) = true ->
  validate a = true -> validate (populate us a) = true.
Proof.
  unfold populate. destruct (userId a) eqn:E; try done.
  destruct (find _ _); [|done]. intros _.
  unfold validate. cbn. rewrite E. done.
Qed.

End Driver.

(** ** Creating an alert *)

Section Create.

Variable env : Env.
Variable db : Db.
Variable req : Request.
Variable body : CreateBody.
Variable user : User.

Hypothesis valid : createAlertValidation req = inr body.
Hypothesis authentic : req_user req = Some user.

(** The route up to the notification phase. *)
Lemma createAlert_saved :
  validate (newSOSAlert env user body) = true ->
  dbFault env (AlertSave 0) = None ->
  createAlert env db req =
    let '(notificationResults, sosAlert', db2) :=
      notificationPhase env
        (mkDb (<[newObjectId env := newSOSAlert env user body]> (alerts db)) (users db))
        user (newSOSAlert env user body) in
    (Created (getSummary sosAlert') notificationResults, db2).
Proof.
  intros Hvalid Hsave. unfold createAlert. rewrite valid.
  unfold authenticated. rewrite authentic. monad.
  rewrite (save_valid env 0 db _ Hvalid Hsave). monad.
  change (depopulate (newSOSAlert env user body)) with (newSOSAlert env user body).
  change (alert_id (newSOSAlert env user body)) with (newObjectId env).
  by destruct (notificationPhase _ _ _ _) as [[? ?] ?].
Qed.

(** The three ways in which the notification phase can end. *)
Lemma createAlert_reply :
  validate (newSOSAlert env user body) = true ->
  dbFault env (AlertSave 0) = None ->
  exists full,
    notifyLoop env (emergencyMessage user (newSOSAlert env user body)) 0
      (List.map systemUser (otherActiveUsers db user)) [] = (full, None) /\
    length full = length (otherActiveUsers db user) /\
    statusCode (createAlert env db req).1 = 201 /\
    (is_Some (dbFault env UserFind) ->
       createAlert env db req =
         (Created (getSummary (newSOSAlert env user body)) [],
          mkDb (<[newObjectId env := newSOSAlert env user body]> (alerts db)) (users db))) /\
    (dbFault env UserFind = None -> is_Some (dbFault env (AlertSave 1)) ->
       createAlert env db req =
         (Created (getSummary (newSOSAlert env user body)) full,
          mkDb (<[newObjectId env := newSOSAlert env user body]> (alerts db)) (users db))) /\
    (dbFault env UserFind = None -> dbFault env (AlertSave 1) = None ->
       createAlert env db req =
         (Created (getSummary (newSOSAlert env user body)) full,
          mkDb (<[newObjectId env :=
                    set_notifiedContacts (ledger env full) (newSOSAlert env user body)]>
                  (alerts db))
               (users db))).
Proof.
  intros Hvalid Hsave.
  destruct (notifyLoop_completes env
              (emergencyMessage user (newSOSAlert env user body))
              (List.map systemUser (otherActiveUsers db user))) as (full & Hfull & Hlen).
  rewrite length_map in Hlen.
  exists full. split; [done|]. split; [done|].
  rewrite (createAlert_saved Hvalid Hsave).
  unfold notificationPhase, findOtherActiveUsers, rejects. cbn [users].
  fold (otherActiveUsers db user).
  destruct (dbFault env UserFind) as [e|] eqn:Hfind.
  { split_and!; done. }
  destruct (otherActiveUsers db user) as [|u others] eqn:Hothers.
  { cbn in Hfull. injection Hfull as <-.
    split_and!; try done; by intros [? ?]. }
  rewrite Hfull. unfold save. rewrite (validate_fanOut env _ _ Hvalid). unfold rejects.
  destruct (dbFault env (AlertSave 1)) as [e|] eqn:Hsecond.
  - split_and!; try done; by intros [? ?].
  - split_and!; try done; try (by intros [? ?]); try (by intros _ [? ?]).
    intros _ _. cbn [alerts users alert_id set_notifiedContacts newSOSAlert depopulate userId].
    by rewrite insert_insert_eq.
Qed.

(** C1: once the request is valid and the alert itself is saved, the
    reply is the 201 with the summary of the created alert, whatever
    rejects in the notification phase, and the notifications sent back
    are all those accumulated.  When the search for the recipients
    rejects, none is accumulated and the alert stays stored with its
    empty ledger.  Otherwise the fan-out runs over every other active
    user and all its results are sent back, also when the save of the
    ledger rejects; the alert is then stored with the empty ledger of
    the first save, and with the ledger of the results when the second
    save goes through. *)
Theorem C1_createAlert_absorbs_notification_faults :
  validate (newSOSAlert env user body) = true ->
  dbFault env (AlertSave 0) = None ->
  exists full,
    notifyLoop env (emergencyMessage user (newSOSAlert env user body)) 0
      (List.map systemUser (otherActiveUsers db user)) [] = (full, None) /\
    length full = length (otherActiveUsers db user) /\
    statusCode (createAlert env db req).1 = 201 /\
    (is_Some (dbFault env UserFind) ->
       createAlert env db req =
         (Created (getSummary (newSOSAlert env user body)) [],
          mkDb (<[newObjectId env := newSOSAlert env user body]> (alerts db)) (users db))) /\
    (dbFault env UserFind = None -> is_Some (dbFault env (AlertSave 1)) ->
       createAlert env db req =
         (Created (getSummary (newSOSAlert env user body)) full,
          mkDb (<[newObjectId env := newSOSAlert env user body]> (alerts db)) (users db))) /\
    (dbFault env UserFind = None -> dbFault env (AlertSave 1) = None ->
       createAlert env db req =
         (Created (getSummary (newSOSAlert env user body)) full,
          mkDb (<[newObjectId env :=
                    set_notifiedContacts (ledger env full) (newSOSAlert env user body)]>
                  (alerts db))
               (users db))).
Proof. exact createAlert_reply. Qed.

End Create.

(** ** Fan-out replaces the ledger *)

Section Ledger.

Variable env : Env.
Variable db : Db.
Variable req : Request.

Hypothesis no_fault : reliable env.

Lemma populate_fields (a : SOSAlert) :
  alert_id (populate (users db) a) = alert_id a /\
  location (populate (users db) a) = location a.
Proof.
  unfold populate. destruct (userId a); [|done..].
  by destruct (find _ _).
Qed.

Lemma alertUserId_creatorOf (r : UserRef) (creator : ObjectId) :
  creatorOf r = Some creator -> alertUserId r = Returns (toString creator).
Proof. destruct r; simpl; by intros [= <-]. Qed.

Lemma creatorOf_required (r : UserRef) (creator : ObjectId) :
  creatorOf r = Some creator -> requiredRef r = true.
Proof. by destruct r. Qed.

(** Broadcast mode. *)
Lemma createAlert_ledger (body : CreateBody) (user : User) :
  createAlertValidation req = inr body ->
  req_user req = Some user ->
  validate (newSOSAlert env user body) = true ->
  exists results stored db',
    createAlert env db req =
      (Created (getSummary (newSOSAlert env user body)) results, db') /\
    notifyLoop env (emergencyMessage user (newSOSAlert env user body)) 0
      (List.map systemUser (otherActiveUsers db user)) [] = (results, None) /\
    alerts db' !! newObjectId env = Some stored /\
    notifiedContacts stored = ledger env results /\
    length (notifiedContacts stored) = length (otherActiveUsers db user) /\
    Forall (fun c => nc_response c = js "pending") (notifiedContacts stored).
Proof.
  intros valid authentic Hvalid.
  destruct (createAlert_reply env db req body user
              valid authentic Hvalid (no_fault _))
    as (full & Hloop & Hlen & _ & _ & _ & Hreply).
  rewrite (Hreply (no_fault _) (no_fault _)).
  exists full. do 2 eexists. split; [reflexivity|]. split; [done|].
  split; [apply lookup_insert_eq|]. split; [done|].
  cbn [notifiedContacts set_notifiedContacts].
  split; [by rewrite ledger_length|apply ledger_pending].
Qed.

(** Targeted mode. *)
Lemma notifyContacts_ledger (requester : User) (id : ObjectId) (stored : SOSAlert)
    (contacts : list Contact) :
  req_user req = Some requester ->
  castObjectId env (params_alertId req) = Some id ->
  alerts db !! id = Some stored ->
  validate stored = true ->
  creatorOf (userId (populate (users db) stored)) = Some (user_id requester) ->
  contactsOf (find (fun u => bool_decide (user_id u = user_id requester)) (users db))
    = contacts ->
  contacts <> [] ->
  exists results stored' db',
    notifyContacts env db req =
      (ContactsNotified results (getSummary stored'), db') /\
    notifyLoop env (emergencyMessage requester (populate (users db) stored)) 0
      (List.map emergencyContact contacts) [] = (results, None) /\
    alerts db' !! alert_id stored = Some stored' /\
    notifiedContacts stored' = ledger env results /\
    length (notifiedContacts stored') = length contacts /\
    Forall (fun c => nc_response c = js "pending") (notifiedContacts stored').
Proof.
  intros authentic Hcast Hstored Hvalid Hcreator Hcontacts Hsome.
  destruct (notifyLoop_completes env
              (emergencyMessage requester (populate (users db) stored))
              (List.map emergencyContact contacts)) as (results & Hloop & Hlen).
  unfold notifyContacts.
  rewrite (findById_cast env db _ id Hcast (no_fault _)), Hstored. monad.
  unfold notifyLoaded. rewrite (alertUserId_creatorOf _ _ Hcreator). monad.
  unfold authenticated. rewrite authentic. monad.
  rewrite bool_decide_eq_true_2 by done. cbn [negb].
  unfold findUserById. rewrite (rejects_None env _ _ (no_fault _)). monad.
  rewrite Hcontacts. destruct contacts as [|c cs]; [done|].
  rewrite Hloop.
  rewrite save_valid; [|apply validate_fanOut, validate_populate;
                         [by eapply creatorOf_required|done] |apply no_fault].
  monad.
  destruct (populate_fields stored) as [Hid _].
  exists results,
    (depopulate (set_notifiedContacts (ledger env results) (populate (users db) stored))).
  eexists. split.
  { f_equal. f_equal.
    unfold depopulate. simpl. by destruct (userId (populate (users db) stored)). }
  split; [done|]. cbn [alerts]. rewrite <- Hid at 1.
  split; [apply lookup_insert_eq|].
  rewrite depopulate_notifiedContacts. cbn [notifiedContacts set_notifiedContacts].
  split; [done|]. split; [|apply ledger_pending].
  by rewrite ledger_length, Hlen, length_map.
Qed.

(** The same with the stored alert and the database in full. *)
Lemma notifyContacts_notified (requester : User) (id : ObjectId) (stored : SOSAlert)
    (contacts : list Contact) :
  req_user req = Some requester ->
  castObjectId env (params_alertId req) = Some id ->
  alerts db !! id = Some stored ->
  validate stored = true ->
  creatorOf (userId (populate (users db) stored)) = Some (user_id requester) ->
  contactsOf (find (fun u => bool_decide (user_id u = user_id requester)) (users db))
    = contacts ->
  contacts <> [] ->
  exists results,
    notifyLoop env (emergencyMessage requester (populate (users db) stored)) 0
      (List.map emergencyContact contacts) [] = (results, None) /\
    length results = length contacts /\
    let stored' := depopulate (set_notifiedContacts (ledger env results)
                                 (populate (users db) stored)) in
    notifyContacts env db req =
      (ContactsNotified results (getSummary stored'),
       mkDb (<[alert_id stored := stored']> (alerts db)) (users db)).
Proof.
  intros authentic Hcast Hstored Hvalid Hcreator Hcontacts Hsome.
  destruct (notifyLoop_completes env
              (emergencyMessage requester (populate (users db) stored))
              (List.map emergencyContact contacts)) as (results & Hloop & Hlen).
  exists results. split; [done|]. split; [by rewrite Hlen, length_map|].
  intros stored'. unfold notifyContacts.
  rewrite (findById_cast env db _ id Hcast (no_fault _)), Hstored. monad.
  unfold notifyLoaded. rewrite (alertUserId_creatorOf _ _ Hcreator). monad.
  unfold authenticated. rewrite authentic. monad.
  rewrite bool_decide_eq_true_2 by done. cbn [negb].
  unfold findUserById. rewrite (rejects_None env _ _ (no_fault _)). monad.
  rewrite Hcontacts. destruct contacts as [|c cs]; [done|].
  rewrite Hloop.
  rewrite save_valid; [|apply validate_fanOut, validate_populate;
                         [by eapply creatorOf_required|done] |apply no_fault].
  monad. cbn [alert_id set_notifiedContacts].
  rewrite (proj1 (populate_fields stored)).
  f_equal. f_equal. unfold stored', depopulate. simpl.
  by destruct (userId (populate (users db) stored)).
Qed.

End Ledger.

(** C2: when nothing in the database driver rejects, a fan-out leaves the
    alert with exactly the ledger built from the results of that fan-out,
    one entry per recipient, each with the response pending; nothing of a
    ledger the alert had before enters it.  In the create route the
    recipients are the other active users, and the alert is the new one,
    which must satisfy its schema to be saved at all; in the
    notify-contacts route they are the emergency contacts of the
    requester, who is the creator, and the alert is one that satisfies
    its schema, as every alert that a route has saved does. *)
Theorem C2_fanOut_replaces_ledger (env : Env) (db : Db) (req : Request) :
  reliable env ->
  (forall body user,
      createAlertValidation req = inr body ->
      req_user req = Some user ->
      validate (newSOSAlert env user body) = true ->
      exists results stored,
        createAlert env db req =
          (Created (getSummary (newSOSAlert env user body)) results,
           mkDb (<[newObjectId env := stored]> (alerts db)) (users db)) /\
        notifyLoop env (emergencyMessage user (newSOSAlert env user body)) 0
          (List.map systemUser (otherActiveUsers db user)) [] = (results, None) /\
        stored = set_notifiedContacts (ledger env results) (newSOSAlert env user body) /\
        notifiedContacts stored = ledger env results /\
        length (notifiedContacts stored) = length (otherActiveUsers db user) /\
        Forall (fun c => nc_response c = js "pending") (notifiedContacts stored)) /\
  (forall requester id stored contacts,
      req_user req = Some requester ->
      castObjectId env (params_alertId req) = Some id ->
      alerts db !! id = Some stored ->
      validate stored = true ->
      creatorOf (userId (populate (users db) stored)) = Some (user_id requester) ->
      contactsOf (find (fun u => bool_decide (user_id u = user_id requester)) (users db))
        = contacts ->
      contacts <> [] ->
      exists results stored',
        notifyContacts env db req =
          (ContactsNotified results (getSummary stored'),
           mkDb (<[alert_id stored := stored']> (alerts db)) (users db)) /\
        notifyLoop env (emergencyMessage requester (populate (users db) stored)) 0
          (List.map emergencyContact contacts) [] = (results, None) /\
        stored' = depopulate (set_notifiedContacts (ledger env results)
                                (populate (users db) stored)) /\
        notifiedContacts stored' = ledger env results /\
        length (notifiedContacts stored') = length contacts /\
        Forall (fun c => nc_response c = js "pending") (notifiedContacts stored')).
Proof.
  intros Hrel. split.
  - intros body user Hv Hu Hvalid.
    destruct (createAlert_reply env db req body user Hv Hu Hvalid (Hrel _))
      as (full & Hloop & Hlen & _ & _ & _ & Hreply).
    exists full, (set_notifiedContacts (ledger env full) (newSOSAlert env user body)).
    split; [exact (Hreply (Hrel _) (Hrel _))|]. split; [done|]. split; [done|].
    cbn [notifiedContacts set_notifiedContacts]. split; [done|].
    split; [by rewrite ledger_length|apply ledger_pending].
  - intros requester id stored contacts Hu Hc Hs Hvalid Hcreator Hcontacts Hsome.
    destruct (notifyContacts_notified env db req Hrel requester id stored contacts
                Hu Hc Hs Hvalid Hcreator Hcontacts Hsome)
      as (results & Hloop & Hlen & Hreply).
    eexists results, _. split; [exact Hreply|]. split; [done|]. split; [done|].
    rewrite depopulate_notifiedContacts. cbn [notifiedContacts set_notifiedContacts].
    split; [done|]. split; [by rewrite ledger_length|apply ledger_pending].
Qed.

(** ** Updating the status *)

Section Status.

Variable env : Env.
Variable db : Db.
Variable req : Request.

Hypothesis no_fault : reliable env.

Lemma getSummary_depopulate (a : SOSAlert) : getSummary (depopulate a) = getSummary a.
Proof. unfold depopulate. by destruct (userId a). Qed.

(** A valid status is one of the three of the chain, [active] among them. *)
Lemma statusValidation_inr (s : jsstring) :
  statusValidation req = inr s <->
  body_status req = Some s /\
  (s = js "active" \/ s = js "resolved" \/ s = js "false_alarm").
Proof.
  unfold statusValidation, check, required, isIn.
  destruct (body_status req) as [s'|]; [|split; [done|by intros [? _]]].
  cbn [existsb]. rewrite orb_false_r.
  destruct (bool_decide_reflect (s' = js "active")) as [->|H1]; cbn [orb].
  { split; [intros [= <-]; auto|by intros [[= <-] _]]. }
  destruct (bool_decide_reflect (s' = js "resolved")) as [->|H2]; cbn [orb].
  { split; [intros [= <-]; auto|by intros [[= <-] _]]. }
  destruct (bool_decide_reflect (s' = js "false_alarm")) as [->|H3].
  { split; [intros [= <-]; auto|by intros [[= <-] _]]. }
  split; [done|]. intros [[= <-] [?|[?|?]]]; done.
Qed.

Lemma validate_set_resolved (at_ : Date) (by_ : ObjectId) (a : SOSAlert) :
  validate (set_resolved at_ by_ a) = validate a.
Proof. reflexivity. Qed.

(** What the status route writes does not unsettle the schema. *)
Lemma validate_status (a : SOSAlert) (s : jsstring) :
  statusValidation req = inr s ->
  validate a = true ->
  validate (set_status s a) = true /\
  forall at_ by_, validate (set_resolved at_ by_ (set_status s a)) = true.
Proof.
  intros Hs Ha. apply statusValidation_inr in Hs as [_ Hs].
  assert (enum statusEnum s = true) as He by (destruct Hs as [-> | [-> | ->]]; done).
  assert (validate (set_status s a) = true) as H.
  { revert Ha. unfold validate.
    cbn [set_status userId userAadhar userName userPhone location
         description status priority emergencyType notifiedContacts].
    rewrite !andb_true_iff, He. tauto. }
  split; [done|]. intros at_ by_. by rewrite validate_set_resolved.
Qed.

Lemma validate_depopulate (a : SOSAlert) : validate (depopulate a) = validate a.
Proof.
  unfold depopulate. destruct (userId a) eqn:E; try done.
  unfold validate. cbn. by rewrite E.
Qed.

Lemma updateStatus_stray (s : jsstring) :
  statusValidation req = inr s ->
  castObjectId env (params_alertId req) = None ->
  updateStatus env db req = (ServerError (js "Failed to update alert status"), db).
Proof.
  intros Hv Hc. unfold updateStatus, findById. by rewrite Hv, Hc.
Qed.

Lemma updateStatus_absent (s : jsstring) (id : ObjectId) :
  statusValidation req = inr s ->
  castObjectId env (params_alertId req) = Some id ->
  alerts db !! id = None ->
  updateStatus env db req = (NotFound, db).
Proof.
  intros Hv Hc Ha. unfold updateStatus.
  by rewrite Hv, (findById_cast env db _ id Hc (no_fault _)), Ha.
Qed.

Lemma updateStatus_inactive (s : jsstring) (id : ObjectId) (a : SOSAlert) :
  statusValidation req = inr s ->
  castObjectId env (params_alertId req) = Some id ->
  alerts db !! id = Some a ->
  status a <> js "active" ->
  updateStatus env db req = (InvalidTransition, db).
Proof.
  intros Hv Hc Ha Hs. unfold updateStatus.
  rewrite Hv, (findById_cast env db _ id Hc (no_fault _)), Ha. monad.
  by rewrite bool_decide_eq_false_2.
Qed.

Lemma updateStatus_resolved (id : ObjectId) (a : SOSAlert) (u : User) :
  statusValidation req = inr (js "resolved") ->
  castObjectId env (params_alertId req) = Some id ->
  alerts db !! id = Some a ->
  status a = js "active" ->
  validate a = true ->
  req_user req = Some u ->
  let a' := depopulate (set_resolved (clock env 0) (user_id u)
                          (set_status (js "resolved") a)) in
  updateStatus env db req =
    (StatusUpdated (getSummary a'),
     mkDb (<[alert_id a := a']> (alerts db)) (users db)).
Proof.
  intros Hv Hc Ha Hs Hvalid Hu a'. unfold updateStatus.
  rewrite Hv, (findById_cast env db _ id Hc (no_fault _)), Ha. monad.
  rewrite bool_decide_eq_true_2 by done. cbn [negb].
  rewrite bool_decide_eq_true_2 by done.
  unfold authenticated. rewrite Hu. monad.
  rewrite save_valid; [|by apply (validate_status a _ Hv)|apply no_fault]. monad.
  unfold a'. by rewrite getSummary_depopulate.
Qed.

Lemma updateStatus_other (s : jsstring) (id : ObjectId) (a : SOSAlert) :
  statusValidation req = inr s ->
  castObjectId env (params_alertId req) = Some id ->
  alerts db !! id = Some a ->
  status a = js "active" ->
  validate a = true ->
  s <> js "resolved" ->
  let a' := depopulate (set_status s a) in
  updateStatus env db req =
    (StatusUpdated (getSummary a'),
     mkDb (<[alert_id a := a']> (alerts db)) (users db)).
Proof.
  intros Hv Hc Ha Hs Hvalid Hr a'. unfold updateStatus.
  rewrite Hv, (findById_cast env db _ id Hc (no_fault _)), Ha. monad.
  rewrite bool_decide_eq_true_2 by done. cbn [negb].
  rewrite bool_decide_eq_false_2 by done. monad.
  rewrite save_valid; [|by apply (validate_status a _ Hv)|apply no_fault]. monad.
  unfold a'. by rewrite getSummary_depopulate.
Qed.

(** C4: with a valid status in the body and a database that answers,
    the status route replies with the 500 of its catch when the
    [:alertId] is no ObjectId.  When it is one, the route replies
    NotFound if no alert is stored under it; replies InvalidTransition
    and leaves the database as it is for an alert that is not active; on
    active to resolved stores the alert with resolvedAt the current time
    and resolvedBy the requester; on active to false_alarm stores it
    with resolvedAt and resolvedBy as they were.  Nothing else of the
    alert changes, and nothing else of the database.  The alert that is
    updated satisfies its schema, as every alert that a route has saved
    does. *)
Theorem C4_updateStatus (newStatus : jsstring) :
  statusValidation req = inr newStatus ->
  (castObjectId env (params_alertId req) = None ->
     updateStatus env db req =
       (ServerError (js "Failed to update alert status"), db)) /\
  (forall id,
     castObjectId env (params_alertId req) = Some id ->
     (alerts db !! id = None ->
        updateStatus env db req = (NotFound, db)) /\
     (forall a,
        alerts db !! id = Some a ->
        status a <> js "active" ->
        updateStatus env db req = (InvalidTransition, db)) /\
     (forall a u,
        alerts db !! id = Some a ->
        status a = js "active" ->
        validate a = true ->
        newStatus = js "resolved" ->
        req_user req = Some u ->
        exists a',
          updateStatus env db req =
            (StatusUpdated (getSummary a'),
             mkDb (<[alert_id a := a']> (alerts db)) (users db)) /\
          a' = depopulate (set_resolved (clock env 0) (user_id u)
                             (set_status (js "resolved") a)) /\
          status a' = js "resolved" /\
          resolvedAt a' = Some (clock env 0) /\
          resolvedBy a' = Some (user_id u)) /\
     (forall a,
        alerts db !! id = Some a ->
        status a = js "active" ->
        validate a = true ->
        newStatus = js "false_alarm" ->
        exists a',
          updateStatus env db req =
            (StatusUpdated (getSummary a'),
             mkDb (<[alert_id a := a']> (alerts db)) (users db)) /\
          a' = depopulate (set_status (js "false_alarm") a) /\
          status a' = js "false_alarm" /\
          resolvedAt a' = resolvedAt a /\
          resolvedBy a' = resolvedBy a)).
Proof.
  intros Hv. split; [by apply updateStatus_stray with newStatus|].
  intros id Hc.
  split; [by apply updateStatus_absent with newStatus|].
  split; [intros a; by apply updateStatus_inactive with newStatus|].
  split.
  - intros a u Ha Hs Hvalid -> Hu. eexists.
    split; [by apply (updateStatus_resolved id)|].
    split; [reflexivity|].
    by rewrite !(proj1 (depopulate_status _)),
               !(proj1 (proj2 (depopulate_status _))),
               !(proj2 (proj2 (depopulate_status _))).
  - intros a Ha Hs Hvalid ->. eexists.
    split; [by apply (updateStatus_other (js "false_alarm") id)|].
    split; [reflexivity|].
    by rewrite !(proj1 (depopulate_status _)),
               !(proj1 (proj2 (depopulate_status _))),
               !(proj2 (proj2 (depopulate_status _))).
Qed.

(** C9: [active] passes the validation of the status route, and the
    update of an active alert to [active] is not refused, neither by the
    validation nor as a transition.  When the alert satisfies its schema,
    as every alert that a route has saved does, the update succeeds with
    the 200: the alert is stored with the status active and with
    resolvedAt and resolvedBy as they were, and nothing else changes.
    The alert is one that is found, under an [:alertId] that is an
    ObjectId. *)
Theorem C9_updateStatus_to_active (id : ObjectId) (a : SOSAlert) :
  body_status req = Some (js "active") ->
  castObjectId env (params_alertId req) = Some id ->
  alerts db !! id = Some a ->
  status a = js "active" ->
  statusValidation req = inr (js "active") /\
  (updateStatus env db req).1 <> InvalidTransition /\
  (forall details, (updateStatus env db req).1 <> ValidationFailed details) /\
  (validate a = true ->
   exists a',
     updateStatus env db req =
       (StatusUpdated (getSummary a'),
        mkDb (<[alert_id a := a']> (alerts db)) (users db)) /\
     statusCode (updateStatus env db req).1 = 200 /\
     a' = depopulate (set_status (js "active") a) /\
     status a' = js "active" /\
     resolvedAt a' = resolvedAt a /\
     resolvedBy a' = resolvedBy a).
Proof.
  intros Hb Hc Ha Hs.
  assert (statusValidation req = inr (js "active")) as Hv.
  { apply statusValidation_inr. auto. }
  split; [done|].
  assert (updateStatus env db req =
          match save env 0 db (set_status (js "active") a) with
          | Returns db' => (StatusUpdated (getSummary (set_status (js "active") a)), db')
          | Throws _ => (ServerError (js "Failed to update alert status"), db)
          end) as Hrun.
  { unfold updateStatus.
    rewrite Hv, (findById_cast env db _ id Hc (no_fault _)), Ha. monad.
    rewrite bool_decide_eq_true_2 by done. cbn [negb].
    rewrite bool_decide_eq_false_2 by (intros Hx; vm_compute in Hx; discriminate Hx).
    monad. by destruct (save env 0 db _). }
  split; [|split].
  - rewrite Hrun. by destruct (save env 0 db _).
  - intros details. rewrite Hrun. by destruct (save env 0 db _).
  - intros Hvalid.
    pose proof (updateStatus_other (js "active") id a Hv Hc Ha Hs Hvalid) as H.
    cbv zeta in H. rewrite H by done.
    eexists. split; [done|]. split; [done|].
    split; [reflexivity|].
    by rewrite !(proj1 (depopulate_status _)),
               !(proj1 (proj2 (depopulate_status _))),
               !(proj2 (proj2 (depopulate_status _))).
Qed.

End Status.

(** ** Recording a contact's response *)

Section Response.

Variable env : Env.
Variable db : Db.

Implicit Types (contacts : list NotifiedContact) (phone response : jsstring).

(** The first entry with the phone is rewritten where it stands. *)
Lemma respond_found now phone response contacts i c :
  contacts !! i = Some c ->
  nc_phone c = phone ->
  (forall j c', contacts !! j = Some c' -> (j < i)%nat -> nc_phone c' <> phone) ->
  respond now phone response contacts =
    <[i := mkNotified (nc_phone c) response now]> contacts.
Proof.
  intros Hi Hc Hfirst. unfold respond.
  assert (list_find (fun c => nc_phone c = phone) contacts = Some (i, c)) as ->; [|done].
  apply list_find_Some. split; [done|]. split; [done|].
  intros j c' Hj Hlt. by apply (Hfirst j c').
Qed.

(** Without such an entry a new one is pushed. *)
Lemma respond_absent now phone response contacts :
  (forall c, c ∈ contacts -> nc_phone c <> phone) ->
  respond now phone response contacts =
    contacts ++ [mkNotified phone response now].
Proof.
  intros Hnone. unfold respond.
  assert (list_find (fun c => nc_phone c = phone) contacts = None) as ->; [|done].
  apply list_find_None. apply Forall_forall. intros c Hc. by apply Hnone.
Qed.

(** Either way the responses are those of before and the new one. *)
Lemma respond_valid now phone response contacts :
  enum responseEnum response = true ->
  forallb (fun c => enum responseEnum (nc_response c)) contacts = true ->
  forallb (fun c => enum responseEnum (nc_response c))
    (respond now phone response contacts) = true.
Proof.
  intros Hr Hall. unfold respond.
  destruct (list_find _ contacts) as [[i c]|].
  - rewrite forallb_forall in *. intros c' Hin. apply list_elem_of_In in Hin.
    apply list_elem_of_lookup in Hin as [j Hj].
    destruct (decide (i = j)) as [<-|Hne].
    + apply list_lookup_insert_Some in Hj as [(_ & <- & _)|[? _]]; done.
    + rewrite list_lookup_insert_ne in Hj by done.
      apply Hall, list_elem_of_In. by eapply list_elem_of_lookup_2.
  - rewrite forallb_app, Hall. cbn [forallb nc_response andb]. by rewrite Hr.
Qed.

Lemma contactResponseValidation_inr (req : Request) (contactPhone : Supplied) response :
  contactResponseValidation req = inr (contactPhone, response) ->
  supplied notEmpty (body_contactPhone req) = Some contactPhone /\
  body_response req = Some response /\
  enum responseEnum response = true.
Proof.
  unfold contactResponseValidation, both, check, required.
  destruct (supplied notEmpty (body_contactPhone req)) as [p|]; [|by repeat case_match].
  destruct (body_response req) as [r|]; [|done].
  destruct (isIn _ r) eqn:E; [|done]. intros [= <- <-].
  split; [done|]. split; [done|].
  unfold isIn in E. unfold enum, responseEnum. cbn [existsb] in *.
  rewrite E. apply orb_true_r.
Qed.

(** So it is for a phone that is not a string, whose entry is pushed. *)
Lemma recordResponse_valid now (contactPhone : Supplied) response contacts contacts' :
  enum responseEnum response = true ->
  forallb (fun c => enum responseEnum (nc_response c)) contacts = true ->
  recordResponse now contactPhone response contacts = Returns contacts' ->
  forallb (fun c => enum responseEnum (nc_response c)) contacts' = true.
Proof.
  intros Hr Hall. destruct contactPhone as [p|[p|]]; cbn [recordResponse castString]; monad.
  - intros [= <-]. by apply respond_valid.
  - intros [= <-]. rewrite forallb_app, Hall. cbn [forallb nc_response andb]. by rewrite Hr.
  - done.
Qed.

(** The route on an alert that it finds and whose new ledger it can
    build. *)
Lemma recordContactResponse_recorded (req : Request) (contactPhone : Supplied) response
    (id : ObjectId) (a : SOSAlert) contacts :
  reliable env ->
  contactResponseValidation req = inr (contactPhone, response) ->
  castObjectId env (params_alertId req) = Some id ->
  alerts db !! id = Some a ->
  validate a = true ->
  recordResponse (clock env 0) contactPhone response (notifiedContacts a) =
    Returns contacts ->
  let a' := depopulate (set_notifiedContacts contacts a) in
  recordContactResponse env db req =
    (ResponseRecorded (getSummary a'),
     mkDb (<[alert_id a := a']> (alerts db)) (users db)).
Proof.
  intros no_fault Hv Hc Ha Hvalid Hcontacts a'. unfold recordContactResponse.
  rewrite Hv, (findById_cast env db _ id Hc (no_fault _)), Ha. monad.
  rewrite Hcontacts. monad.
  apply contactResponseValidation_inr in Hv as (_ & _ & Hr).
  rewrite save_valid; [| |apply no_fault].
  - monad. unfold a'. by rewrite getSummary_depopulate.
  - rewrite <- (set_notifiedContacts_same a) in Hvalid.
    eapply validate_ledger; [exact Hvalid|].
    eapply recordResponse_valid; [exact Hr| |exact Hcontacts].
    by apply validate_responses.
Qed.

(** C6: with a body that passes the chains and a database that
    answers, the contact-response route replies with the 500 of its catch
    when the [:alertId] is no ObjectId, and NotFound when it is one under
    which no alert is stored.  For an alert that is found, and that
    satisfies its schema, it stores the alert, changed in nothing but its
    ledger and in a database changed in nothing else.  In the new ledger,
    when the phone of some entry is [===] to the contact phone of the
    body, the first such entry has the given response and the current
    time, every other position is as it was and the length is unchanged;
    when no entry has such a phone, the ledger is the old one followed by
    one new entry with the phone, the response and the current time, one
    longer than before.  The contact phone is a string, or a value that
    the schema casts to one: such a value is [===] to no phone, so its
    entry is always appended, under the string it is cast to.  No entry
    carries a status: the schema has no such path. *)
Theorem C6_recordContactResponse (req : Request) (contactPhone : Supplied)
    phone response :
  reliable env ->
  contactResponseValidation req = inr (contactPhone, response) ->
  castString contactPhone = Returns phone ->
  (castObjectId env (params_alertId req) = None ->
     recordContactResponse env db req =
       (ServerError (js "Failed to record contact response"), db)) /\
  (forall id,
     castObjectId env (params_alertId req) = Some id ->
     (alerts db !! id = None ->
        recordContactResponse env db req = (NotFound, db)) /\
     (forall a,
        alerts db !! id = Some a ->
        validate a = true ->
        exists a',
          recordContactResponse env db req =
            (ResponseRecorded (getSummary a'),
             mkDb (<[alert_id a := a']> (alerts db)) (users db)) /\
          a' = depopulate (set_notifiedContacts (notifiedContacts a') a) /\
          (forall i c,
             notifiedContacts a !! i = Some c ->
             strictEq (Some (nc_phone c)) contactPhone ->
             (forall j c', notifiedContacts a !! j = Some c' -> (j < i)%nat ->
                           ~ strictEq (Some (nc_phone c')) contactPhone) ->
             length (notifiedContacts a') = length (notifiedContacts a) /\
             notifiedContacts a' !! i =
               Some (mkNotified phone response (clock env 0)) /\
             (forall j, j <> i -> notifiedContacts a' !! j = notifiedContacts a !! j)) /\
          ((forall c, c ∈ notifiedContacts a ->
                      ~ strictEq (Some (nc_phone c)) contactPhone) ->
             notifiedContacts a' =
               notifiedContacts a ++ [mkNotified phone response (clock env 0)] /\
             length (notifiedContacts a') = S (length (notifiedContacts a))))).
Proof.
  intros no_fault Hv Hphone. split.
  { intros Hc. unfold recordContactResponse, findById. by rewrite Hv, Hc. }
  intros id Hc. split.
  { intros Ha. unfold recordContactResponse.
    by rewrite Hv, (findById_cast env db _ id Hc (no_fault _)), Ha. }
  intros a Ha Hvalid.
  destruct contactPhone as [p|[p|]]; cbn in Hphone; [| |done]; injection Hphone as ->.
  - eexists.
    split; [by apply (recordContactResponse_recorded req (Str phone) response id a
                        (respond (clock env 0) phone response (notifiedContacts a)))|].
    rewrite depopulate_notifiedContacts. cbn [notifiedContacts set_notifiedContacts].
    split; [reflexivity|].
    split.
    + intros i c Hi [= Hp] Hfirst.
      rewrite (respond_found _ _ _ _ i c Hi Hp), Hp.
      * split; [apply length_insert|]. split.
        -- apply list_lookup_insert_eq. by eapply lookup_lt_Some.
        -- intros j Hj. by apply list_lookup_insert_ne.
      * intros j c' Hj Hlt Heq. apply (Hfirst j c' Hj Hlt). cbn. by rewrite Heq.
    + intros Hnone. rewrite respond_absent.
      * split; [done|]. rewrite length_app. simpl. lia.
      * intros c Hin Heq. apply (Hnone c Hin). cbn. by rewrite Heq.
  - eexists.
    split; [by apply (recordContactResponse_recorded req (NonStr (Some phone)) response id a
                        (notifiedContacts a ++ [mkNotified phone response (clock env 0)]))|].
    rewrite depopulate_notifiedContacts. cbn [notifiedContacts set_notifiedContacts].
    split; [reflexivity|].
    split.
    + intros i c _ [].
    + intros _. split; [done|]. rewrite length_app. simpl. lia.
Qed.

(** C10: the contact-response route reads nothing of the requester: two
    requests with the same alert id, phone and response get the same
    reply and leave the same database, whoever sends them, authenticated
    or not. *)
Theorem C10_recordContactResponse_ignores_requester (req1 req2 : Request) :
  params_alertId req1 = params_alertId req2 ->
  body_contactPhone req1 = body_contactPhone req2 ->
  body_response req1 = body_response req2 ->
  recordContactResponse env db req1 = recordContactResponse env db req2.
Proof.
  intros Hid Hphone Hresponse.
  unfold recordContactResponse, contactResponseValidation.
  by rewrite Hid, Hphone, Hresponse.
Qed.

End Response.

(** ** The guards of the notify-contacts route *)

Section Guards.

Variable env : Env.
Variable db : Db.
Variable req : Request.
Variable requester : User.

Hypothesis no_fault : reliable env.
Hypothesis authentic : req_user req = Some requester.


Lemma notifyLoaded_no_contacts (alert : SOSAlert) :
  creatorOf (userId alert) = Some (user_id requester) ->
  contactsOf (find (fun u => bool_decide (user_id u = user_id requester)) (users db))
    = [] ->
  notifyLoaded env db req alert = Returns (NoContacts, db).
Proof.
  intros Hc Hnone. unfold notifyLoaded.
  rewrite (alertUserId_creatorOf _ _ Hc). monad.
  unfold authenticated. rewrite authentic. monad.
  rewrite bool_decide_eq_true_2 by done. cbn [negb].
  unfold findUserById. rewrite (rejects_None env _ _ (no_fault _)). monad.
  by rewrite Hnone.
Qed.



End Guards.

(** ** The routes run on the sample data *)

Section Runs.

Import Sample.

Example formatPhoneNumber_spaces :
  formatPhoneNumber (VString (js "  9876543210 ")) = Returns (js "+919876543210").
Proof. reflexivity. Qed.

Example formatPhoneNumber_blank :
  formatPhoneNumber (VString (js "   ")) = Returns [].
Proof. reflexivity. Qed.

(** A number has no [trim]. *)
Example formatPhoneNumber_number :
  formatPhoneNumber (VNumber 9876543210) =
  Throws (mkError (js "phone.trim is not a function")).
Proof. reflexivity. Qed.

(** One emoji is two code units and one character for [isLength]. *)
Example strLength_emoji : strLength [0xD83D; 0xDE00] = 1%nat /\ length [0xD83D; 0xDE00] = 2%nat.
Proof. split; reflexivity. Qed.

(** Asha's alert goes to the two other active users; the first send is
    rejected, the second goes through. *)
Example createAlert_statuses :
  match (createAlert env db createRequest).1 with
  | Created _ notifications =>
      List.map (fun n => (nr_phone n, nr_status n)) notifications =
        [(js "+919812345678", js "failed"); (js "+15550001", js "sent")]
  | _ => False
  end.
Proof. vm_compute. reflexivity. Qed.

(** Without transport credentials every entry is logged. *)
Example createAlert_logged :
  match (createAlert
           (mkEnv false (twilioSend env) (clock env) (newObjectId env)
              (timestamp env) (dbFault env) (castObjectId env))
           db createRequest).1 with
  | Created _ notifications =>
      List.map nr_status notifications = [js "logged"; js "logged"]
  | _ => False
  end.
Proof. vm_compute. reflexivity. Qed.

(** Bina has no aadhar: her alert fails the validators of the schema, the
    first save rejects and the route replies with its 500. *)
Example createAlert_without_aadhar :
  createAlert env db (createRequestOf bina) =
    (ServerError (js "Failed to create SOS alert"), db).
Proof. vm_compute. reflexivity. Qed.

(** A description of 251 emoji passes the chain, which counts 251
    characters, and fails the schema, which counts 502 code units. *)
Example createAlert_long_description :
  let description := concat (replicate 251 [0xD83D; 0xDE00]) in
  isLength 500 description = true /\
  maxlength 500 description = false /\
  createAlert env db
    (mkRequest (Some asha) [] (Some (129 # 10)%Q) (Some (776 # 10)%Q) None
       (Some description) None None None Missing None) =
  (ServerError (js "Failed to create SOS alert"), db).
Proof. vm_compute. repeat split; reflexivity. Qed.

(** A second status update finds the alert resolved. *)
Example updateStatus_twice :
  let resolve := request (Some bina) (Some (js "resolved")) in
  (updateStatus env (updateStatus env db resolve).2 resolve).1 = InvalidTransition.
Proof. vm_compute. reflexivity. Qed.

(** The creator's notify-contacts overwrites the ledger with one entry
    for each of her contacts. *)
Example notifyContacts_creator :
  option_map (fun a => List.map nc_phone (notifiedContacts a))
    (alerts (notifyContacts env db (request (Some asha) None)).2 !! alert_id alert)
  = Some [js "+919123456789"; js "+919811111111"; js "+919811111111"].
Proof. vm_compute. reflexivity. Qed.

(** A response from an unknown phone is appended. *)
Example recordContactResponse_unknown :
  option_map (fun a => List.map nc_phone (notifiedContacts a))
    (alerts (recordContactResponse env db
               (responseRequest (alert_id alert) (Text (js "9123456789")))).2
       !! alert_id alert)
  = Some [js "+919123456789"; js "+919811111111"; js "+919811111111"; js "9123456789"].
Proof. vm_compute. reflexivity. Qed.

(** So is one whose phone is sent as a number, whatever its digits. *)
Example recordContactResponse_number :
  option_map (fun a => List.map nc_phone (notifiedContacts a))
    (alerts (recordContactResponse env answeredDb
               (responseRequest (alert_id answered)
                  (Foreign [js "9555500000"] (Some (js "9555500000"))))).2
       !! alert_id answered)
  = Some [js "9555500000"; js "9555500000"].
Proof. vm_compute. reflexivity. Qed.

End Runs.

(** ** The theorems at the sample data *)

Section Witnesses.

Import Sample.

Lemma env_reliable : reliable env.
Proof. intros call. reflexivity. Defined.

Lemma C1_witness :
  createAlertValidation createRequest = inr createBody /\
  req_user createRequest = Some asha /\
  validate (newSOSAlert flaky asha createBody) = true /\
  dbFault flaky (AlertSave 0) = None /\
  dbFault flaky UserFind = None /\
  is_Some (dbFault flaky (AlertSave 1)) /\
  dbFault blind (AlertSave 0) = None /\
  is_Some (dbFault blind UserFind) /\
  reliable env /\
  (exists full,
     length full = 2%nat /\
     statusCode (createAlert flaky db createRequest).1 = 201 /\
     createAlert flaky db createRequest =
       (Created (getSummary (newSOSAlert flaky asha createBody)) full,
        mkDb (<[newObjectId flaky := newSOSAlert flaky asha createBody]> (alerts db))
          (users db))) /\
  (statusCode (createAlert blind db createRequest).1 = 201 /\
   createAlert blind db createRequest =
     (Created (getSummary (newSOSAlert blind asha createBody)) [],
      mkDb (<[newObjectId blind := newSOSAlert blind asha createBody]> (alerts db))
        (users db))) /\
  (exists full,
     length full = 2%nat /\
     createAlert env db createRequest =
       (Created (getSummary (newSOSAlert env asha createBody)) full,
        mkDb (<[newObjectId env :=
                  set_notifiedContacts (ledger env full) (newSOSAlert env asha createBody)]>
                (alerts db))
          (users db))).
Proof.
  assert (is_Some (dbFault flaky (AlertSave 1))) as Hfault
    by (exact (ex_intro _ _ eq_refl)).
  assert (is_Some (dbFault blind UserFind)) as Hblind
    by (exact (ex_intro _ _ eq_refl)).
  split; [reflexivity|]. split; [reflexivity|]. split; [reflexivity|].
  split; [reflexivity|]. split; [reflexivity|]. split; [exact Hfault|].
  split; [reflexivity|]. split; [exact Hblind|]. split; [exact env_reliable|].
  split; [|split].
  - destruct (C1_createAlert_absorbs_notification_faults
                flaky db createRequest createBody asha eq_refl eq_refl eq_refl eq_refl)
      as (full & _ & Hlen & Hcode & _ & Hsecond & _).
    exists full. split; [exact Hlen|]. split; [exact Hcode|].
    exact (Hsecond eq_refl Hfault).
  - destruct (C1_createAlert_absorbs_notification_faults
                blind db createRequest createBody asha eq_refl eq_refl eq_refl eq_refl)
      as (full & _ & _ & Hcode & Hfirst & _).
    split; [exact Hcode|exact (Hfirst Hblind)].
  - destruct (C1_createAlert_absorbs_notification_faults
                env db createRequest createBody asha eq_refl eq_refl eq_refl eq_refl)
      as (full & _ & Hlen & _ & _ & _ & Hnone).
    exists full. split; [exact Hlen|]. exact (Hnone eq_refl eq_refl).
Defined.

Lemma C2_witness :
  reliable env /\
  createAlertValidation createRequest = inr createBody /\
  req_user createRequest = Some asha /\
  validate (newSOSAlert env asha createBody) = true /\
  req_user (request (Some asha) None) = Some asha /\
  castObjectId env (params_alertId (request (Some asha) None)) = Some (alert_id alert) /\
  alerts db !! alert_id alert = Some alert /\
  validate alert = true /\
  creatorOf (userId (populate (users db) alert)) = Some (user_id asha) /\
  (exists results stored,
     createAlert env db createRequest =
       (Created (getSummary (newSOSAlert env asha createBody)) results,
        mkDb (<[newObjectId env := stored]> (alerts db)) (users db)) /\
     notifiedContacts stored = ledger env results /\
     length (notifiedContacts stored) = 2%nat) /\
  (exists results stored',
     notifyContacts env db (request (Some asha) None) =
       (ContactsNotified results (getSummary stored'),
        mkDb (<[alert_id alert := stored']> (alerts db)) (users db)) /\
     notifiedContacts stored' = ledger env results /\
     length (notifiedContacts alert) = 3%nat /\
     length (notifiedContacts stored') = 3%nat /\
     List.map nc_notifiedAt (notifiedContacts stored') =
       [1700000000000; 1700000000001; 1700000000002]).
Proof.
  split; [exact env_reliable|]. split; [reflexivity|]. split; [reflexivity|].
  split; [reflexivity|]. split; [reflexivity|]. split; [reflexivity|].
  split; [reflexivity|]. split; [reflexivity|]. split; [reflexivity|].
  split.
  - destruct (C2_fanOut_replaces_ledger env db createRequest env_reliable) as [H _].
    destruct (H createBody asha eq_refl eq_refl eq_refl)
      as (results & stored & Hreply & _ & _ & Hledger & Hlength & _).
    exists results, stored.
    split; [exact Hreply|]. split; [exact Hledger|exact Hlength].
  - destruct (C2_fanOut_replaces_ledger env db (request (Some asha) None) env_reliable)
      as [_ H].
    assert (default [] (emergencyContacts asha) <> []) as Hsome by discriminate.
    destruct (H asha (alert_id alert) alert (default [] (emergencyContacts asha))
                eq_refl eq_refl eq_refl eq_refl eq_refl eq_refl Hsome)
      as (results & stored' & Hreply & Hloop & _ & Hledger & Hlength & _).
    exists results, stored'.
    split; [exact Hreply|]. split; [exact Hledger|]. split; [reflexivity|].
    split; [exact Hlength|].
    rewrite Hledger. vm_compute in Hloop. injection Hloop as <-. reflexivity.
Defined.

Lemma C3_witness :
  [systemUser bina; systemUser chitra] !! 0%nat = Some (systemUser bina) /\
  exists results entry,
    notifyLoop env (emergencyMessage asha alert) 0
      [systemUser bina; systemUser chitra] [] = (results, None) /\
    results !! 0%nat = Some entry /\
    nr_phone entry = js "+919812345678" /\
    nr_status entry = js "failed" /\
    nr_error entry = js "SMS failed: unreachable".
Proof.
  split; [reflexivity|].
  destruct (C3_fanOut_entry env (emergencyMessage asha alert)
              [systemUser bina; systemUser chitra] 0 (systemUser bina) eq_refl)
    as (results & phone & entry & Hloop & _ & Hentry & Hphone & _ & Hp & _ & _ & _ & Hfailed).
  injection Hphone as Hphone. rewrite <- Hphone in Hp, Hfailed.
  destruct (Hfailed (mkError (js "unreachable")) eq_refl eq_refl) as [Hs He].
  exists results, entry.
  split; [exact Hloop|]. split; [exact Hentry|]. split; [exact Hp|].
  split; [exact Hs|exact He].
Defined.

Lemma C4_witness :
  reliable env /\
  statusValidation (request (Some bina) (Some (js "resolved"))) = inr (js "resolved") /\
  statusValidation (request None (Some (js "false_alarm"))) = inr (js "false_alarm") /\
  statusValidation (request (Some asha) (Some (js "active"))) = inr (js "active") /\
  statusValidation absentRequest = inr (js "resolved") /\
  castObjectId env (alert_id alert) = Some (alert_id alert) /\
  alerts db !! alert_id alert = Some alert /\
  status alert = js "active" /\
  validate alert = true /\
  alerts closedDb !! alert_id alert = Some closed /\
  status closed <> js "active" /\
  (exists a',
     updateStatus env db (request (Some bina) (Some (js "resolved"))) =
       (StatusUpdated (getSummary a'),
        mkDb (<[alert_id alert := a']> (alerts db)) (users db)) /\
     notifiedContacts a' = notifiedContacts alert /\
     status a' = js "resolved" /\
     resolvedAt a' = Some 1700000000000 /\
     resolvedBy a' = Some (user_id bina)) /\
  (exists a',
     updateStatus env db (request None (Some (js "false_alarm"))) =
       (StatusUpdated (getSummary a'),
        mkDb (<[alert_id alert := a']> (alerts db)) (users db)) /\
     notifiedContacts a' = notifiedContacts alert /\
     status a' = js "false_alarm" /\
     resolvedAt a' = None /\
     resolvedBy a' = None) /\
  updateStatus env closedDb (request (Some asha) (Some (js "active"))) =
    (InvalidTransition, closedDb) /\
  updateStatus env db absentRequest = (NotFound, db).
Proof.
  assert (status closed <> js "active") as Hclosed
    by (intros Hx; vm_compute in Hx; discriminate Hx).
  split; [exact env_reliable|]. split; [reflexivity|]. split; [reflexivity|].
  split; [reflexivity|]. split; [reflexivity|]. split; [reflexivity|].
  split; [reflexivity|]. split; [reflexivity|]. split; [reflexivity|].
  split; [reflexivity|]. split; [exact Hclosed|].
  split; [|split; [|split]].
  - destruct (C4_updateStatus env db (request (Some bina) (Some (js "resolved")))
                env_reliable (js "resolved") eq_refl) as [_ H].
    destruct (H (alert_id alert) eq_refl) as (_ & _ & Hresolved & _).
    destruct (Hresolved alert bina eq_refl eq_refl eq_refl eq_refl eq_refl)
      as (a' & Hreply & Ha' & Hrest).
    exists a'. split; [exact Hreply|]. split; [rewrite Ha'; reflexivity|exact Hrest].
  - destruct (C4_updateStatus env db (request None (Some (js "false_alarm")))
                env_reliable (js "false_alarm") eq_refl) as [_ H].
    destruct (H (alert_id alert) eq_refl) as (_ & _ & _ & Hfalse).
    destruct (Hfalse alert eq_refl eq_refl eq_refl eq_refl)
      as (a' & Hreply & Ha' & Hrest).
    exists a'. split; [exact Hreply|]. split; [rewrite Ha'; reflexivity|exact Hrest].
  - destruct (C4_updateStatus env closedDb (request (Some asha) (Some (js "active")))
                env_reliable (js "active") eq_refl) as [_ H].
    destruct (H (alert_id alert) eq_refl) as (_ & Hinactive & _).
    exact (Hinactive closed eq_refl Hclosed).
  - destruct (C4_updateStatus env db absentRequest env_reliable (js "resolved") eq_refl)
      as [_ H].
    destruct (H (params_alertId absentRequest) eq_refl) as (Habsent & _).
    exact (Habsent eq_refl).
Defined.

(** An [:alertId] that is no ObjectId: no alert is stored under it, and
    the status route replies with its 500, not with NotFound. *)
Lemma C4_counterexample :
  reliable env /\
  statusValidation strayRequest = inr (js "resolved") /\
  castObjectId env (params_alertId strayRequest) = None /\
  alerts db !! params_alertId strayRequest = None /\
  updateStatus env db strayRequest =
    (ServerError (js "Failed to update alert status"), db) /\
  (updateStatus env db strayRequest).1 <> NotFound.
Proof.
  split; [exact env_reliable|]. split; [reflexivity|]. split; [reflexivity|].
  split; [reflexivity|]. split; [reflexivity|].
  intros H. vm_compute in H. discriminate H.
Qed.



Lemma C6_witness :
  reliable env /\
  contactResponseValidation (responseRequest (alert_id alert) (Text (js "+919811111111"))) =
    inr (Str (js "+919811111111"), js "responding") /\
  contactResponseValidation (responseRequest (alert_id alert) (Text (js "9811111111"))) =
    inr (Str (js "9811111111"), js "responding") /\
  contactResponseValidation
      (responseRequest (alert_id answered)
         (Foreign [js "9555500000"] (Some (js "9555500000")))) =
    inr (NonStr (Some (js "9555500000")), js "responding") /\
  contactResponseValidation absentRequest =
    inr (Str (js "+919123456789"), js "acknowledged") /\
  castObjectId env (alert_id alert) = Some (alert_id alert) /\
  castObjectId env (alert_id answered) = Some (alert_id answered) /\
  alerts db !! alert_id alert = Some alert /\
  validate alert = true /\
  alerts answeredDb !! alert_id answered = Some answered /\
  validate answered = true /\
  (exists a',
     recordContactResponse env db
         (responseRequest (alert_id alert) (Text (js "+919811111111"))) =
       (ResponseRecorded (getSummary a'),
        mkDb (<[alert_id alert := a']> (alerts db)) (users db)) /\
     notifiedContacts a' =
       [mkNotified (js "+919123456789") (js "pending") 1699999999000;
        mkNotified (js "+919811111111") (js "responding") 1700000000000;
        mkNotified (js "+919811111111") (js "pending") 1699999999002]) /\
  (exists a',
     recordContactResponse env db
         (responseRequest (alert_id alert) (Text (js "9811111111"))) =
       (ResponseRecorded (getSummary a'),
        mkDb (<[alert_id alert := a']> (alerts db)) (users db)) /\
     notifiedContacts a' =
       notifiedContacts alert ++
       [mkNotified (js "9811111111") (js "responding") 1700000000000]) /\
  (exists a',
     recordContactResponse env answeredDb
         (responseRequest (alert_id answered)
            (Foreign [js "9555500000"] (Some (js "9555500000")))) =
       (ResponseRecorded (getSummary a'),
        mkDb (<[alert_id answered := a']> (alerts answeredDb)) (users answeredDb)) /\
     notifiedContacts a' =
       [mkNotified (js "9555500000") (js "acknowledged") 1699999975000;
        mkNotified (js "9555500000") (js "responding") 1700000000000]) /\
  recordContactResponse env db absentRequest = (NotFound, db).
Proof.
  split; [exact env_reliable|]. split; [reflexivity|]. split; [reflexivity|].
  split; [reflexivity|]. split; [reflexivity|]. split; [reflexivity|].
  split; [reflexivity|]. split; [reflexivity|]. split; [reflexivity|].
  split; [reflexivity|]. split; [reflexivity|].
  split; [|split; [|split]].
  - destruct (C6_recordContactResponse env db
                (responseRequest (alert_id alert) (Text (js "+919811111111")))
                (Str (js "+919811111111")) (js "+919811111111") (js "responding")
                env_reliable eq_refl eq_refl) as [_ H].
    destruct (H (alert_id alert) eq_refl) as [_ Hfound].
    destruct (Hfound alert eq_refl eq_refl) as (a' & Hreply & _ & Hin & _).
    destruct (Hin 1%nat (mkNotified (js "+919811111111") (js "pending") 1699999999001)
                eq_refl eq_refl) as (Hlength & Hentry & Hothers).
    { intros j c' Hj Hlt. destruct j as [|j].
      - injection Hj as <-. intros Hx. discriminate Hx.
      - exfalso. apply Nat.succ_lt_mono in Hlt. exact (Nat.nlt_0_r j Hlt). }
    exists a'. split; [exact Hreply|].
    pose proof (Hothers 0%nat (Nat.neq_0_succ 0)) as H0.
    pose proof (Hothers 2%nat (Nat.neq_succ_diag_l 1)) as H2.
    destruct (notifiedContacts a') as [|c0 [|c1 [|c2 [|c3 l]]]];
      try discriminate Hlength.
    cbn in Hentry, H0, H2.
    injection Hentry as ->. injection H0 as ->. injection H2 as ->. reflexivity.
  - destruct (C6_recordContactResponse env db
                (responseRequest (alert_id alert) (Text (js "9811111111")))
                (Str (js "9811111111")) (js "9811111111") (js "responding")
                env_reliable eq_refl eq_refl) as [_ H].
    destruct (H (alert_id alert) eq_refl) as [_ Hfound].
    destruct (Hfound alert eq_refl eq_refl) as (a' & Hreply & _ & _ & Hnew).
    destruct Hnew as [Hledger _].
    { intros c Hc Hx.
      apply elem_of_cons in Hc as [->|Hc]; [discriminate Hx|].
      apply elem_of_cons in Hc as [->|Hc]; [discriminate Hx|].
      apply elem_of_cons in Hc as [->|Hc]; [discriminate Hx|].
      apply elem_of_nil in Hc. destruct Hc. }
    exists a'. split; [exact Hreply|exact Hledger].
  - destruct (C6_recordContactResponse env answeredDb
                (responseRequest (alert_id answered)
                   (Foreign [js "9555500000"] (Some (js "9555500000"))))
                (NonStr (Some (js "9555500000"))) (js "9555500000") (js "responding")
                env_reliable eq_refl eq_refl) as [_ H].
    destruct (H (alert_id answered) eq_refl) as [_ Hfound].
    destruct (Hfound answered eq_refl eq_refl) as (a' & Hreply & _ & _ & Hnew).
    destruct Hnew as [Hledger _].
    { intros c _ Hx. exact Hx. }
    exists a'. split; [exact Hreply|exact Hledger].
  - destruct (C6_recordContactResponse env db absentRequest
                (Str (js "+919123456789")) (js "+919123456789") (js "acknowledged")
                env_reliable eq_refl eq_refl) as [_ H].
    destruct (H (params_alertId absentRequest) eq_refl) as [Habsent _].
    exact (Habsent eq_refl).
Defined.

(** An [:alertId] that is no ObjectId: no alert is stored under it, and
    the contact-response route replies with its 500, not with NotFound. *)
Lemma C6_counterexample :
  reliable env /\
  contactResponseValidation strayRequest =
    inr (Str (js "+919123456789"), js "acknowledged") /\
  castObjectId env (params_alertId strayRequest) = None /\
  alerts db !! params_alertId strayRequest = None /\
  recordContactResponse env db strayRequest =
    (ServerError (js "Failed to record contact response"), db) /\
  (recordContactResponse env db strayRequest).1 <> NotFound.
Proof.
  split; [exact env_reliable|]. split; [reflexivity|]. split; [reflexivity|].
  split; [reflexivity|]. split; [reflexivity|].
  intros H. vm_compute in H. discriminate H.
Qed.

Lemma C9_witness :
  reliable env /\
  body_status (request (Some bina) (Some (js "active"))) = Some (js "active") /\
  castObjectId env (params_alertId (request (Some bina) (Some (js "active")))) =
    Some (alert_id alert) /\
  alerts db !! alert_id alert = Some alert /\
  status alert = js "active" /\
  validate alert = true /\
  statusValidation (request (Some bina) (Some (js "active"))) = inr (js "active") /\
  exists a',
    updateStatus env db (request (Some bina) (Some (js "active"))) =
      (StatusUpdated (getSummary a'),
       mkDb (<[alert_id alert := a']> (alerts db)) (users db)) /\
    statusCode (updateStatus env db (request (Some bina) (Some (js "active")))).1 = 200 /\
    a' = alert /\
    status a' = js "active" /\
    resolvedAt a' = None /\
    resolvedBy a' = None.
Proof.
  split; [exact env_reliable|]. split; [reflexivity|]. split; [reflexivity|].
  split; [reflexivity|]. split; [reflexivity|]. split; [reflexivity|].
  destruct (C9_updateStatus_to_active env db
              (request (Some bina) (Some (js "active")))
              env_reliable (alert_id alert) alert eq_refl eq_refl eq_refl eq_refl)
    as (Hv & _ & _ & H).
  split; [exact Hv|]. exact (H eq_refl).
Defined.

Lemma C10_witness :
  req_user (request (Some bina) None) <> req_user (request None (Some (js "active"))) /\
  params_alertId (request (Some bina) None) =
    params_alertId (request None (Some (js "active"))) /\
  body_contactPhone (request (Some bina) None) =
    body_contactPhone (request None (Some (js "active"))) /\
  body_response (request (Some bina) None) =
    body_response (request None (Some (js "active"))) /\
  recordContactResponse env db (request (Some bina) None) =
    recordContactResponse env db (request None (Some (js "active"))).
Proof.
  split; [discriminate|]. split; [reflexivity|]. split; [reflexivity|].
  split; [reflexivity|].
  exact (C10_recordContactResponse_ignores_requester env db
           (request (Some bina) None) (request None (Some (js "active")))
           eq_refl eq_refl eq_refl).
Defined.

End Witnesses.

(** * Further properties *)

(** ** What a handler can do to the database *)

Section Shapes.

Variable env : Env.
Variable db : Db.
Variable req : Request.

Lemma depopulate_fields (a : SOSAlert) :
  alert_id (depopulate a) = alert_id a /\
  emergencyType (depopulate a) = emergencyType a /\
  createdAt (depopulate a) = createdAt a.
Proof. unfold depopulate. by destruct (userId a). Qed.

(** The create route either fails and leaves the database alone, or
    replies 201 and stores the new alert, which satisfies its schema,
    under the new id, with an empty ledger or with the ledger of the
    notifications. *)
Lemma createAlert_cases :
  (400 <= statusCode (createAlert env db req).1 /\ (createAlert env db req).2 = db) \/
  exists body user results l,
    createAlertValidation req = inr body /\
    req_user req = Some user /\
    validate (newSOSAlert env user body) = true /\
    (l = [] \/ l = ledger env results) /\
    createAlert env db req =
      (Created (getSummary (newSOSAlert env user body)) results,
       mkDb (<[newObjectId env := set_notifiedContacts l (newSOSAlert env user body)]>
               (alerts db))
            (users db)).
Proof.
  destruct (createAlert env db req) as [reply db'] eqn:E. cbn [fst snd].
  unfold createAlert in E.
  destruct (createAlertValidation req) as [details|body];
    [injection E as <- <-; by left|].
  unfold authenticated in E. destruct (req_user req) as [user|];
    [|injection E as <- <-; by left].
  monad_in E. unfold save at 1, rejects in E.
  destruct (validate (newSOSAlert env user body)) eqn:Hvalid;
    [|injection E as <- <-; by left].
  destruct (dbFault env (AlertSave 0)); [injection E as <- <-; by left|].
  monad_in E. right. exists body, user.
  unfold notificationPhase, findOtherActiveUsers, rejects in E.
  destruct (dbFault env UserFind).
  { injection E as <- <-. exists [], []. split_and!; auto. }
  destruct (List.filter _ _) as [|u others].
  { injection E as <- <-. exists [], []. split_and!; auto. }
  destruct (notifyLoop _ _ _ _ _) as [results [e|]].
  { injection E as <- <-. exists results, []. split_and!; auto. }
  unfold save, rejects in E. rewrite (validate_fanOut env _ _ Hvalid) in E.
  destruct (dbFault env (AlertSave 1)).
  { injection E as <- <-. exists results, []. split_and!; auto. }
  injection E as <- <-.
  exists results, (ledger env results). split_and!; auto.
  cbn [alerts users]. by rewrite insert_insert_eq.
Qed.

Lemma updateStatus_cases :
  (400 <= statusCode (updateStatus env db req).1 /\ (updateStatus env db req).2 = db) \/
  exists id a newStatus a',
    castObjectId env (params_alertId req) = Some id /\
    statusValidation req = inr newStatus /\
    alerts db !! id = Some a /\
    status a = js "active" /\
    a' = depopulate
           (if bool_decide (newStatus = js "resolved")
            then set_resolved (clock env 0) (from_option user_id [] (req_user req))
                   (set_status newStatus a)
            else set_status newStatus a) /\
    validate a' = true /\
    updateStatus env db req =
      (StatusUpdated (getSummary a'),
       mkDb (<[alert_id a := a']> (alerts db)) (users db)).
Proof.
  destruct (updateStatus env db req) as [reply db'] eqn:E. cbn [fst snd].
  unfold updateStatus in E.
  destruct (statusValidation req) as [details|newStatus];
    [injection E as <- <-; by left|].
  unfold findById, rejects in E.
  destruct (castObjectId env (params_alertId req)) as [id|];
    [|injection E as <- <-; by left].
  destruct (dbFault env AlertFindById); [injection E as <- <-; by left|].
  monad_in E.
  destruct (alerts db !! id) as [a|] eqn:Ha;
    [|injection E as <- <-; by left].
  destruct (bool_decide_reflect (status a = js "active")) as [Hs|Hs];
    [|injection E as <- <-; by left].
  cbn [negb] in E.
  destruct (bool_decide_reflect (newStatus = js "resolved")) as [Hr|Hr].
  - unfold authenticated in E. destruct (req_user req) as [u|];
      [|injection E as <- <-; by left].
    monad_in E. unfold save, rejects in E.
    destruct (validate _) eqn:Hvalid; [|injection E as <- <-; by left].
    destruct (dbFault env (AlertSave 0)); injection E as <- <-; [by left|].
    right. eexists id, a, newStatus, _.
    split_and!; [done|done|done|done|reflexivity| |];
      rewrite bool_decide_eq_true_2 by done; cbn [from_option].
    + by rewrite validate_depopulate.
    + by rewrite getSummary_depopulate.
  - monad_in E. unfold save, rejects in E.
    destruct (validate _) eqn:Hvalid; [|injection E as <- <-; by left].
    destruct (dbFault env (AlertSave 0)); injection E as <- <-; [by left|].
    right. eexists id, a, newStatus, _.
    split_and!; [done|done|done|done|reflexivity| |];
      rewrite bool_decide_eq_false_2 by done.
    + by rewrite validate_depopulate.
    + by rewrite getSummary_depopulate.
Qed.

Lemma recordContactResponse_cases :
  (400 <= statusCode (recordContactResponse env db req).1 /\
   (recordContactResponse env db req).2 = db) \/
  exists id a contactPhone response contacts a',
    castObjectId env (params_alertId req) = Some id /\
    contactResponseValidation req = inr (contactPhone, response) /\
    alerts db !! id = Some a /\
    recordResponse (clock env 0) contactPhone response (notifiedContacts a) =
      Returns contacts /\
    a' = depopulate (set_notifiedContacts contacts a) /\
    validate a' = true /\
    recordContactResponse env db req =
      (ResponseRecorded (getSummary a'),
       mkDb (<[alert_id a := a']> (alerts db)) (users db)).
Proof.
  destruct (recordContactResponse env db req) as [reply db'] eqn:E. cbn [fst snd].
  unfold recordContactResponse in E.
  destruct (contactResponseValidation req) as [details|[contactPhone response]];
    [injection E as <- <-; by left|].
  unfold findById, rejects in E.
  destruct (castObjectId env (params_alertId req)) as [id|];
    [|injection E as <- <-; by left].
  destruct (dbFault env AlertFindById); [injection E as <- <-; by left|].
  monad_in E.
  destruct (alerts db !! id) as [a|] eqn:Ha;
    [|injection E as <- <-; by left].
  destruct (recordResponse _ _ _ _) as [contacts|e] eqn:Hcontacts;
    [|injection E as <- <-; by left].
  monad_in E. unfold save, rejects in E.
  destruct (validate _) eqn:Hvalid; [|injection E as <- <-; by left].
  destruct (dbFault env (AlertSave 0)); injection E as <- <-; [by left|].
  right. eexists id, a, contactPhone, response, contacts, _. split_and!; try done.
  - by rewrite validate_depopulate.
  - by rewrite getSummary_depopulate.
Qed.

Lemma notifyContacts_cases :
  (400 <= statusCode (notifyContacts env db req).1 /\ (notifyContacts env db req).2 = db) \/
  exists id stored requester results a',
    castObjectId env (params_alertId req) = Some id /\
    alerts db !! id = Some stored /\
    req_user req = Some requester /\
    creatorOf (userId (populate (users db) stored)) = Some (user_id requester) /\
    length results =
      length (contactsOf (find (fun u => bool_decide (user_id u = user_id requester))
                            (users db))) /\
    results <> [] /\
    a' = depopulate (set_notifiedContacts (ledger env results)
                       (populate (users db) stored)) /\
    validate a' = true /\
    notifyContacts env db req =
      (ContactsNotified results (getSummary a'),
       mkDb (<[alert_id stored := a']> (alerts db)) (users db)).
Proof.
  destruct (notifyContacts env db req) as [reply db'] eqn:E. cbn [fst snd].
  unfold notifyContacts, findById, rejects in E.
  destruct (castObjectId env (params_alertId req)) as [id|];
    [|injection E as <- <-; by left].
  destruct (dbFault env AlertFindById); [injection E as <- <-; by left|].
  monad_in E.
  destruct (alerts db !! id) as [stored|] eqn:Ha;
    [|injection E as <- <-; by left].
  unfold notifyLoaded in E.
  destruct (alertUserId (userId (populate (users db) stored))) as [creator|e] eqn:Href;
    [|injection E as <- <-; by left].
  assert (creatorOf (userId (populate (users db) stored)) = Some creator) as Hcreator.
  { revert Href. destruct (userId (populate (users db) stored)); simpl; by intros [= <-]. }
  monad_in E.
  unfold authenticated in E. destruct (req_user req) as [requester|];
    [|injection E as <- <-; by left].
  monad_in E.
  destruct (bool_decide_reflect (creator = toString (user_id requester)))
    as [Hid|Hid]; [|injection E as <- <-; by left].
  cbn [negb] in E. unfold findUserById, rejects in E.
  destruct (dbFault env UserFindById); [injection E as <- <-; by left|].
  monad_in E.
  destruct (contactsOf _) as [|c cs] eqn:Hc; [injection E as <- <-; by left|].
  destruct (notifyLoop_pushes env
              (emergencyMessage requester (populate (users db) stored))
              (List.map emergencyContact (c :: cs)) 0 []) as (results & Hloop & Hlen & _).
  rewrite Hloop in E. cbn [app] in E.
  unfold save, rejects in E.
  destruct (validate _) eqn:Hvalid; [|injection E as <- <-; by left].
  destruct (dbFault env (AlertSave 0)); injection E as <- <-; [by left|].
  right. eexists id, stored, requester, results, _.
  split; [done|]. split; [done|]. split; [done|].
  split; [by rewrite Hcreator, Hid|].
  split; [by rewrite Hc, Hlen, length_map|].
  split; [by destruct results|]. split; [done|].
  split; [by rewrite validate_depopulate|].
  rewrite getSummary_depopulate. cbn [alert_id set_notifiedContacts].
  by rewrite (proj1 (populate_fields db stored)).
Qed.

End Shapes.

(** ** Failures, frames and invariants *)

Section Handlers.

Variable env : Env.
Variable db : Db.
Variable req : Request.

(** A property of the four handlers holds of every member of the list. *)
Lemma each_handler (P : (Env -> Db -> Request -> Reply * Db) -> Prop) :
  P createAlert -> P updateStatus -> P recordContactResponse -> P notifyContacts ->
  forall h, h ∈ handlers -> P h.
Proof.
  intros H1 H2 H3 H4 h Hh. unfold handlers in Hh.
  apply elem_of_cons in Hh as [->|Hh]; [done|].
  apply elem_of_cons in Hh as [->|Hh]; [done|].
  apply elem_of_cons in Hh as [->|Hh]; [done|].
  apply elem_of_cons in Hh as [->|Hh]; [done|].
  by apply elem_of_nil in Hh.
Qed.

(** X1: a handler that replies with an error status (400 and above) has
    written nothing: validation failures, ids that are no ObjectId,
    missing alerts, refused transitions, refused requesters, missing
    contacts, documents that fail their schema and faults of the driver
    all leave the database exactly as it was. *)
Theorem X1_error_reply_writes_nothing (h : Env -> Db -> Request -> Reply * Db) :
  h ∈ handlers ->
  400 <= statusCode (h env db req).1 -> (h env db req).2 = db.
Proof.
  revert h.
  apply (each_handler (fun h =>
           400 <= statusCode (h env db req).1 -> (h env db req).2 = db)).
  - destruct (createAlert_cases env db req) as [[_ H]|(?&?&?&?&_&_&_&_&H)]; [done|].
    rewrite H. cbn. lia.
  - destruct (updateStatus_cases env db req) as [[_ H]|(?&?&?&?&_&_&_&_&_&_&H)]; [done|].
    rewrite H. cbn. lia.
  - destruct (recordContactResponse_cases env db req)
      as [[_ H]|(?&?&?&?&?&?&_&_&_&_&_&_&H)]; [done|].
    rewrite H. cbn. lia.
  - destruct (notifyContacts_cases env db req)
      as [[_ H]|(?&?&?&?&?&_&_&_&_&_&_&_&_&H)]; [done|].
    rewrite H. cbn. lia.
Qed.

(** X2: a handler never touches the user collection, and in a
    collection where alerts sit under their own id it leaves every alert
    alone except the one under the id that the [:alertId] of the request
    is cast to (or, for the create route, the one under the new id). *)
Theorem X2_handlers_frame (h : Env -> Db -> Request -> Reply * Db) :
  h ∈ handlers ->
  keyed db ->
  users (h env db req).2 = users db /\
  forall id,
    castObjectId env (params_alertId req) <> Some id -> id <> newObjectId env ->
    alerts (h env db req).2 !! id = alerts db !! id.
Proof.
  revert h.
  apply (each_handler (fun h =>
           keyed db ->
           users (h env db req).2 = users db /\
           forall id,
             castObjectId env (params_alertId req) <> Some id -> id <> newObjectId env ->
             alerts (h env db req).2 !! id = alerts db !! id));
    intros Hkeyed.
  - destruct (createAlert_cases env db req) as [[_ ->]|(?&?&?&?&_&_&_&_&->)]; [done|].
    split; [done|]. intros id _ Hid. cbn. by rewrite lookup_insert_ne.
  - destruct (updateStatus_cases env db req)
      as [[_ ->]|(id0&a&?&?&Hc&_&Ha&_&_&_&->)]; [done|].
    split; [done|]. intros id Hid _. cbn.
    rewrite lookup_insert_ne; [done|]. rewrite (Hkeyed _ _ Ha). congruence.
  - destruct (recordContactResponse_cases env db req)
      as [[_ ->]|(id0&a&?&?&?&?&Hc&_&Ha&_&_&_&->)]; [done|].
    split; [done|]. intros id Hid _. cbn.
    rewrite lookup_insert_ne; [done|]. rewrite (Hkeyed _ _ Ha). congruence.
  - destruct (notifyContacts_cases env db req)
      as [[_ ->]|(id0&a&?&?&?&Hc&Ha&_&_&_&_&_&_&->)]; [done|].
    split; [done|]. intros id Hid _. cbn.
    rewrite lookup_insert_ne; [done|]. rewrite (Hkeyed _ _ Ha). congruence.
Qed.

End Handlers.

Section Invariant.

Variable env : Env.
Variable db : Db.
Variable req : Request.

Lemma check_inr {A} (v : option A) (msg : string) (a : A) :
  check v msg = inr a <-> v = Some a.
Proof. unfold check. destruct v; split; by intros [= ->]. Qed.

Lemma both_inr {A B} (x : list jsstring + A) (y : list jsstring + B) (a : A) (b : B) :
  both x y = inr (a, b) <-> x = inr a /\ y = inr b.
Proof.
  unfold both. destruct x, y; split; try by intros [= -> ->].
  all: by intros [[= ->] [= ->]].
Qed.

Lemma isFloat_Some (lo hi : Z) (v : option Q) (q : Q) :
  isFloat lo hi v = Some q <->
  v = Some q /\ Qle_bool (inject_Z lo) q = true /\ Qle_bool q (inject_Z hi) = true.
Proof.
  unfold isFloat. destruct v as [q'|]; [|split; [done|by intros [? _]]].
  destruct (Qle_bool (inject_Z lo) q') eqn:H1;
    destruct (Qle_bool q' (inject_Z hi)) eqn:H2; cbn [andb]; split;
    try (intros [= <-]; by repeat split);
    intros ([= <-] & ? & ?); congruence.
Qed.

Lemma optional_Some (chk : jsstring -> bool) (v o : option jsstring) :
  optional chk v = Some o <-> o = v /\ from_option chk true v = true.
Proof.
  unfold optional. destruct v as [s|]; cbn [from_option].
  - destruct (chk s); split; try by intros [= <-]. all: by intros [-> ?].
  - split; [by intros [= <-]|by intros [-> _]].
Qed.

(** What a body that passes [createAlertValidation] holds. *)
Lemma createAlertValidation_inr (body : CreateBody) :
  createAlertValidation req = inr body ->
  body_latitude req = Some (cb_latitude body) /\
  body_longitude req = Some (cb_longitude body) /\
  Qle_bool (inject_Z (-90)) (cb_latitude body) = true /\
  Qle_bool (cb_latitude body) (inject_Z 90) = true /\
  Qle_bool (inject_Z (-180)) (cb_longitude body) = true /\
  Qle_bool (cb_longitude body) (inject_Z 180) = true /\
  cb_address body = body_address req /\
  cb_description body = body_description req /\
  cb_emergencyType body = body_emergencyType req /\
  from_option (isLength 500) true (cb_description body) = true /\
  from_option (isIn emergencyTypeEnum) true (cb_emergencyType body) = true.
Proof.
  unfold createAlertValidation.
  destruct (both _ _) as [e|[la [lo [d t]]]] eqn:E; [done|].
  intros [= <-]. cbn [cb_latitude cb_longitude cb_address cb_description
                      cb_emergencyType].
  apply both_inr in E as [E1 E]. apply both_inr in E as [E2 E].
  apply both_inr in E as [E3 E4].
  apply check_inr, isFloat_Some in E1 as (-> & ? & ?).
  apply check_inr, isFloat_Some in E2 as (-> & ? & ?).
  apply check_inr, optional_Some in E3 as [-> ?].
  apply check_inr, optional_Some in E4 as [-> ?].
  by repeat split.
Qed.

Lemma settled_ext (a b : SOSAlert) :
  validate b = true ->
  status b = status a ->
  resolvedAt b = resolvedAt a -> resolvedBy b = resolvedBy a ->
  settled a -> settled b.
Proof. unfold settled. intros Hb -> -> -> (_ & ? & ?). done. Qed.

(** What an update leaves of an active, settled alert. *)
Lemma updated_settled (a : SOSAlert) (newStatus : jsstring) :
  status a = js "active" ->
  settled a ->
  let a' := if bool_decide (newStatus = js "resolved")
            then set_resolved (clock env 0) (from_option user_id [] (req_user req))
                   (set_status newStatus a)
            else set_status newStatus a in
  validate a' = true -> settled a'.
Proof.
  intros Hs (_ & Hat & Hby) a' Hvalid. unfold a' in *.
  case_bool_decide as Hr.
  - split; [done|]. by split.
  - split; [done|]. cbn.
    rewrite Hs in Hat, Hby.
    split; (split; [done|]); intros H.
    + by apply Hat in H.
    + by apply Hby in H.
Qed.

(** X3: the handlers keep the alert collection consistent: alerts stay
    under their own id, every stored alert satisfies the validators of
    its schema (the required paths, the length of the description, the
    four enums), and an alert carries the time and the author of its
    resolution exactly when its status is resolved. *)
Theorem X3_handlers_keep_consistency (h : Env -> Db -> Request -> Reply * Db) :
  h ∈ handlers -> consistent db -> consistent (h env db req).2.
Proof.
  intros handler [Hkeyed Hsettled].
  assert (forall id a', alert_id a' = id -> settled a' ->
            consistent (mkDb (<[id := a']> (alerts db)) (users db))) as Hins.
  { intros id a' Hid Ha'. split.
    - intros id' b. cbn. destruct (decide (id = id')) as [<-|Hne].
      + rewrite lookup_insert_eq. by intros [= <-].
      + rewrite lookup_insert_ne by done. apply Hkeyed.
    - intros id' b. cbn. destruct (decide (id = id')) as [<-|Hne].
      + rewrite lookup_insert_eq. by intros [= <-].
      + rewrite lookup_insert_ne by done. apply Hsettled. }
  revert h handler.
  apply (each_handler (fun h => consistent (h env db req).2)).
  - destruct (createAlert_cases env db req)
      as [[_ ->]|(body&user&results&l&Hv&_&Hvalid&Hl&->)]; [done|].
    apply Hins; [done|]. split.
    + destruct Hl as [->| ->]; [done|]. by apply validate_fanOut.
    + split; (split; [done|by intros [? ?]]).
  - destruct (updateStatus_cases env db req)
      as [[_ ->]|(id&a&s&a'&_&Hv&Ha&Hs&->&Hvalid&->)]; [done|].
    rewrite validate_depopulate in Hvalid.
    apply Hins.
    + rewrite (proj1 (depopulate_fields _)). by case_bool_decide.
    + eapply settled_ext; [by rewrite validate_depopulate| | | |
                           by apply (updated_settled a s Hs (Hsettled _ _ Ha))];
        by rewrite ?(proj1 (depopulate_status _)),
                   ?(proj1 (proj2 (depopulate_status _))),
                   ?(proj2 (proj2 (depopulate_status _))).
  - destruct (recordContactResponse_cases env db req)
      as [[_ ->]|(id&a&?&?&contacts&a'&_&_&Ha&_&->&Hvalid&->)]; [done|].
    apply Hins.
    + by rewrite (proj1 (depopulate_fields _)).
    + eapply settled_ext; [exact Hvalid| | | |by apply (Hsettled _ _ Ha)];
        by rewrite ?(proj1 (depopulate_status _)),
                   ?(proj1 (proj2 (depopulate_status _))),
                   ?(proj2 (proj2 (depopulate_status _))).
  - destruct (notifyContacts_cases env db req)
      as [[_ ->]|(id&a&?&?&a'&_&Ha&_&_&_&_&->&Hvalid&->)]; [done|].
    apply Hins.
    + rewrite (proj1 (depopulate_fields _)). cbn.
      by rewrite (proj1 (populate_fields db a)).
    + eapply settled_ext; [exact Hvalid| | | |by apply (Hsettled _ _ Ha)];
        rewrite ?(proj1 (depopulate_status _)),
                ?(proj1 (proj2 (depopulate_status _))),
                ?(proj2 (proj2 (depopulate_status _)));
        cbn [set_notifiedContacts status resolvedAt resolvedBy];
        unfold populate; destruct (userId a); try done; by destruct (find _ _).
Qed.

End Invariant.

(** ** Status updates end *)

Section Terminal.

Variable env1 env2 : Env.
Variable db : Db.
Variable req1 req2 : Request.

(** X4: once a status update has moved an alert out of [active], no
    later status update on that alert succeeds, whatever its body, its
    sender and the state of the driver: it gets an error status and the
    database stays as the first update left it.  The later update is one
    whose [:alertId] is cast to the same id. *)
Theorem X4_terminal_status_is_final (summary : Summary) (db1 : Db) :
  keyed db ->
  updateStatus env1 db req1 = (StatusUpdated summary, db1) ->
  sum_status summary <> js "active" ->
  castObjectId env2 (params_alertId req2) = castObjectId env1 (params_alertId req1) ->
  400 <= statusCode (updateStatus env2 db1 req2).1 /\
  (updateStatus env2 db1 req2).2 = db1.
Proof.
  intros Hkeyed Hfirst Hleft Hsame.
  destruct (updateStatus_cases env1 db req1)
    as [[Hcode _]|(id & a & s & a' & Hc & Hv & Ha & Hs & Ha' & _ & Heq)].
  { rewrite Hfirst in Hcode. cbn in Hcode. lia. }
  rewrite Hfirst in Heq. injection Heq as -> ->.
  destruct (updateStatus_cases env2
              (mkDb (<[alert_id a := a']> (alerts db)) (users db)) req2)
    as [H|(id2 & b & s2 & b' & Hc2 & _ & Hb & Hbs & _)]; [done|].
  exfalso. cbn in Hb. rewrite Hsame, Hc in Hc2. injection Hc2 as <-.
  rewrite (Hkeyed _ _ Ha), lookup_insert_eq in Hb.
  injection Hb as <-. apply Hleft. exact Hbs.
Qed.

End Terminal.

(** ** Responses *)

Section Responses.

Implicit Types (contacts : list NotifiedContact) (phone response : jsstring).

(** A later response for the same phone replaces the earlier one. *)
Lemma respond_respond now1 now2 phone response1 response2 contacts :
  respond now2 phone response2 (respond now1 phone response1 contacts) =
  respond now2 phone response2 contacts.
Proof.
  unfold respond at 2 3.
  destruct (list_find (fun c => nc_phone c = phone) contacts) as [[i c]|] eqn:E.
  - apply list_find_Some in E as (Hi & Hc & Hfirst).
    rewrite (respond_found now2 phone response2 _ i
               (mkNotified (nc_phone c) response1 now1)).
    + cbn. by rewrite list_insert_insert_eq.
    + apply list_lookup_insert_eq. by eapply lookup_lt_Some.
    + done.
    + intros j c' Hj Hlt. rewrite list_lookup_insert_ne in Hj by lia.
      by apply (Hfirst j c').
  - pose proof E as Hnone. apply list_find_None in Hnone.
    rewrite (respond_found now2 phone response2 _ (length contacts)
               (mkNotified phone response1 now1)).
    + cbn. rewrite insert_app_r_alt by lia. by rewrite Nat.sub_diag.
    + by rewrite lookup_app_r, Nat.sub_diag by lia.
    + done.
    + intros j c' Hj Hlt. rewrite lookup_app_l in Hj by done.
      eapply Forall_lookup_1 in Hnone; [|done]. done.
Qed.

Lemma depopulate_twice (l1 l2 : list NotifiedContact) (a : SOSAlert) :
  depopulate (set_notifiedContacts l2 (depopulate (set_notifiedContacts l1 a))) =
  depopulate (set_notifiedContacts l2 a).
Proof. destruct a as [? [] ? ? ? ? ? ? ? ? ? ? ? ?]; done. Qed.

Lemma validate_twice (l1 l2 : list NotifiedContact) (a : SOSAlert) :
  validate (set_notifiedContacts l2 (depopulate (set_notifiedContacts l1 a))) =
  validate (set_notifiedContacts l2 a).
Proof. destruct a as [? [] ? ? ? ? ? ? ? ? ? ? ? ?]; done. Qed.

(** The route on an alert that it finds, for a phone that is a string. *)
Lemma recordContactResponse_string (env : Env) (db : Db) (req : Request)
    phone response (id : ObjectId) (a : SOSAlert) :
  reliable env ->
  contactResponseValidation req = inr (Str phone, response) ->
  castObjectId env (params_alertId req) = Some id ->
  alerts db !! id = Some a ->
  (recordContactResponse env db req).2 =
    let a' := set_notifiedContacts
                (respond (clock env 0) phone response (notifiedContacts a)) a in
    if validate a'
    then mkDb (<[alert_id a := depopulate a']> (alerts db)) (users db)
    else db.
Proof.
  intros no_fault Hv Hc Ha. unfold recordContactResponse.
  rewrite Hv, (findById_cast env db _ id Hc (no_fault _)), Ha. monad.
  cbn [recordResponse]. monad. unfold save.
  destruct (validate _); [|done].
  by rewrite (rejects_None env _ _ (no_fault _)).
Qed.

(** X5: for one alert and one phone that is sent as a string, the last
    recorded response wins: recording a response and then another leaves
    the database exactly as recording the second alone would; responses
    do not pile up.  They do for a phone that is not sent as a string, a
    number say: it is equal to the phone of no entry, and each recording
    appends an entry under the string that the phone is cast to, also
    when the ledger has that string already. *)
Theorem X5_last_response_wins (env1 env2 : Env) (db : Db) (req1 req2 : Request)
    (contactPhone : Supplied) response :
  keyed db ->
  reliable env2 ->
  contactResponseValidation req2 = inr (contactPhone, response) ->
  castObjectId env1 (params_alertId req1) = castObjectId env2 (params_alertId req2) ->
  body_contactPhone req1 = body_contactPhone req2 ->
  (forall phone, contactPhone = Str phone ->
     (recordContactResponse env2 (recordContactResponse env1 db req1).2 req2).2 =
     (recordContactResponse env2 db req2).2) /\
  (forall phone id a summary db',
     contactPhone = NonStr (Some phone) ->
     castObjectId env2 (params_alertId req2) = Some id ->
     alerts db !! id = Some a ->
     recordContactResponse env2 db req2 = (ResponseRecorded summary, db') ->
     exists a',
       alerts db' !! id = Some a' /\
       notifiedContacts a' =
         notifiedContacts a ++ [mkNotified phone response (clock env2 0)]).
Proof.
  intros Hkeyed Hrel Hv2 Hid Hphone. split.
  - intros phone ->.
    destruct (recordContactResponse_cases env1 db req1)
      as [[_ ->]|(id & a & p1 & r1 & contacts & a1 & Hc & Hv1 & Ha & Hcontacts & Ha1 & Hvalid & ->)];
      [done|].
    cbn [snd].
    apply contactResponseValidation_inr in Hv1 as (Hp1 & _).
    pose proof (contactResponseValidation_inr _ _ _ Hv2) as (Hp2 & _ & Hr).
    assert (p1 = Str phone) as -> by congruence.
    cbn [recordResponse] in Hcontacts. injection Hcontacts as <-.
    rewrite Hid in Hc. pose proof (Hkeyed _ _ Ha) as Hkey.
    rewrite (recordContactResponse_string env2 db req2 phone response id a Hrel Hv2 Hc Ha).
    rewrite (recordContactResponse_string env2 _ req2 phone response id a1 Hrel Hv2 Hc).
    2: { cbn. rewrite Hkey. apply lookup_insert_eq. }
    cbv zeta. rewrite Ha1, depopulate_notifiedContacts.
    cbn [notifiedContacts set_notifiedContacts].
    rewrite respond_respond, validate_twice, depopulate_twice.
    rewrite (proj1 (depopulate_fields _)). cbn [alert_id set_notifiedContacts].
    rewrite Ha1, validate_depopulate in Hvalid.
    assert (validate (set_notifiedContacts
                        (respond (clock env2 0) phone response (notifiedContacts a)) a)
            = true) as ->.
    { eapply validate_ledger; [exact Hvalid|].
      rewrite <- (respond_respond (clock env1 0) (clock env2 0) phone r1 response).
      apply respond_valid; [done|].
      apply validate_responses in Hvalid. exact Hvalid. }
    cbn [alerts users]. by rewrite insert_insert_eq.
  - intros phone id a summary db' -> Hc Ha Hreply.
    destruct (recordContactResponse_cases env2 db req2)
      as [[Hcode _]|(id' & a0 & p & r & contacts & a' & Hc' & Hv & Ha0 & Hcontacts & Ha' & _ & Heq)].
    { rewrite Hreply in Hcode. cbn in Hcode. lia. }
    rewrite Hreply in Heq. injection Heq as _ ->.
    rewrite Hc in Hc'. injection Hc' as <-. rewrite Ha in Ha0. injection Ha0 as <-.
    rewrite Hv2 in Hv. injection Hv as <- <-.
    cbn in Hcontacts. injection Hcontacts as <-.
    exists a'. split.
    + cbn. rewrite (Hkeyed _ _ Ha). apply lookup_insert_eq.
    + rewrite Ha'. by rewrite depopulate_notifiedContacts.
Qed.

End Responses.

(** ** Formatted phones in the ledger *)

Section Formatted.

Import NormalizerSpec.

(** What the formatter returns it returns again for itself. *)
Lemma formatPhoneNumber_fixed (v : option jsstring) (r : jsstring) :
  formatPhoneNumber (field v) = Returns r ->
  formatPhoneNumber (VString r) = Returns r.
Proof.
  intros H. apply formatPhoneNumber_complete in H.
  destruct H as [| |s Hs Hi|s Hs Hi Hm|s d Hs Hi Hm Ht Hd|s Hs Hi Hm Ht];
    try reflexivity.
  - assert (trim s <> []) as Hne by (destruct Hi as [? ->]; done).
    rewrite (formatPhoneNumber_string _ Hne), trim_idem.
    apply startsWith_plus_spec in Hi. by rewrite Hi.
  - rewrite formatPhoneNumber_string by done.
    rewrite trim_no_space; [done|].
    apply Forall_app. split; [repeat constructor|by apply mobile_no_space].
  - rewrite formatPhoneNumber_string by done.
    rewrite trim_no_space; [done|].
    apply Forall_app. split; [repeat constructor|by apply mobile_no_space].
  - destruct (decide (trim s = [])) as [->|Hne]; [done|].
    rewrite (formatPhoneNumber_string _ Hne), trim_idem.
    destruct (startsWith _ _) eqn:E; [by apply startsWith_plus_spec in E|].
    destruct (re_mobile _) eqn:E'; [by apply re_mobile_spec in E'|].
    destruct (re_zero_mobile _) eqn:E''; [by apply re_zero_mobile_spec in E''|].
    done.
Qed.

Variable env : Env.
Variable m : Message.

(** Every entry that a loop leaves comes from a recipient. *)
Lemma notifyLoop_entries (rs : list Recipient) (results : list NotificationResult) :
  notifyLoop env m 0 rs [] = (results, None) ->
  forall e, e ∈ results ->
    exists k r, rs !! k = Some r /\ notifyOne env k m r = Returns e.
Proof.
  intros Hloop e He.
  destruct (notifyLoop_pushes env m rs 0 []) as (entries & Hloop' & Hlen & Hk).
  rewrite Hloop in Hloop'. injection Hloop' as ->.
  apply list_elem_of_lookup in He as [k He].
  destruct (rs !! k) as [r|] eqn:Hr.
  - exists k, r. split; [done|]. destruct (Hk k r Hr) as (e' & He' & Hone).
    cbn in *. congruence.
  - apply lookup_ge_None in Hr. apply lookup_lt_Some in He. lia.
Qed.

Lemma notifyOne_phone (k : nat) (r : Recipient) (e : NotificationResult) :
  notifyOne env k m r = Returns e ->
  formatPhoneNumber (field (rc_phone r)) = Returns (nr_phone e).
Proof.
  destruct (notifyOne_returns env m k r) as (phone & Hphone & ->).
  by intros [= <-].
Qed.

(** X6: the phones that a fan-out writes to the ledger are formatted,
    and the contact-response route compares without formatting: a
    response recorded under a phone that the formatter would change (a
    bare ten-digit mobile, say) never updates an entry of the fan-out; it
    is appended as a new entry. *)
Theorem X6_unformatted_phone_is_appended
    (rs : list Recipient) (results : list NotificationResult)
    (now : Date) (phone response : jsstring) :
  notifyLoop env m 0 rs [] = (results, None) ->
  formatPhoneNumber (VString phone) <> Returns phone ->
  respond now phone response (ledger env results) =
    ledger env results ++ [mkNotified phone response now].
Proof.
  intros Hloop Hraw. apply respond_absent. intros c Hc Heq.
  apply elem_of_lookup_imap in Hc as (i & result & -> & Hi).
  cbn in Heq. subst phone.
  apply list_elem_of_lookup_2 in Hi.
  destruct (notifyLoop_entries rs results Hloop result Hi) as (k & r & _ & Hone).
  apply notifyOne_phone in Hone.
  by apply formatPhoneNumber_fixed in Hone.
Qed.

End Formatted.

(** ** The three counts of the client *)

Section Counts.

Variable env : Env.

Lemma notifyLoop_Forall (P : NotificationResult -> Prop) (m : Message) :
  (forall i r e, notifyOne env i m r = Returns e -> P e) ->
  forall rs i acc res o,
    notifyLoop env m i rs acc = (res, o) -> Forall P acc -> Forall P res.
Proof.
  intros HP rs. induction rs as [|r rs IH]; intros i acc res o; simpl.
  - by intros [= <- <-].
  - destruct (notifyOne env i m r) as [e|err] eqn:Hone.
    + intros Hloop Hacc. apply (IH _ _ _ _ Hloop).
      apply Forall_app. split; [done|]. constructor; [|done]. by apply (HP i r).
    + by intros [= <- <-].
Qed.

(** What holds of every entry that an iteration can push holds of the
    notifications that the create route sends back. *)
Lemma createAlert_notifications (P : NotificationResult -> Prop)
    (db db' : Db) (req : Request) (summary : Summary)
    (notifications : list NotificationResult) :
  (forall m i r e, notifyOne env i m r = Returns e -> P e) ->
  createAlert env db req = (Created summary notifications, db') ->
  Forall P notifications.
Proof.
  intros HP. unfold createAlert.
  destruct (createAlertValidation req) as [details|body]; [done|].
  unfold authenticated. destruct (req_user req) as [user|]; [|done]. monad.
  unfold save at 1, rejects.
  destruct (validate (newSOSAlert env user body)); [|done].
  destruct (dbFault env (AlertSave 0)); [done|]. monad.
  unfold notificationPhase, findOtherActiveUsers, rejects.
  destruct (dbFault env UserFind); [by intros [= _ <- _]|].
  destruct (List.filter _ _) as [|u others]; [by intros [= _ <- _]|].
  destruct (notifyLoop _ _ _ _ _) as [results o] eqn:Hloop.
  assert (Forall P results) as Hall.
  { eapply notifyLoop_Forall; [apply HP|apply Hloop|constructor]. }
  destruct o; [by intros [= _ <- _]|].
  unfold save, rejects. destruct (validate _); [|by intros [= _ <- _]].
  destruct (dbFault env (AlertSave 1)); by intros [= _ <- _].
Qed.

Lemma notifyOne_status (m : Message) (i : nat) (r : Recipient) (e : NotificationResult) :
  notifyOne env i m r = Returns e ->
  (nr_status e = js "sent" \/ nr_status e = js "failed" \/ nr_status e = js "logged") /\
  (twilioConfigured env = false -> nr_status e = js "logged").
Proof.
  destruct (notifyOne_returns env m i r) as (phone & _ & ->).
  intros [= <-]. cbn. unfold attempt.
  destruct (twilioConfigured env); [|by auto].
  destruct (twilioSend env i m phone); (split; [auto|done]).
Qed.

Lemma withStatus_partition (l : list NotificationResult) :
  Forall (fun e => nr_status e = js "sent" \/ nr_status e = js "failed" \/
                   nr_status e = js "logged") l ->
  (length (withStatus "sent" l) + length (withStatus "failed" l) +
   length (withStatus "logged" l) = length l)%nat.
Proof.
  induction 1 as [|e l He _ IH]; [done|].
  unfold withStatus in *. cbn [List.filter].
  destruct He as [He|[He|He]]; rewrite He;
    repeat match goal with
           | |- context [bool_decide (js ?a = js ?b)] =>
               first
                 [ rewrite (bool_decide_eq_true_2 (js a = js b)) by reflexivity
                 | rewrite (bool_decide_eq_false_2 (js a = js b))
                     by (intros HH; vm_compute in HH; discriminate) ]
           end;
    cbn [length]; lia.
Qed.

Lemma withStatus_all (s : string) (l : list NotificationResult) :
  Forall (fun e => nr_status e = js s) l -> withStatus s l = l.
Proof.
  induction 1 as [|e l He _ IH]; [done|].
  unfold withStatus in *. cbn [List.filter].
  rewrite bool_decide_eq_true_2 by done. by rewrite IH.
Qed.

(** X7: the three counts that the client logs after an SOS account for
    every notification of the reply: sent, failed and logged add up to
    their number; and when the server has no transport credentials all
    of them are logged. *)
Theorem X7_client_counts_add_up (db db' : Db) (req : Request) (summary : Summary)
    (notifications : list NotificationResult) :
  createAlert env db req = (Created summary notifications, db') ->
  (length (withStatus "sent" notifications) +
   length (withStatus "failed" notifications) +
   length (withStatus "logged" notifications) = length notifications)%nat /\
  (twilioConfigured env = false -> withStatus "logged" notifications = notifications).
Proof.
  intros Hreply. split.
  - apply withStatus_partition.
    eapply createAlert_notifications; [|exact Hreply].
    intros m i r e He. by apply (notifyOne_status m i r e).
  - intros Hoff. apply withStatus_all.
    eapply createAlert_notifications; [|exact Hreply].
    intros m i r e He. by apply (notifyOne_status m i r e).
Qed.

End Counts.

(** ** What the create route stores *)

Section Created.

Variable env : Env.
Variable db : Db.

(** X8: an alert that the create route announces with its 201 is in the
    database under the id of the summary, belongs to the requester, is
    active with priority high and no resolution, and satisfies the
    validators of its schema, which the save has run: the requester has
    an aadhar and a phone, the emergency type is of the enum, the
    description has at most 500 code units; and its latitude lies within
    -90..90 and its longitude within -180..180, which the validation
    chains admit. *)
Theorem X8_created_alert_obeys_schema (req : Request) (summary : Summary)
    (notifications : list NotificationResult) (db' : Db) :
  createAlert env db req = (Created summary notifications, db') ->
  exists user stored la lo,
    req_user req = Some user /\
    alerts db' !! sum_id summary = Some stored /\
    getSummary stored = summary /\
    userId stored = RefId (user_id user) /\
    status stored = js "active" /\
    priority stored = js "high" /\
    resolvedAt stored = None /\
    resolvedBy stored = None /\
    validate stored = true /\
    requiredString (user_aadhar user) = true /\
    requiredString (user_phone user) = true /\
    enum emergencyTypeEnum (emergencyType stored) = true /\
    (length (description stored) <= 500)%nat /\
    latitude (location stored) = Some la /\
    longitude (location stored) = Some lo /\
    (inject_Z (-90) <= la)%Q /\ (la <= inject_Z 90)%Q /\
    (inject_Z (-180) <= lo)%Q /\ (lo <= inject_Z 180)%Q.
Proof.
  intros Hreply.
  destruct (createAlert_cases env db req)
    as [[Hcode _]|(body & user & results & l & Hv & Hu & Hvalid & Hl & Heq)].
  { rewrite Hreply in Hcode. cbn in Hcode. lia. }
  rewrite Hreply in Heq. injection Heq as -> -> ->.
  apply createAlertValidation_inr in Hv
    as (_ & _ & H1 & H2 & H3 & H4 & _ & _ & _ & _ & _).
  exists user, (set_notifiedContacts l (newSOSAlert env user body)),
    (cb_latitude body), (cb_longitude body).
  split; [done|]. split; [apply lookup_insert_eq|].
  do 6 (split; [done|]).
  assert (validate (set_notifiedContacts l (newSOSAlert env user body)) = true) as Hstored.
  { destruct Hl as [->| ->]; [done|]. by apply validate_fanOut. }
  split; [done|].
  revert Hvalid. unfold validate.
  cbn [newSOSAlert userId userAadhar userName userPhone location description status
       priority emergencyType notifiedContacts set_notifiedContacts latitude longitude].
  rewrite !andb_true_iff. intros ((((((((((_ & Ha) & _) & Hp) & _) & _) & Hd) & _) & _) & Ht) & _).
  split; [done|]. split; [done|]. split; [done|].
  split; [by apply Nat.leb_le in Hd|].
  do 2 (split; [done|]).
  by rewrite <- !Qle_bool_iff.
Qed.

Lemma retryLocation_fallback (b : Browser) (fuel : nat) :
  getCurrentLocation b 0%nat = None ->
  getCurrentLocation b 1%nat = None ->
  (maxLocationAttempts <= fuel)%nat ->
  retryLocation b 0 fuel = Some (mkPosition 0 0 (inject_Z 999999)).
Proof.
  intros H0 H1 Hfuel. unfold maxLocationAttempts in Hfuel.
  destruct fuel as [|[|fuel]]; [lia..|].
  cbn. by rewrite H0, H1.
Qed.

(** When the new alert satisfies its schema. *)
Lemma newSOSAlert_valid (user : User) (body : CreateBody) :
  requiredString (user_aadhar user) = true ->
  requiredString (user_phone user) = true ->
  maxlength 500 (orElse (cb_description body) []) = true ->
  enum emergencyTypeEnum (orElse (cb_emergencyType body) (js "other")) = true ->
  validate (newSOSAlert env user body) = true.
Proof.
  intros Haadhar Hphone Hmax Htype. unfold validate.
  cbn [newSOSAlert userId userAadhar userName userPhone location description status
       priority emergencyType notifiedContacts latitude longitude requiredRef forallb].
  rewrite Haadhar, Hphone, Hmax, Htype.
  assert (requiredString (Some (orElse (user_name user) (js "Anonymous"))) = true) as ->
    by (by destruct (user_name user) as [[|? ?]|]).
  rewrite !bool_decide_eq_true_2 by (by eexists). done.
Qed.

(** X9: when both attempts of the client to locate the device fail, the
    SOS still goes out, and is accepted when an SOS of that user and with
    that description and emergency type is accepted at all, that is when
    the description and the emergency type pass their chains, the token
    is that of a user with an aadhar and a phone, the description has at
    most 500 code units and the driver does not reject the first save.
    The request carries the point (0, 0), passes the validation, and the
    alert is created with the address Location not available; the
    message to the recipients then carries no map link, since the
    coordinates are not truthy. *)
Theorem X9_failed_geolocation_still_alerts (b : Browser) (fuel : nat)
    (description emergencyType : jsstring) (user : User) :
  getCurrentLocation b 0%nat = None ->
  getCurrentLocation b 1%nat = None ->
  (maxLocationAttempts <= fuel)%nat ->
  isLength 500 description = true ->
  isIn emergencyTypeEnum emergencyType = true ->
  tokenUser b = Some user ->
  requiredString (user_aadhar user) = true ->
  requiredString (user_phone user) = true ->
  maxlength 500 description = true ->
  dbFault env (AlertSave 0) = None ->
  exists req summary notifications db',
    sosRequest b fuel description emergencyType = Some req /\
    body_latitude req = Some 0%Q /\
    body_longitude req = Some 0%Q /\
    createAlert env db req = (Created summary notifications, db') /\
    address (sum_location summary) = js "Location not available" /\
    alertLocation (sum_location summary) = None.
Proof.
  intros H0 H1 Hfuel Hd Ht Hu Haadhar Hphone Hmax Hsave.
  unfold sosRequest. rewrite (retryLocation_fallback b fuel H0 H1 Hfuel).
  cbn [mbind option_bind pos_latitude pos_longitude]. rewrite Hu.
  change (Qeq_bool 0 0) with true. cbn [negb andb].
  eexists.
  assert (createAlertValidation
            (mkRequest (Some user) [] (Some 0%Q) (Some 0%Q)
               (Some (js "Location not available")) (Some description)
               (Some emergencyType) None None Missing None) =
          inr (mkCreateBody 0 0 (Some (js "Location not available"))
                 (Some description) (Some emergencyType))) as Hv.
  { unfold createAlertValidation. cbn [body_latitude body_longitude body_description
      body_emergencyType body_address]. unfold optional.
    change (isIn _ emergencyType) with (isIn emergencyTypeEnum emergencyType).
    by rewrite Hd, Ht. }
  assert (validate (newSOSAlert env user
            (mkCreateBody 0 0 (Some (js "Location not available"))
               (Some description) (Some emergencyType))) = true) as Hvalid.
  { apply newSOSAlert_valid; try done; cbn [cb_description cb_emergencyType].
    - by destruct description.
    - by destruct emergencyType. }
  destruct (createAlert_reply env db _ _ user Hv eq_refl Hvalid Hsave)
    as (full & _ & _ & Hcode & _).
  destruct (createAlert_cases env db
              (mkRequest (Some user) [] (Some 0%Q) (Some 0%Q)
                 (Some (js "Location not available")) (Some description)
                 (Some emergencyType) None None Missing None))
    as [[Hcode' _]|(body & user' & results & l & Hv' & Hu' & _ & _ & Hreply)].
  { rewrite Hcode in Hcode'. lia. }
  rewrite Hv in Hv'. injection Hv' as <-. injection Hu' as <-.
  eexists _, results, _. split; [done|]. split; [done|]. split; [done|].
  split; [exact Hreply|]. by split.
Qed.

End Created.

(** ** The list routes *)

Section Lists.

#[local] Instance newerFirst_total : Total newerFirst.
Proof. intros a b. unfold newerFirst. lia. Qed.

#[local] Instance newerFirst_trans : Transitive newerFirst.
Proof. intros a b c. unfold newerFirst. lia. Qed.

Variable db : Db.

Lemma elem_of_findAlerts (p : SOSAlert -> bool) (a : SOSAlert) :
  a ∈ findAlerts db p <-> exists id, alerts db !! id = Some a /\ p a = true.
Proof.
  unfold findAlerts. rewrite list_elem_of_In, filter_In, <- list_elem_of_In.
  rewrite list_elem_of_fmap. split.
  - intros [([id a'] & -> & Hin) Hp]. apply elem_of_map_to_list in Hin. by exists id.
  - intros (id & Hid & Hp). split; [|done]. exists (id, a). split; [done|].
    by apply elem_of_map_to_list.
Qed.

Lemma findAlerts_NoDup (p : SOSAlert -> bool) :
  keyed db -> NoDup (alert_id <$> findAlerts db p).
Proof.
  intros Hkeyed. unfold findAlerts.
  assert (alert_id <$> (map_to_list (alerts db)).*2 = (map_to_list (alerts db)).*1) as Hids.
  { assert (Forall (fun kv => alert_id kv.2 = kv.1) (map_to_list (alerts db))) as Hall.
    { apply Forall_forall. intros [id a] Hin. apply elem_of_map_to_list in Hin.
      by apply Hkeyed. }
    induction Hall as [|[id a] l Hx _ IH]; [done|]. cbn in *. by rewrite Hx, IH. }
  pose proof (NoDup_fst_map_to_list (alerts db)) as Hnd. rewrite <- Hids in Hnd.
  revert Hnd. generalize ((map_to_list (alerts db)).*2). intros l.
  induction l as [|a l IH]; [done|]. cbn. intros Hnd.
  apply NoDup_cons in Hnd as [Hnotin Hnd].
  destruct (p a); [|by apply IH]. cbn. apply NoDup_cons. split; [|by apply IH].
  intros Hin. apply Hnotin. apply list_elem_of_fmap in Hin as (b & Hb & Hin).
  apply list_elem_of_fmap. exists b. split; [done|].
  apply list_elem_of_In in Hin. apply filter_In in Hin as [Hin _].
  by apply list_elem_of_In.
Qed.

Lemma summaries_sorted (f : SOSAlert -> SOSAlert) (l : list SOSAlert) :
  (forall a, createdAt (f a) = createdAt a) ->
  newestFirst (getSummary <$> (f <$> merge_sort newerFirst l)).
Proof.
  intros Hf. unfold newestFirst. rewrite <- list_fmap_compose.
  apply (StronglySorted_fmap _ newerFirst).
  - intros a b. unfold newerFirst. cbn. by rewrite !Hf.
  - apply StronglySorted_merge_sort; apply _.
Qed.

Lemma elem_of_merge_sort (a : SOSAlert) (l : list SOSAlert) :
  a ∈ merge_sort newerFirst l <-> a ∈ l.
Proof. by rewrite merge_sort_Permutation. Qed.

Lemma populate_createdAt (a : SOSAlert) : createdAt (populate (users db) a) = createdAt a.
Proof. unfold populate. destruct (userId a); try done. by destruct (find _ _). Qed.

Lemma getSummary_populate (a : SOSAlert) :
  getSummary (populate (users db) a) = getSummary a.
Proof. unfold populate. destruct (userId a); try done. by destruct (find _ _). Qed.

(** Membership in the reply of GET /active. *)
Lemma activeAlerts_list :
  exists l,
    activeAlerts None db = AlertList l (length l) /\
    newestFirst l /\
    (keyed db -> NoDup (sum_id <$> l)) /\
    forall s, s ∈ l <->
      exists id a, alerts db !! id = Some a /\ status a = js "active" /\ getSummary a = s.
Proof.
  exists (getSummary <$>
            (populate (users db) <$>
               merge_sort newerFirst
                 (findAlerts db (fun a => bool_decide (status a = js "active"))))).
  split.
  { unfold activeAlerts, getActiveAlerts. monad. by rewrite !length_fmap. }
  split; [apply summaries_sorted, populate_createdAt|].
  split.
  - intros Hkeyed.
    assert (forall l, sum_id <$> (getSummary <$> (populate (users db) <$> l)) =
                      alert_id <$> l) as ->.
    { intros l. rewrite <- !list_fmap_compose. apply list_fmap_ext.
      intros i a _. cbn. apply (proj1 (populate_fields db a)). }
    rewrite merge_sort_Permutation. by apply findAlerts_NoDup.
  - intros s. rewrite <- list_fmap_compose, list_elem_of_fmap. split.
    + intros (a & -> & Ha). apply (proj1 (elem_of_merge_sort _ _)) in Ha.
      apply elem_of_findAlerts in Ha as (id & Hid & Hs).
      exists id, a. split; [done|]. split; [by apply bool_decide_eq_true in Hs|].
      cbn. by rewrite getSummary_populate.
    + intros (id & a & Hid & Hs & <-). exists a. split.
      * cbn. by rewrite getSummary_populate.
      * apply (proj2 (elem_of_merge_sort _ _)), elem_of_findAlerts.
        exists id. split; [done|]. by apply bool_decide_eq_true_2.
Qed.

(** X10: GET /active lists, newest first, the summaries of exactly the
    alerts whose status is active, with their number as count, each alert
    once when alerts sit under their own id; when the query rejects the
    reply is the 500 message. *)
Theorem X10_active_alerts_listed :
  (exists l,
     activeAlerts None db = AlertList l (length l) /\
     newestFirst l /\
     (keyed db -> NoDup (sum_id <$> l)) /\
     forall s, s ∈ l <->
       exists id a, alerts db !! id = Some a /\ status a = js "active" /\
                    getSummary a = s) /\
  forall e, activeAlerts (Some e) db = AlertsError (js "Failed to get active alerts").
Proof. split; [apply activeAlerts_list|done]. Qed.

Lemma myAlerts_list (req : Request) (user : User) :
  req_user req = Some user ->
  exists l,
    myAlerts None db req = AlertList l (length l) /\
    newestFirst l /\
    (keyed db -> NoDup (sum_id <$> l)) /\
    forall s, s ∈ l <->
      exists id a, alerts db !! id = Some a /\
                   creatorOf (userId a) = Some (user_id user) /\ getSummary a = s.
Proof.
  intros Hu.
  exists (getSummary <$>
            merge_sort newerFirst
              (findAlerts db
                 (fun a => bool_decide (creatorOf (userId a) = Some (user_id user))))).
  split.
  { unfold myAlerts, authenticated, getUserAlerts. rewrite Hu. monad.
    by rewrite !length_fmap. }
  split.
  { rewrite <- (list_fmap_id (merge_sort _ _)). by apply summaries_sorted. }
  split.
  - intros Hkeyed.
    assert (forall l, sum_id <$> (getSummary <$> l) = alert_id <$> l) as ->.
    { intros l. rewrite <- !list_fmap_compose. by apply list_fmap_ext. }
    rewrite merge_sort_Permutation. by apply findAlerts_NoDup.
  - intros s. rewrite list_elem_of_fmap. split.
    + intros (a & -> & Ha). apply (proj1 (elem_of_merge_sort _ _)) in Ha.
      apply elem_of_findAlerts in Ha as (id & Hid & Hs).
      exists id, a. split; [done|]. split; [by apply bool_decide_eq_true in Hs|done].
    + intros (id & a & Hid & Hs & <-). exists a. split; [done|].
      apply (proj2 (elem_of_merge_sort _ _)), elem_of_findAlerts.
      exists id. split; [done|]. by apply bool_decide_eq_true_2.
Qed.

(** X11: GET /my-alerts lists, newest first, the summaries of exactly
    the alerts that the requester created, whatever their status, with
    their number as count. *)
Theorem X11_my_alerts_listed (req : Request) (user : User) :
  req_user req = Some user ->
  exists l,
    myAlerts None db req = AlertList l (length l) /\
    newestFirst l /\
    (keyed db -> NoDup (sum_id <$> l)) /\
    forall s, s ∈ l <->
      exists id a, alerts db !! id = Some a /\
                   creatorOf (userId a) = Some (user_id user) /\ getSummary a = s.
Proof. apply myAlerts_list. Qed.

End Lists.

(** ** Writing, then listing *)

Section Listed.

Variable env : Env.
Variable db : Db.
Variable req : Request.

(** X12: an alert that the create route announces is at once in the
    list of GET /active and in the creator's GET /my-alerts, under the
    summary of the 201. *)
Theorem X12_created_alert_is_listed (summary : Summary)
    (notifications : list NotificationResult) (db' : Db) :
  createAlert env db req = (Created summary notifications, db') ->
  exists active mine,
    activeAlerts None db' = AlertList active (length active) /\
    summary ∈ active /\
    myAlerts None db' req = AlertList mine (length mine) /\
    summary ∈ mine.
Proof.
  intros Hreply.
  destruct (createAlert_cases env db req)
    as [[Hcode _]|(body & user & results & l & Hv & Hu & _ & _ & Heq)].
  { rewrite Hreply in Hcode. cbn in Hcode. lia. }
  rewrite Hreply in Heq. injection Heq as -> -> ->.
  destruct (activeAlerts_list
              (mkDb (<[newObjectId env := set_notifiedContacts l (newSOSAlert env user body)]>
                       (alerts db)) (users db)))
    as (active & Hactive & _ & _ & Hin).
  destruct (myAlerts_list
              (mkDb (<[newObjectId env := set_notifiedContacts l (newSOSAlert env user body)]>
                       (alerts db)) (users db)) req user Hu)
    as (mine & Hmine & _ & _ & Hin').
  exists active, mine. split; [done|]. split; [|split; [done|]].
  - apply Hin. eexists _, _. split; [apply lookup_insert_eq|]. done.
  - apply Hin'. eexists _, _. split; [apply lookup_insert_eq|]. done.
Qed.

(** X13: a status update that moves an alert out of [active] takes it
    off the list of GET /active and changes nothing else there: the list
    afterwards holds the summaries of before except that alert's. *)
Theorem X13_closed_alert_is_delisted (summary : Summary) (db' : Db) :
  keyed db ->
  updateStatus env db req = (StatusUpdated summary, db') ->
  sum_status summary <> js "active" ->
  exists before after,
    activeAlerts None db = AlertList before (length before) /\
    activeAlerts None db' = AlertList after (length after) /\
    forall s, s ∈ after <-> s ∈ before /\ sum_id s <> sum_id summary.
Proof.
  intros Hkeyed Hreply Hleft.
  destruct (updateStatus_cases env db req)
    as [[Hcode _]|(id0 & a & newStatus & a' & _ & Hv & Ha & Hs & Ha' & _ & Heq)].
  { rewrite Hreply in Hcode. cbn in Hcode. lia. }
  rewrite Hreply in Heq. injection Heq as -> ->.
  assert (alert_id a' = alert_id a) as Hid.
  { rewrite Ha', (proj1 (depopulate_fields _)). by case_bool_decide. }
  pose proof (Hkeyed _ _ Ha) as Hkey.
  destruct (activeAlerts_list db) as (before & Hbefore & _ & _ & Hin).
  destruct (activeAlerts_list (mkDb (<[alert_id a := a']> (alerts db)) (users db)))
    as (after & Hafter & _ & _ & Hin').
  exists before, after. split; [done|]. split; [done|].
  intros s. rewrite Hin, Hin'. cbn [alerts sum_id getSummary]. split.
  - intros (id & b & Hb & Hbs & <-).
    destruct (decide (id = alert_id a)) as [->|Hne].
    + rewrite lookup_insert_eq in Hb. injection Hb as <-. done.
    + rewrite lookup_insert_ne in Hb by done. split; [by exists id, b|].
      cbn. rewrite Hid, (Hkeyed _ _ Hb). done.
  - intros [(id & b & Hb & Hbs & <-) Hne]. exists id, b.
    split; [|done]. rewrite lookup_insert_ne; [done|].
    intros Heq. apply Hne. cbn. by rewrite Hid, (Hkeyed _ _ Hb).
Qed.

End Listed.

(** ** The test routes agree with the routes they test *)

Section Tests.

Variable env : Env.
Variable db : Db.

Hypothesis no_fault : reliable env.

Lemma filter_others (id : ObjectId) (l : list User) :
  List.filter (fun u => negb (bool_decide (toString (user_id u) = toString id)))
    (List.filter isActive l) =
  List.filter (fun u => isActive u && negb (bool_decide (user_id u = id))) l.
Proof.
  induction l as [|u l IH]; [done|]. cbn.
  destruct (isActive u); cbn; [|done]. unfold toString in *.
  destruct (bool_decide (user_id u = id)); cbn; by rewrite IH.
Qed.

(** X14: GET /test/all-users foretells the broadcast: the users that it
    counts and lists as other users are the recipients of an alert that
    the same requester then creates, so the 201 carries as many
    notifications as the test counted.  The alert is one that the driver
    saves, its body passing the chains and the alert its schema. *)
Theorem X14_test_all_users_foretells_broadcast (req : Request) (user : User)
    (report : UsersReport) :
  req_user req = Some user ->
  testAllUsers env db req = UsersTest report ->
  ur_otherUsers report = length (otherActiveUsers db user) /\
  (ur_usersList report).*1 = cardOf <$> otherActiveUsers db user /\
  forall req' body,
    createAlertValidation req' = inr body ->
    req_user req' = Some user ->
    validate (newSOSAlert env user body) = true ->
    exists summary notifications db',
      createAlert env db req' = (Created summary notifications, db') /\
      length notifications = ur_otherUsers report.
Proof.
  intros Hu. unfold testAllUsers, authenticated, findUserById.
  rewrite (rejects_None env _ _ (no_fault _)), Hu. monad.
  rewrite (rejects_None env _ _ (no_fault _)). monad.
  destruct (find _ (users db)) as [currentUser|]; [|done].
  rewrite filter_others. fold (otherActiveUsers db user).
  intros [= <-]. cbn [ur_otherUsers ur_usersList].
  split; [done|]. split.
  { rewrite <- list_fmap_compose. by apply list_fmap_ext. }
  intros req' body Hv Hu' Hvalid.
  destruct (createAlert_ledger env db req' no_fault body user Hv Hu' Hvalid)
    as (results & stored & db' & Hreply & _ & _ & Hledger & Hlen & _).
  exists (getSummary (newSOSAlert env user body)), results, db'.
  split; [done|]. by rewrite <- Hlen, Hledger, ledger_length.
Qed.

(** The creator's document is what [populate] expands the reference
    to. *)
Lemma populate_found (stored : SOSAlert) (creator : ObjectId) (doc : User) :
  creatorOf (userId stored) = Some creator ->
  find (fun u => bool_decide (user_id u = creator)) (users db) = Some doc ->
  creatorOf (userId (populate (users db) stored)) = Some creator.
Proof.
  intros Hc Hfind. unfold populate.
  destruct (userId stored) as [i|u|] eqn:E; cbn in Hc; [| |done].
  - injection Hc as ->. rewrite Hfind. cbn.
    apply find_some in Hfind as [_ H]. apply bool_decide_eq_true in H. by rewrite H.
  - by rewrite E.
Qed.

(** X15: GET /test/emergency-contacts foretells the notify-contacts
    route: for the creator of an alert that is stored under the
    [:alertId] and satisfies its schema, the route replies NoContacts
    exactly when the test counts no contact, and otherwise notifies as
    many contacts as the test counted. *)
Theorem X15_test_contacts_foretells_notify (req req' : Request) (user : User)
    (id : ObjectId) (stored : SOSAlert) (report : ContactsReport) :
  req_user req = Some user ->
  req_user req' = Some user ->
  castObjectId env (params_alertId req') = Some id ->
  alerts db !! id = Some stored ->
  validate stored = true ->
  creatorOf (userId stored) = Some (user_id user) ->
  testEmergencyContacts env db req = ContactsTest report ->
  (cr_contactCount report = 0%nat <-> notifyContacts env db req' = (NoContacts, db)) /\
  (cr_contactCount report <> 0%nat ->
   exists notifications summary db',
     notifyContacts env db req' = (ContactsNotified notifications summary, db') /\
     length notifications = cr_contactCount report).
Proof.
  intros Hu Hu' Hcast Hstored Hvalid Hraw.
  unfold testEmergencyContacts, authenticated, findUserById.
  rewrite Hu. monad. rewrite (rejects_None env _ _ (no_fault _)). monad.
  destruct (find _ (users db)) as [found|] eqn:Hfound; [|done].
  pose proof (populate_found stored _ found Hraw Hfound) as Hcreator.
  intros [= <-]. cbn [cr_contactCount].
  assert (from_option length 0%nat (emergencyContacts found) =
          length (contactsOf (find (fun u => bool_decide (user_id u = user_id user))
                                (users db)))) as ->.
  { rewrite Hfound. cbn. by destruct (emergencyContacts found). }
  destruct (contactsOf _) as [|c cs] eqn:Hc.
  - assert (notifyContacts env db req' = (NoContacts, db)) as Hreply.
    { unfold notifyContacts.
      rewrite (findById_cast env db _ id Hcast (no_fault _)), Hstored. monad.
      by rewrite (notifyLoaded_no_contacts env db req' user no_fault Hu'). }
    split; [done|]. done.
  - destruct (notifyContacts_ledger env db req' no_fault user id stored (c :: cs)
                Hu' Hcast Hstored Hvalid Hcreator Hc)
      as (results & stored' & db' & Hreply & _ & _ & Hledger & Hlen & _); [done|].
    split.
    + split; [done|]. rewrite Hreply. done.
    + intros _. exists results, (getSummary stored'), db'. split; [done|].
      by rewrite <- Hlen, Hledger, ledger_length.
Qed.

End Tests.

(** ** The emergency contacts *)

Section ContactRoutes.

Import Contacts.

Lemma formatPhoneNumber_mobile (p : jsstring) :
  re_mobile p = true -> formatPhoneNumber (VString p) = Returns (js "+91" ++ p).
Proof.
  intros Hm. pose proof Hm as Hspec. apply re_mobile_spec in Hspec.
  assert (p <> []) as Hp by (by destruct p).
  rewrite (formatPhoneNumber_string p Hp).
  rewrite (trim_no_space p) by (by apply mobile_no_space).
  rewrite Hm.
  destruct (startsWith p (js "+")) eqn:E; [|done].
  apply startsWith_plus_spec in E as [rest ->].
  destruct Hspec as (_ & _ & c & [= <-] & Hc). lia.
Qed.

Lemma supplied_Some (chk : jsstring -> bool) (f : BodyField) (v : Supplied) :
  supplied chk f = Some v ->
  match v with
  | Str p => f = Text p /\ chk p = true
  | NonStr cast => exists seen, f = Foreign seen cast /\ forallb chk seen = true
  end.
Proof.
  destruct f as [|s|seen cast]; cbn; [done| |].
  - destruct (chk s) eqn:E; [|done]. by intros [= <-].
  - destruct (forallb chk seen) eqn:E; [|done]. intros [= <-]. by exists seen.
Qed.

Lemma addValidation_inr (req : ContactRequest) name (phone : Supplied) relationship :
  addValidation req = inr (name, (phone, relationship)) ->
  supplied re_mobile (cbody_phone req) = Some phone /\
  atLeast 2 name = true /\
  name = trim (default [] (cbody_name req)) /\
  relationship = trim <$> cbody_relationship req.
Proof.
  unfold addValidation, both, check, required, optional.
  destruct (atLeast 2 _) eqn:Hname; [|by repeat case_match].
  destruct (supplied re_mobile (cbody_phone req)) as [p|]; [|by repeat case_match].
  destruct (cbody_relationship req) as [r|]; cbn [fmap option_fmap option_map].
  - destruct (isLength 50 (trim r)); [|done]. by intros [= <- <- <-].
  - by intros [= <- <- <-].
Qed.

Variable fault : option JsError.
Variable accounts : list Account.
Variable req : ContactRequest.

(** X16: the add route keeps the phones of a user's contacts pairwise
    different as long as the phone is sent as a string: with a valid
    body it then refuses, without writing, a phone that a saved contact
    already has, and otherwise saves the old contacts followed by the new
    one, whose phone is a ten-digit mobile and differs from all the old
    ones.  A phone that is sent as a number is [===] to the phone of no
    contact: it is saved, as the string that it is cast to, also when a
    contact has that very string, and the phones are then no longer
    pairwise different. *)
Theorem X16_add_contact_keeps_phones_distinct (fresh : ObjectId) (user : Account)
    name (phone : Supplied) relationship :
  creq_user req = Some user ->
  addValidation req = inr (name, (phone, relationship)) ->
  (forall p, phone = Str p ->
     let added :=
       account_contacts user ++
       [mkSaved fresh (mkContact (Some name) (Some p) (Some (orElse relationship [])))] in
     re_mobile p = true /\
     ((exists c, c ∈ account_contacts user /\ contact_phone (saved c) = Some p) ->
      addContact fresh fault accounts req = (ContactExists, accounts)) /\
     ((forall c, c ∈ account_contacts user -> contact_phone (saved c) <> Some p) ->
      fault = None ->
      addContact fresh fault accounts req =
        (ContactAdded added, saved_as (set_contacts added user) accounts) /\
      (distinctPhones (account_contacts user) -> distinctPhones added))) /\
  (forall p, phone = NonStr (Some p) ->
     fault = None ->
     let added :=
       account_contacts user ++
       [mkSaved fresh (mkContact (Some name) (Some p) (Some (orElse relationship [])))] in
     addContact fresh fault accounts req =
       (ContactAdded added, saved_as (set_contacts added user) accounts) /\
     ((exists c, c ∈ account_contacts user /\ contact_phone (saved c) = Some p) ->
      ~ distinctPhones added)).
Proof.
  intros Hu Hv. split.
  - intros p -> added.
    pose proof (addValidation_inr _ _ _ _ Hv) as (Hp & _).
    apply supplied_Some in Hp as [_ Hmobile].
    split; [done|]. split.
    + intros (c & Hc & Hphone). unfold addContact, account. rewrite Hv, Hu. monad.
      destruct (find _ _) as [existing|] eqn:Hfind; [done|].
      apply list_elem_of_In in Hc.
      eapply find_none in Hfind; [|exact Hc]. cbn in Hfind.
      by rewrite bool_decide_eq_true_2 in Hfind.
    + intros Hnew ->. unfold addContact, account. rewrite Hv, Hu. monad.
      destruct (find _ _) as [existing|] eqn:Hfind.
      { apply find_some in Hfind as [Hin Hphone].
        apply list_elem_of_In in Hin. apply bool_decide_eq_true in Hphone.
        by destruct (Hnew existing Hin). }
      split; [done|].
      unfold distinctPhones, added. rewrite fmap_app. intros Hnd.
      apply NoDup_app. split; [done|]. split; [|apply NoDup_singleton].
      intros q Hq Hq'. apply list_elem_of_singleton in Hq'. subst q.
      apply list_elem_of_fmap in Hq as (c & Hc & Hin). by apply (Hnew c Hin).
  - intros p -> -> added. split.
    + unfold addContact, account. rewrite Hv, Hu. monad.
      destruct (find _ _) as [existing|] eqn:Hfind; [|done].
      apply find_some in Hfind as [_ Hphone]. by apply bool_decide_eq_true in Hphone.
    + intros (c & Hc & Hphone). unfold distinctPhones, added. rewrite fmap_app.
      intros Hnd. apply NoDup_app in Hnd as (_ & Hdisjoint & _).
      apply (Hdisjoint (Some p)).
      * apply list_elem_of_fmap. by exists c.
      * cbn. apply list_elem_of_singleton. done.
Qed.

(** X17: the delete route removes exactly the first contact whose id is
    the one of the request and keeps the others in their order, in its
    reply and in the document that it saves; when no contact has that id
    it replies 404 and writes nothing. *)
Theorem X17_delete_contact_removes_one (user : Account) :
  creq_user req = Some user ->
  fault = None ->
  ((forall c, c ∈ account_contacts user ->
      toString (saved_id c) <> params_contactId req) ->
   deleteContact fault accounts req = (ContactNotFound, accounts)) /\
  (forall before c after,
     account_contacts user = before ++ c :: after ->
     toString (saved_id c) = params_contactId req ->
     (forall b, b ∈ before -> toString (saved_id b) <> params_contactId req) ->
     deleteContact fault accounts req =
       (ContactDeleted (before ++ after),
        saved_as (set_contacts (before ++ after) user) accounts)).
Proof.
  intros Hu ->. split.
  - intros Hnone. unfold deleteContact, account, findIndex. rewrite Hu. monad.
    assert (list_find (fun contact => toString (saved_id contact) = params_contactId req)
              (account_contacts user) = None) as ->; [|done].
    apply list_find_None, Forall_forall. exact Hnone.
  - intros before c after Hsplit Hc Hbefore.
    unfold deleteContact, account, findIndex. rewrite Hu. monad.
    assert (list_find (fun contact => toString (saved_id contact) = params_contactId req)
              (account_contacts user) = Some (length before, c)) as ->.
    { apply list_find_Some. rewrite Hsplit. split; [by apply list_lookup_middle|].
      split; [done|]. intros j b Hj Hlt. rewrite lookup_app_l in Hj by done.
      apply Hbefore. by eapply list_elem_of_lookup_2. }
    cbn. rewrite Hsplit. by rewrite delete_middle.
Qed.

End ContactRoutes.

Section ContactRoundTrip.

Import Contacts.

Variable accounts : list Account.

Lemma set_contacts_same (user : Account) :
  set_contacts (account_contacts user) user = user.
Proof. by destruct user. Qed.

Lemma saveAccount_same (user : Account) :
  (forall b, b ∈ accounts -> account_id b = account_id user -> b = user) ->
  (fun b => if bool_decide (account_id b = account_id user) then user else b) <$> accounts
  = accounts.
Proof.
  intros Hunique. rewrite <- (list_fmap_id accounts) at 2.
  apply list_fmap_ext. intros i b Hb. cbn. case_bool_decide as Hid; [|done].
  symmetry. apply Hunique; [|done]. by eapply list_elem_of_lookup_2.
Qed.

Lemma saveAccount_twice (user1 user2 : Account) :
  account_id user1 = account_id user2 ->
  (fun b => if bool_decide (account_id b = account_id user2) then user2 else b) <$>
    ((fun b => if bool_decide (account_id b = account_id user1) then user1 else b) <$>
       accounts)
  = (fun b => if bool_decide (account_id b = account_id user2) then user2 else b) <$>
      accounts.
Proof.
  intros Hid. rewrite <- list_fmap_compose. apply list_fmap_ext.
  intros i b _. cbn.
  destruct (bool_decide_reflect (account_id b = account_id user1)) as [Hb|Hb].
  - rewrite (bool_decide_eq_true_2 (account_id user1 = account_id user2)) by done.
    rewrite bool_decide_eq_true_2; [done|congruence].
  - done.
Qed.

(** X18: adding a contact and then deleting it by the id it was given
    is a round trip: when the id is new among the user's contacts and the
    collection holds the user once, the delete replies with the contacts
    of before the add and the collection is again what it was. *)
Theorem X18_add_then_delete_restores (fresh : ObjectId) (req req2 : ContactRequest)
    (user : Account) (added : list SavedContact) (accounts' : list Account) :
  creq_user req = Some user ->
  (forall b, b ∈ accounts -> account_id b = account_id user -> b = user) ->
  (forall c, c ∈ account_contacts user -> saved_id c <> fresh) ->
  addContact fresh None accounts req = (ContactAdded added, accounts') ->
  creq_user req2 = Some (set_contacts added user) ->
  params_contactId req2 = toString fresh ->
  deleteContact None accounts' req2 =
    (ContactDeleted (account_contacts user), accounts).
Proof.
  intros Hu Hunique Hfresh Hadd Hu2 Hid.
  unfold addContact, account in Hadd. rewrite Hu in Hadd.
  destruct (addValidation req) as [details|[name [phone relationship]]]; [done|].
  monad_in Hadd. destruct (find _ _); [done|].
  destruct (castString phone) as [phone'|e]; [|done].
  cbn [saveAccount] in Hadd. monad_in Hadd. injection Hadd as <- <-.
  unfold deleteContact, account, findIndex. rewrite Hu2, Hid. monad.
  cbn [account_contacts set_contacts].
  match goal with
  | |- context [list_find ?P (?l ++ [?c])] =>
      assert (list_find P (l ++ [c]) = Some (length l, c)) as ->
  end.
  { apply list_find_Some. split; [by apply list_lookup_middle|]. split; [done|].
    intros j b Hj Hlt. rewrite lookup_app_l in Hj by done.
    unfold toString. apply Hfresh. by eapply list_elem_of_lookup_2. }
  assert (delete (length (account_contacts user))
            (account_contacts user ++
             [mkSaved fresh
                (mkContact (Some name) (Some phone') (Some (orElse relationship [])))])
          = account_contacts user) as Hdelete.
  { rewrite <- (app_nil_r (account_contacts user)) at 3. by rewrite delete_middle. }
  cbn [saveAccount]. monad. rewrite Hdelete. f_equal.
  set (added := account_contacts user ++ _) in *.
  etransitivity;
    [apply (saveAccount_twice (set_contacts added user)
              (set_contacts (account_contacts user) (set_contacts added user)));
     done|].
  assert (set_contacts (account_contacts user) (set_contacts added user) = user)
    as -> by (by destruct user).
  by apply saveAccount_same.
Qed.

(** X19: the three routes that write contacts write nothing when they
    reply with an error status. *)
Theorem X19_contact_errors_write_nothing (fresh : ObjectId) (fault : option JsError)
    (req : ContactRequest) :
  (400 <= contactsCode (addContact fresh fault accounts req).1 ->
   (addContact fresh fault accounts req).2 = accounts) /\
  (400 <= contactsCode (updateContact fault accounts req).1 ->
   (updateContact fault accounts req).2 = accounts) /\
  (400 <= contactsCode (deleteContact fault accounts req).1 ->
   (deleteContact fault accounts req).2 = accounts).
Proof.
  split; [|split].
  - unfold addContact, account.
    destruct (addValidation req) as [details|[name [phone relationship]]]; [done|].
    destruct (creq_user req) as [user|]; [|done]. monad.
    destruct (find _ _); [done|].
    destruct (castString phone) as [phone'|e]; [|done]. monad.
    destruct fault; [done|]. cbn. lia.
  - unfold updateContact, account.
    destruct (updateValidation req) as [details|[name [phone relationship]]]; [done|].
    destruct (creq_user req) as [user|]; [|done]. monad.
    destruct (findIndex _ _) as [[i c]|]; [|done].
    destruct (updated name phone relationship (saved c)) as [c'|e]; [|done]. monad.
    destruct fault; [done|]. cbn. lia.
  - unfold deleteContact, account.
    destruct (creq_user req) as [user|]; [|done]. monad.
    destruct (findIndex _ _) as [[i c]|]; [|done].
    destruct fault; [done|]. cbn. lia.
Qed.

Lemma updateValidation_absent (req : ContactRequest) name phone relationship :
  updateValidation req = inr (name, (phone, relationship)) ->
  (cbody_name req = None -> name = None) /\
  (cbody_phone req = Missing -> phone = None) /\
  (cbody_relationship req = None -> relationship = None).
Proof.
  unfold updateValidation. intros H.
  apply both_inr in H as [H1 H]. apply both_inr in H as [H2 H3].
  apply check_inr in H1, H2, H3.
  split; [|split].
  - intros Hn. rewrite Hn in H1. by injection H1.
  - intros Hp. rewrite Hp in H2. by injection H2.
  - intros Hr. rewrite Hr in H3. by injection H3.
Qed.

Lemma updated_absent (c c' : Contact) name phone relationship :
  updated name phone relationship c = Returns c' ->
  (name = None -> contact_name c' = contact_name c) /\
  (phone = None -> contact_phone c' = contact_phone c) /\
  (relationship = None -> contact_relationship c' = contact_relationship c).
Proof.
  unfold updated. destruct (truthyPhone phone) as [v|] eqn:Hv.
  - destruct (castString v) as [p|e]; [|done]. monad. intros [= <-].
    split; [by intros ->|]. split; [by intros ->|by intros ->].
  - monad. intros [= <-].
    split; [by intros ->|]. split; [done|by intros ->].
Qed.

(** X20: an update keeps the ids, the number and the order of the
    contacts and touches only the contact of the request, the first one
    whose id the request names, and of it only the fields that the body
    holds; the document that it saves has these contacts; a body that
    sets none of the three fields changes nothing. *)
Theorem X20_update_contact_is_local (fault : option JsError) (req : ContactRequest)
    (user : Account) (contacts : list SavedContact) (accounts' : list Account) :
  creq_user req = Some user ->
  updateContact fault accounts req = (ContactUpdated contacts, accounts') ->
  accounts' = saved_as (set_contacts contacts user) accounts /\
  saved_id <$> contacts = saved_id <$> account_contacts user /\
  (exists i c c',
     account_contacts user !! i = Some c /\
     toString (saved_id c) = params_contactId req /\
     (forall j b, account_contacts user !! j = Some b -> (j < i)%nat ->
                  toString (saved_id b) <> params_contactId req) /\
     contacts !! i = Some c' /\
     saved_id c' = saved_id c /\
     (cbody_name req = None -> contact_name (saved c') = contact_name (saved c)) /\
     (cbody_phone req = Missing -> contact_phone (saved c') = contact_phone (saved c)) /\
     (cbody_relationship req = None ->
        contact_relationship (saved c') = contact_relationship (saved c)) /\
     forall j, j <> i -> contacts !! j = account_contacts user !! j) /\
  (cbody_name req = None -> cbody_phone req = Missing -> cbody_relationship req = None ->
   contacts = account_contacts user).
Proof.
  intros Hu. unfold updateContact, account. rewrite Hu.
  destruct (updateValidation req) as [details|[name [phone relationship]]] eqn:Hv;
    [done|].
  monad. destruct (findIndex _ _) as [[i c]|] eqn:Hfind; [|done].
  destruct (updated name phone relationship (saved c)) as [c'|e] eqn:Hupdated; [|done].
  monad. destruct fault; [done|]. cbn [saveAccount]. monad. intros [= <- <-].
  apply list_find_Some in Hfind as (Hi & Hc & Hfirst).
  pose proof (updateValidation_absent _ _ _ _ Hv) as (Hn & Hp & Hr).
  pose proof (updated_absent _ _ _ _ _ Hupdated) as (Hn' & Hp' & Hr').
  split; [done|]. split; [|split].
  - rewrite list_fmap_insert. cbn. apply list_insert_id.
    by rewrite list_lookup_fmap, Hi.
  - exists i, c, (mkSaved (saved_id c) c'). split; [done|]. split; [done|].
    split; [exact Hfirst|].
    split; [apply list_lookup_insert_eq; by eapply lookup_lt_Some|].
    split; [done|]. cbn [saved].
    split; [intros H; by apply Hn', Hn|].
    split; [intros H; by apply Hp', Hp|].
    split; [intros H; by apply Hr', Hr|].
    intros j Hj. by apply list_lookup_insert_ne.
  - intros Hn0 Hp0 Hr0.
    apply list_insert_id. rewrite Hi. f_equal.
    destruct c as [cid [cn cp cr]]. cbn in *.
    specialize (Hn' (Hn Hn0)). specialize (Hp' (Hp Hp0)). specialize (Hr' (Hr Hr0)).
    destruct c' as [cn' cp' cr']. cbn in *. by subst.
Qed.

End ContactRoundTrip.

Section ContactNotified.

Import Contacts.

Variable env : Env.
Variable alerts0 : gmap ObjectId SOSAlert.
Variable accounts : list Account.

Hypothesis no_fault : reliable env.

Lemma find_saved (user user' : Account) :
  user ∈ accounts ->
  account_id user' = account_id user ->
  find (fun u => bool_decide (user_id u = account_id user))
    (userOf <$> ((fun b => if bool_decide (account_id b = account_id user')
                           then user' else b) <$> accounts))
  = Some (userOf user').
Proof.
  intros Hin Hid. rewrite Hid. induction accounts as [|b l IH]; [by inversion Hin|].
  cbn. destruct (bool_decide_reflect (account_id b = account_id user)) as [Hb|Hb]; cbn.
  - by rewrite Hid, bool_decide_eq_true_2.
  - rewrite bool_decide_eq_false_2 by done. apply IH.
    apply elem_of_cons in Hin as [->|Hin]; done.
Qed.

(** X21: a contact added through the add route, with its phone sent as
    a string, is reached by the next notify-contacts of that user on an
    alert of theirs that is stored under the [:alertId] and satisfies its
    schema: the fan-out then has one notification more than the user had
    contacts, and its last entry carries the new contact's name and the
    phone in international form, +91 followed by the ten digits that
    were saved. *)
Theorem X21_added_contact_is_notified (fresh : ObjectId) (req : ContactRequest)
    (req' : Request) (user : Account) (requester : User) (id : ObjectId)
    (stored : SOSAlert)
    name phone relationship (added : list SavedContact) (accounts' : list Account) :
  user ∈ accounts ->
  creq_user req = Some user ->
  addValidation req = inr (name, (Str phone, relationship)) ->
  addContact fresh None accounts req = (ContactAdded added, accounts') ->
  req_user req' = Some requester ->
  user_id requester = account_id user ->
  castObjectId env (params_alertId req') = Some id ->
  alerts0 !! id = Some stored ->
  validate stored = true ->
  userId stored = RefId (account_id user) ->
  exists notifications summary db' entry,
    notifyContacts env (mkDb alerts0 (userOf <$> accounts')) req' =
      (ContactsNotified notifications summary, db') /\
    length notifications = S (length (account_contacts user)) /\
    last notifications = Some entry /\
    nr_name entry = Some name /\
    nr_phone entry = js "+91" ++ phone.
Proof.
  intros Hin Hu Hv Hadd Hu' Hid Hcast Hstored Hvalid Href.
  pose proof (addValidation_inr _ _ _ _ Hv) as (Hmobile & _).
  apply supplied_Some in Hmobile as [_ Hmobile].
  unfold addContact, account in Hadd. rewrite Hu, Hv in Hadd.
  monad_in Hadd. destruct (find _ _); [done|].
  cbn [saveAccount castString] in Hadd. monad_in Hadd. injection Hadd as <- <-.
  set (new := mkSaved fresh
                (mkContact (Some name) (Some phone) (Some (orElse relationship [])))) in *.
  set (user' := set_contacts (account_contacts user ++ [new]) user).
  set (db := mkDb alerts0 (userOf <$> _)).
  assert (find (fun u => bool_decide (user_id u = user_id requester)) (users db)
          = Some (userOf user')) as Hfind.
  { rewrite Hid. by apply (find_saved user user'). }
  assert (creatorOf (userId (populate (users db) stored)) = Some (user_id requester))
    as Hcreator.
  { unfold populate. rewrite Href, <- Hid, Hfind. cbn. by rewrite Hid. }
  destruct (notifyContacts_ledger env db req' no_fault requester id stored
              (saved <$> (account_contacts user ++ [new])) Hu' Hcast Hstored Hvalid Hcreator)
    as (results & stored' & db' & Hreply & Hloop & _ & Hledger & Hlen & _).
  { by rewrite Hfind. }
  { by destruct (account_contacts user). }
  assert (length results = S (length (account_contacts user))) as Hlength.
  { rewrite <- (ledger_length env), <- Hledger, Hlen, length_fmap, length_app. cbn. lia. }
  destruct (notifyLoop_pushes env
              (emergencyMessage requester (populate (users db) stored))
              (List.map emergencyContact (saved <$> (account_contacts user ++ [new])))
              0 []) as (entries & Hloop' & _ & Hk).
  rewrite Hloop in Hloop'. injection Hloop' as <-.
  destruct (Hk (length (account_contacts user)) (emergencyContact (saved new)))
    as (entry & Hentry & Hone).
  { rewrite fmap_app. change (List.map ?f ?l) with (f <$> l). rewrite fmap_app.
    rewrite lookup_app_r by (by rewrite !length_fmap).
    by rewrite !length_fmap, Nat.sub_diag. }
  exists results, (getSummary stored'), db', entry.
  split; [done|]. split; [done|]. split.
  { rewrite last_lookup, Hlength. exact Hentry. }
  pose proof (notifyOne_phone env _ _ _ _ Hone) as Hphone.
  cbn in Hphone. rewrite (formatPhoneNumber_mobile phone Hmobile) in Hphone.
  injection Hphone as <-. split; [|done].
  destruct (notifyOne_returns env
              (emergencyMessage requester (populate (users db) stored))
              (0 + length (account_contacts user)) (emergencyContact (saved new)))
    as (p & _ & Hone').
  rewrite Hone' in Hone. by injection Hone as <-.
Qed.

End ContactNotified.

(** ** Registration and login *)

Section AuthRoutes.

Import Contacts Auth.

Context {Public : Type} (lib : Library Public).

Lemma check_required (chk : jsstring -> bool) (v : option jsstring) (msg : string)
    (s : jsstring) :
  check (required chk v) msg = inr s -> v = Some s /\ chk s = true.
Proof.
  unfold check, required. destruct v as [s'|]; [|done].
  destruct (chk s') eqn:E; [|done]. by intros [= <-].
Qed.

Lemma registerValidation_inr (req : AuthRequest) aadhar password phone name email :
  registerValidation lib req = inr (aadhar, (password, (phone, (name, email)))) ->
  abody_aadhar req = Some aadhar /\ abody_password req = Some password /\
  abody_phone req = Some phone /\ re_mobile phone = true.
Proof.
  unfold registerValidation.
  destruct (both _ _) as [details|[a [a' [pw [ph [n e]]]]]] eqn:E; [done|].
  intros [= -> -> -> -> ->].
  apply both_inr in E as [Ha E]. apply both_inr in E as [_ E].
  apply both_inr in E as [Hpw E]. apply both_inr in E as [Hph _].
  apply check_required in Ha as [Ha _]. apply check_required in Hpw as [Hpw _].
  apply check_required in Hph as [Hph Hm]. done.
Qed.

Lemma loginValidation_inr (req : AuthRequest) aadhar password :
  loginValidation lib req = inr (aadhar, password) ->
  abody_aadhar req = Some aadhar /\ abody_password req = Some password.
Proof.
  unfold loginValidation.
  destruct (both _ _) as [details|[a [a' pw]]] eqn:E; [done|].
  intros [= -> ->].
  apply both_inr in E as [Ha E]. apply both_inr in E as [_ Hpw].
  apply check_required in Ha as [Ha _]. apply check_required in Hpw as [Hpw _].
  done.
Qed.

Lemma register_cases (fresh : ObjectId) (findFault : option JsError)
    (saveFault : option SaveFault) (docs : list UserDoc) (req : AuthRequest) :
  (400 <= authCode (register lib fresh findFault saveFault docs req).1 /\
   (register lib fresh findFault saveFault docs req).2 = docs) \/
  exists aadhar password phone name email,
    registerValidation lib req = inr (aadhar, (password, (phone, (name, email)))) /\
    (forall d, d ∈ docs ->
       account_aadhar (doc_account d) <> Some aadhar /\
       account_phone (doc_account d) <> Some phone) /\
    register lib fresh findFault saveFault docs req =
      (Registered (toPublicJSON lib (newUser lib fresh aadhar password phone name email))
         (generateToken lib fresh),
       docs ++ [newUser lib fresh aadhar password phone name email]).
Proof.
  unfold register.
  destruct (registerValidation lib req)
    as [details|[aadhar [password [phone [name email]]]]]; [by left|].
  destruct findFault; [by left|].
  destruct (find _ docs) as [existing|] eqn:Hfind; [by left|].
  destruct saveFault as [[]|]; [by left..|].
  right. exists aadhar, password, phone, name, email.
  split; [done|]. split; [|done].
  intros d Hd. apply list_elem_of_In in Hd.
  eapply find_none in Hfind; [|exact Hd]. cbn in Hfind.
  apply orb_false_iff in Hfind as [H1 H2].
  by apply bool_decide_eq_false in H1, H2.
Qed.

(** X22: registration keeps the user collection free of doubles: no two
    users with one aadhar or with one phone, whatever the request.  A
    refused or failed registration writes nothing; an accepted one
    appends one user whose phone is a ten-digit mobile, the form that the
    SOS routes turn into +91 followed by the digits. *)
Theorem X22_register_keeps_users_unique (fresh : ObjectId)
    (findFault : option JsError) (saveFault : option SaveFault)
    (docs : list UserDoc) (req : AuthRequest) :
  (400 <= authCode (register lib fresh findFault saveFault docs req).1 ->
   (register lib fresh findFault saveFault docs req).2 = docs) /\
  (uniqueUsers docs ->
   uniqueUsers (register lib fresh findFault saveFault docs req).2) /\
  (authCode (register lib fresh findFault saveFault docs req).1 = 201 ->
   exists user phone,
     (register lib fresh findFault saveFault docs req).2 = docs ++ [user] /\
     account_id (doc_account user) = fresh /\
     account_phone (doc_account user) = Some phone /\
     formatPhoneNumber (field (account_phone (doc_account user))) =
       Returns (js "+91" ++ phone)).
Proof.
  destruct (register_cases fresh findFault saveFault docs req)
    as [[Hcode Hsame]|(aadhar & password & phone & name & email & Hv & Hnew & Heq)].
  { rewrite Hsame. split; [done|]. split; [done|]. intros H. rewrite H in Hcode. lia. }
  rewrite Heq. cbn [fst snd]. split; [cbn; lia|]. split.
  - intros [Ha Hp]. unfold uniqueUsers. rewrite !fmap_app. cbn. split.
    + apply NoDup_app. split; [done|]. split; [|apply NoDup_singleton].
      intros x Hx Hx'. apply list_elem_of_singleton in Hx'. subst x.
      apply list_elem_of_fmap in Hx as (d & Hd & Hin). by destruct (Hnew d Hin).
    + apply NoDup_app. split; [done|]. split; [|apply NoDup_singleton].
      intros x Hx Hx'. apply list_elem_of_singleton in Hx'. subst x.
      apply list_elem_of_fmap in Hx as (d & Hd & Hin). by destruct (Hnew d Hin).
  - intros _. eexists _, phone. split; [done|]. split; [done|]. split; [done|].
    cbn. apply formatPhoneNumber_mobile.
    by apply registerValidation_inr in Hv as (_ & _ & _ & ?).
Qed.

(** X23: an aadhar or a phone that has been registered cannot be
    registered again: after an accepted registration, a valid request
    with the same aadhar or the same phone is refused as existing, and
    writes nothing. *)
Theorem X23_registered_identity_is_taken (fresh fresh2 : ObjectId)
    (saveFault2 : option SaveFault) (docs docs' : list UserDoc)
    (req req2 : AuthRequest) (user : Public) (token : jsstring)
    aadhar password phone name email aadhar2 password2 phone2 name2 email2 :
  register lib fresh None None docs req = (Registered user token, docs') ->
  registerValidation lib req = inr (aadhar, (password, (phone, (name, email)))) ->
  registerValidation lib req2 = inr (aadhar2, (password2, (phone2, (name2, email2)))) ->
  aadhar2 = aadhar \/ phone2 = phone ->
  register lib fresh2 None saveFault2 docs' req2 = (AlreadyExists, docs').
Proof.
  intros Hreg Hv Hv2 Hsame.
  destruct (register_cases fresh None None docs req)
    as [[Hcode _]|(a & pw & ph & n & e & Hv' & _ & Heq)].
  { rewrite Hreg in Hcode. cbn in Hcode. lia. }
  rewrite Hv in Hv'. injection Hv' as <- <- <- <- <-.
  rewrite Hreg in Heq. injection Heq as _ _ ->.
  unfold register. rewrite Hv2.
  destruct (find _ _) as [existing|] eqn:Hfind; [done|].
  exfalso.
  eapply find_none in Hfind;
    [|apply in_or_app; right; left; reflexivity].
  cbn in Hfind. apply orb_false_iff in Hfind as [H1 H2].
  apply bool_decide_eq_false in H1, H2. destruct Hsame; congruence.
Qed.

(** X24: a login succeeds only for an existing, active account whose
    password compares equal: the first document with the aadhar of the
    request.  It then changes nothing but the time of the last login of
    that document; every other reply leaves the collection as it was. *)
Theorem X24_login_is_sound (now : Date) (findFault saveFault : option JsError)
    (docs : list UserDoc) (req : AuthRequest) :
  (400 <= authCode (login lib now findFault saveFault docs req).1 ->
   (login lib now findFault saveFault docs req).2 = docs) /\
  (authCode (login lib now findFault saveFault docs req).1 = 200 ->
   exists i doc aadhar password,
     abody_aadhar req = Some aadhar /\
     abody_password req = Some password /\
     docs !! i = Some doc /\
     (forall j d, docs !! j = Some d -> (j < i)%nat ->
                  account_aadhar (doc_account d) <> Some aadhar) /\
     account_aadhar (doc_account doc) = Some aadhar /\
     account_active (doc_account doc) = true /\
     comparePassword lib doc password = true /\
     (login lib now findFault saveFault docs req).2 = <[i := set_lastLogin now doc]> docs).
Proof.
  unfold login.
  destruct (loginValidation lib req) as [details|[aadhar password]] eqn:Hv;
    [split; [done|by cbn]|].
  destruct findFault; [split; [done|by cbn]|].
  destruct (list_find _ docs) as [[i doc]|] eqn:Hfind; [|split; [done|by cbn]].
  destruct (account_active (doc_account doc)) eqn:Hactive; cbn [negb];
    [|split; [done|by cbn]].
  destruct (comparePassword lib doc password) eqn:Hpw; cbn [negb];
    [|split; [done|by cbn]].
  destruct saveFault; [split; [done|by cbn]|].
  cbn [fst snd]. split; [cbn; lia|]. intros _.
  apply list_find_Some in Hfind as (Hi & Ha & Hfirst).
  exists i, doc, aadhar, password.
  apply loginValidation_inr in Hv as [-> ->].
  repeat (split; [done|]). done.
Qed.

End AuthRoutes.

(** ** The client always sends *)

Section Client.

(** X25: the client always builds its SOS request, once the loop has
    the two iterations that it needs: the request carries the position of
    the first of the two attempts that succeeds, or the point (0, 0) when
    both fail, with the description and the emergency type as given. *)
Theorem X25_sos_request_is_always_built (b : Browser) (fuel : nat)
    (description emergencyType : jsstring) :
  (maxLocationAttempts <= fuel)%nat ->
  exists req location,
    sosRequest b fuel description emergencyType = Some req /\
    location =
      match getCurrentLocation b 0%nat, getCurrentLocation b 1%nat with
      | Some first, _ => first
      | None, Some second => second
      | None, None => mkPosition 0 0 (inject_Z 999999)
      end /\
    body_latitude req = Some (pos_latitude location) /\
    body_longitude req = Some (pos_longitude location) /\
    body_description req = Some description /\
    body_emergencyType req = Some emergencyType /\
    req_user req = tokenUser b.
Proof.
  intros Hfuel. unfold maxLocationAttempts in Hfuel.
  destruct fuel as [|[|fuel]]; [lia..|].
  unfold sosRequest. cbn [retryLocation]. cbn [Nat.ltb Nat.leb maxLocationAttempts].
  destruct (getCurrentLocation b 0%nat) as [first|].
  { eexists _, first. by repeat split. }
  destruct (getCurrentLocation b 1%nat) as [second|].
  { eexists _, second. by repeat split. }
  eexists _, _. by repeat split.
Qed.

End Client.

(** * The further properties on the sample data *)

Section MoreWitnesses.

Import Sample More Contacts Auth.

Lemma db_lookup (id : ObjectId) (a : SOSAlert) :
  alerts db !! id = Some a ->
  (id = alert_id alert /\ a = alert) \/ (id = alert_id alert2 /\ a = alert2).
Proof.
  unfold db. cbn [alerts]. intros H.
  apply lookup_insert_Some in H as [[<- <-]|[_ H]]; [by right|].
  apply lookup_singleton_Some in H as [<- <-]. by left.
Defined.

Lemma db_keyed : keyed db.
Proof.
  intros id a H. destruct (db_lookup id a H) as [[-> ->]|[-> ->]]; reflexivity.
Defined.

Lemma db_consistent : consistent db.
Proof.
  split; [exact db_keyed|]. intros id a H.
  destruct (db_lookup id a H) as [[-> ->]|[-> ->]];
    (split; [reflexivity|]);
    split; (split; [intros Hx; vm_compute in Hx; discriminate Hx
                   |intros [x Hx]; discriminate Hx]).
Defined.

(** Asha's alert is created, and Bina resolves the one in the database. *)
Lemma created :
  exists summary notifications db',
    createAlert env db createRequest = (Created summary notifications, db').
Proof. eexists _, _, _. reflexivity. Defined.

Lemma resolved :
  exists summary db',
    updateStatus env db (request (Some bina) (Some (js "resolved"))) =
      (StatusUpdated summary, db') /\
    sum_status summary <> js "active".
Proof.
  eexists _, _. split; [reflexivity|].
  intros H. vm_compute in H. discriminate H.
Defined.

(** A name of one emoji is two code units and one character: the add
    route refuses it. *)
Example addContact_emoji :
  addContact (js "c002") None accounts
    (mkContactRequest (Some ashaAccount) [] (Some [0xD83D; 0xDE00])
       (Text (js "9000000001")) None) =
  (ContactInvalid [js "Contact name must be at least 2 characters long"], accounts).
Proof. reflexivity. Qed.

Lemma X1_witness :
  recordContactResponse ∈ handlers /\
  400 <= statusCode (recordContactResponse env db strayRequest).1 /\
  (recordContactResponse env db strayRequest).2 = db.
Proof.
  assert (recordContactResponse ∈ handlers) as Hh
    by (unfold handlers; apply elem_of_cons; right; apply elem_of_cons; right;
        apply elem_of_cons; left; reflexivity).
  assert (400 <= statusCode (recordContactResponse env db strayRequest).1) as Hc
    by (vm_compute; intros Hx; discriminate Hx).
  split; [exact Hh|]. split; [exact Hc|].
  exact (X1_error_reply_writes_nothing env db strayRequest
           recordContactResponse Hh Hc).
Defined.

Lemma X2_witness :
  recordContactResponse ∈ handlers /\
  keyed db /\
  castObjectId env (params_alertId (request None None)) <> Some (alert_id alert2) /\
  alert_id alert2 <> newObjectId env /\
  users (recordContactResponse env db (request None None)).2 = users db /\
  alerts (recordContactResponse env db (request None None)).2 !! alert_id alert2 =
    Some alert2.
Proof.
  assert (recordContactResponse ∈ handlers) as Hh
    by (unfold handlers; apply elem_of_cons; right; apply elem_of_cons; right;
        apply elem_of_cons; left; reflexivity).
  assert (castObjectId env (params_alertId (request None None)) <> Some (alert_id alert2))
    as Hother by (intros Hx; vm_compute in Hx; discriminate Hx).
  assert (alert_id alert2 <> newObjectId env) as Hnew by discriminate.
  split; [exact Hh|]. split; [exact db_keyed|]. split; [exact Hother|].
  split; [exact Hnew|].
  destruct (X2_handlers_frame env db (request None None) recordContactResponse
              Hh db_keyed) as [Husers Halerts].
  split; [exact Husers|].
  rewrite (Halerts (alert_id alert2) Hother Hnew). reflexivity.
Defined.

Lemma X3_witness :
  createAlert ∈ handlers /\
  consistent db /\
  consistent (createAlert env db createRequest).2.
Proof.
  assert (createAlert ∈ handlers) as Hh
    by (unfold handlers; apply elem_of_cons; left; reflexivity).
  split; [exact Hh|]. split; [exact db_consistent|].
  exact (X3_handlers_keep_consistency env db createRequest createAlert
           Hh db_consistent).
Defined.

Lemma X4_witness :
  keyed db /\
  castObjectId flaky (params_alertId (request (Some asha) (Some (js "active")))) =
    castObjectId env (params_alertId (request (Some bina) (Some (js "resolved")))) /\
  exists summary db1,
    updateStatus env db (request (Some bina) (Some (js "resolved"))) =
      (StatusUpdated summary, db1) /\
    sum_status summary <> js "active" /\
    400 <= statusCode (updateStatus flaky db1 (request (Some asha) (Some (js "active")))).1 /\
    (updateStatus flaky db1 (request (Some asha) (Some (js "active")))).2 = db1.
Proof.
  split; [exact db_keyed|]. split; [reflexivity|].
  destruct resolved as (summary & db1 & Hreply & Hstatus).
  exists summary, db1. split; [exact Hreply|]. split; [exact Hstatus|].
  exact (X4_terminal_status_is_final env flaky db
           (request (Some bina) (Some (js "resolved")))
           (request (Some asha) (Some (js "active")))
           summary db1 db_keyed Hreply Hstatus eq_refl).
Defined.

Lemma X5_witness :
  keyed db /\
  reliable env /\
  contactResponseValidation (responseRequest (alert_id alert) (Text (js "+919811111111"))) =
    inr (Str (js "+919811111111"), js "responding") /\
  contactResponseValidation
      (responseRequest (alert_id alert)
         (Foreign [js "9811111111"] (Some (js "9811111111")))) =
    inr (NonStr (Some (js "9811111111")), js "responding") /\
  (recordContactResponse env
     (recordContactResponse flaky db
        (responseRequest (alert_id alert) (Text (js "+919811111111")))).2
     (responseRequest (alert_id alert) (Text (js "+919811111111")))).2 =
  (recordContactResponse env db
     (responseRequest (alert_id alert) (Text (js "+919811111111")))).2 /\
  exists summary db' a',
    recordContactResponse env db
        (responseRequest (alert_id alert)
           (Foreign [js "9811111111"] (Some (js "9811111111")))) =
      (ResponseRecorded summary, db') /\
    alerts db' !! alert_id alert = Some a' /\
    notifiedContacts a' =
      notifiedContacts alert ++
      [mkNotified (js "9811111111") (js "responding") 1700000000000].
Proof.
  split; [exact db_keyed|]. split; [exact env_reliable|].
  split; [reflexivity|]. split; [reflexivity|].
  split.
  - destruct (X5_last_response_wins flaky env db
                (responseRequest (alert_id alert) (Text (js "+919811111111")))
                (responseRequest (alert_id alert) (Text (js "+919811111111")))
                (Str (js "+919811111111")) (js "responding")
                db_keyed env_reliable eq_refl eq_refl eq_refl) as [H _].
    exact (H (js "+919811111111") eq_refl).
  - destruct (X5_last_response_wins flaky env db
                (responseRequest (alert_id alert)
                   (Foreign [js "9811111111"] (Some (js "9811111111"))))
                (responseRequest (alert_id alert)
                   (Foreign [js "9811111111"] (Some (js "9811111111"))))
                (NonStr (Some (js "9811111111"))) (js "responding")
                db_keyed env_reliable eq_refl eq_refl eq_refl) as [_ H].
    eexists _, _.
    destruct (H (js "9811111111") (alert_id alert) alert _ _ eq_refl eq_refl eq_refl
                eq_refl) as (a' & Ha' & Hledger).
    exists a'. split; [reflexivity|]. split; [exact Ha'|exact Hledger].
Defined.

Lemma X6_witness :
  formatPhoneNumber (VString (js "9812345678")) <> Returns (js "9812345678") /\
  exists results,
    notifyLoop env (mkMessage (js "Asha") None None) 0 [systemUser bina] [] =
      (results, None) /\
    respond 1700000000500 (js "9812345678") (js "responding") (ledger env results) =
      ledger env results ++
      [mkNotified (js "9812345678") (js "responding") 1700000000500].
Proof.
  assert (formatPhoneNumber (VString (js "9812345678")) <> Returns (js "9812345678"))
    as Hne by (intros Hx; vm_compute in Hx; discriminate Hx).
  split; [exact Hne|].
  eexists. split; [reflexivity|].
  exact (X6_unformatted_phone_is_appended env (mkMessage (js "Asha") None None)
           [systemUser bina] _ 1700000000500 (js "9812345678") (js "responding")
           eq_refl Hne).
Defined.

Lemma X7_witness :
  exists summary notifications db',
    createAlert env db createRequest = (Created summary notifications, db') /\
    (length (withStatus "sent" notifications) +
     length (withStatus "failed" notifications) +
     length (withStatus "logged" notifications) = length notifications)%nat /\
    (twilioConfigured env = false -> withStatus "logged" notifications = notifications).
Proof.
  destruct created as (summary & notifications & db' & Hreply).
  exists summary, notifications, db'. split; [exact Hreply|].
  exact (X7_client_counts_add_up env db db' createRequest summary notifications Hreply).
Defined.

Lemma X8_witness :
  exists summary notifications db',
    createAlert env db createRequest = (Created summary notifications, db') /\
    exists stored,
      alerts db' !! sum_id summary = Some stored /\
      getSummary stored = summary /\
      status stored = js "active" /\
      priority stored = js "high" /\
      validate stored = true.
Proof.
  destruct created as (summary & notifications & db' & Hreply).
  exists summary, notifications, db'. split; [exact Hreply|].
  destruct (X8_created_alert_obeys_schema env db createRequest summary
              notifications db' Hreply)
    as (user & stored & la & lo & _ & Hstored & Hsummary & _ & Hstatus & Hpriority
        & _ & _ & Hvalid & _).
  exists stored. split; [exact Hstored|]. split; [exact Hsummary|].
  split; [exact Hstatus|]. split; [exact Hpriority|exact Hvalid].
Defined.

Lemma X9_witness :
  getCurrentLocation lost 0%nat = None /\
  getCurrentLocation lost 1%nat = None /\
  (maxLocationAttempts <= 2)%nat /\
  isLength 500 (js "help") = true /\
  isIn emergencyTypeEnum (js "medical") = true /\
  tokenUser lost = Some asha /\
  requiredString (user_aadhar asha) = true /\
  requiredString (user_phone asha) = true /\
  maxlength 500 (js "help") = true /\
  dbFault env (AlertSave 0) = None /\
  exists req summary notifications db',
    sosRequest lost 2 (js "help") (js "medical") = Some req /\
    body_latitude req = Some 0%Q /\
    body_longitude req = Some 0%Q /\
    createAlert env db req = (Created summary notifications, db') /\
    address (sum_location summary) = js "Location not available" /\
    alertLocation (sum_location summary) = None.
Proof.
  assert (maxLocationAttempts <= 2)%nat as Hfuel by (unfold maxLocationAttempts; lia).
  split; [reflexivity|]. split; [reflexivity|]. split; [exact Hfuel|].
  split; [reflexivity|]. split; [reflexivity|]. split; [reflexivity|].
  split; [reflexivity|]. split; [reflexivity|]. split; [reflexivity|].
  split; [reflexivity|].
  exact (X9_failed_geolocation_still_alerts env db lost 2 (js "help") (js "medical")
           asha eq_refl eq_refl Hfuel eq_refl eq_refl eq_refl eq_refl eq_refl eq_refl
           eq_refl).
Defined.

Lemma X11_witness :
  req_user (request (Some asha) None) = Some asha /\
  exists l,
    myAlerts None db (request (Some asha) None) = AlertList l (length l) /\
    newestFirst l /\
    getSummary alert ∈ l /\
    getSummary alert2 ∉ l.
Proof.
  split; [reflexivity|].
  destruct (X11_my_alerts_listed db (request (Some asha) None) asha eq_refl)
    as (l & Hreply & Hsorted & _ & Hl).
  exists l. split; [exact Hreply|]. split; [exact Hsorted|]. split.
  - apply Hl. exists (alert_id alert), alert. repeat split; reflexivity.
  - intros Hin. apply Hl in Hin as (id & a & Ha & Hcreator & Hsummary).
    destruct (db_lookup id a Ha) as [[-> ->]|[-> ->]]; discriminate.
Defined.

Lemma X12_witness :
  exists summary notifications db' active mine,
    createAlert env db createRequest = (Created summary notifications, db') /\
    activeAlerts None db' = AlertList active (length active) /\
    summary ∈ active /\
    myAlerts None db' createRequest = AlertList mine (length mine) /\
    summary ∈ mine.
Proof.
  destruct created as (summary & notifications & db' & Hreply).
  destruct (X12_created_alert_is_listed env db createRequest summary
              notifications db' Hreply) as (active & mine & H).
  exists summary, notifications, db', active, mine. split; [exact Hreply|exact H].
Defined.

Lemma X13_witness :
  keyed db /\
  exists summary db' before after,
    updateStatus env db (request (Some bina) (Some (js "resolved"))) =
      (StatusUpdated summary, db') /\
    sum_status summary <> js "active" /\
    activeAlerts None db = AlertList before (length before) /\
    activeAlerts None db' = AlertList after (length after) /\
    getSummary alert ∈ before /\
    getSummary alert2 ∈ before /\
    getSummary alert2 ∈ after /\
    forall s, s ∈ after -> sum_id s <> alert_id alert.
Proof.
  split; [exact db_keyed|].
  destruct resolved as (summary & db' & Hreply & Hstatus).
  destruct (X13_closed_alert_is_delisted env db
              (request (Some bina) (Some (js "resolved"))) summary db'
              db_keyed Hreply Hstatus) as (before & after & Hbefore & Hafter & H).
  destruct (activeAlerts_list db) as (l & Hl & _ & _ & Hin).
  rewrite Hbefore in Hl. injection Hl as -> _.
  assert (getSummary alert ∈ l) as H1.
  { apply Hin. exists (alert_id alert), alert. repeat split; reflexivity. }
  assert (getSummary alert2 ∈ l) as H2.
  { apply Hin. exists (alert_id alert2), alert2. repeat split; reflexivity. }
  assert (sum_id summary = alert_id alert) as Hid.
  { vm_compute in Hreply. injection Hreply as <- _. reflexivity. }
  exists summary, db', l, after.
  split; [exact Hreply|]. split; [exact Hstatus|]. split; [exact Hbefore|].
  split; [exact Hafter|]. split; [exact H1|]. split; [exact H2|]. split.
  - apply H. split; [exact H2|]. rewrite Hid. discriminate.
  - intros s Hs. apply H in Hs as [_ Hs]. rewrite Hid in Hs. exact Hs.
Defined.

Lemma X14_witness :
  reliable env /\
  req_user (request (Some asha) None) = Some asha /\
  createAlertValidation createRequest = inr createBody /\
  req_user createRequest = Some asha /\
  validate (newSOSAlert env asha createBody) = true /\
  exists report summary notifications db',
    testAllUsers env db (request (Some asha) None) = UsersTest report /\
    ur_otherUsers report = 2%nat /\
    createAlert env db createRequest = (Created summary notifications, db') /\
    length notifications = 2%nat.
Proof.
  split; [exact env_reliable|]. split; [reflexivity|]. split; [reflexivity|].
  split; [reflexivity|]. split; [reflexivity|].
  destruct (testAllUsers env db (request (Some asha) None)) as [report|e] eqn:Htest;
    [|vm_compute in Htest; discriminate Htest].
  destruct (X14_test_all_users_foretells_broadcast env db env_reliable
              (request (Some asha) None) asha report eq_refl Htest)
    as (Hcount & _ & Hcreate).
  destruct (Hcreate createRequest createBody eq_refl eq_refl eq_refl)
    as (summary & notifications & db' & Hreply & Hlength).
  exists report, summary, notifications, db'.
  split; [reflexivity|]. split; [exact Hcount|].
  split; [exact Hreply|]. rewrite Hlength. exact Hcount.
Defined.

Lemma X15_witness :
  reliable env /\
  req_user (request (Some asha) None) = Some asha /\
  castObjectId env (params_alertId (request (Some asha) None)) = Some (alert_id alert) /\
  alerts db !! alert_id alert = Some alert /\
  validate alert = true /\
  creatorOf (userId alert) = Some (user_id asha) /\
  exists report notifications summary db',
    testEmergencyContacts env db (request (Some asha) None) = ContactsTest report /\
    cr_contactCount report = 3%nat /\
    notifyContacts env db (request (Some asha) None) =
      (ContactsNotified notifications summary, db') /\
    length notifications = 3%nat.
Proof.
  split; [exact env_reliable|]. split; [reflexivity|]. split; [reflexivity|].
  split; [reflexivity|]. split; [reflexivity|]. split; [reflexivity|].
  destruct (testEmergencyContacts env db (request (Some asha) None))
    as [report| |e] eqn:Htest; try (vm_compute in Htest; discriminate Htest).
  assert (cr_contactCount report = 3%nat) as Hcount.
  { vm_compute in Htest. injection Htest as <-. reflexivity. }
  destruct (X15_test_contacts_foretells_notify env db env_reliable
              (request (Some asha) None) (request (Some asha) None) asha
              (alert_id alert) alert report
              eq_refl eq_refl eq_refl eq_refl eq_refl eq_refl Htest) as [_ Hnotify].
  destruct Hnotify as (notifications & summary & db' & Hreply & Hlength).
  { rewrite Hcount. discriminate. }
  exists report, notifications, summary, db'.
  split; [reflexivity|]. split; [exact Hcount|].
  split; [exact Hreply|]. rewrite Hlength. exact Hcount.
Defined.

Lemma X16_witness :
  creq_user addRequest = Some ashaAccount /\
  creq_user numberRequest = Some ashaAccount /\
  addValidation addRequest = inr (js "Ravi", (Str (js "9000000001"), None)) /\
  addValidation numberRequest =
    inr (js "Meena", (NonStr (Some (js "9123456789")), None)) /\
  distinctPhones (account_contacts ashaAccount) /\
  (addContact (js "c002") None accounts addRequest =
     (ContactAdded (account_contacts ashaAccount ++ [ravi]),
      saved_as (set_contacts (account_contacts ashaAccount ++ [ravi]) ashaAccount)
        accounts) /\
   distinctPhones (account_contacts ashaAccount ++ [ravi])) /\
  exists added,
    (addContact (js "c002") None accounts numberRequest).1 = ContactAdded added /\
    length added = 4%nat /\
    ~ distinctPhones added.
Proof.
  assert (distinctPhones (account_contacts ashaAccount)) as Hdistinct.
  { unfold distinctPhones. cbn.
    repeat (apply NoDup_cons; split;
            [intros Hx; repeat (apply elem_of_cons in Hx as [Hx|Hx]; [discriminate Hx|]);
             by apply elem_of_nil in Hx|]).
    apply NoDup_nil_2. }
  split; [reflexivity|]. split; [reflexivity|]. split; [reflexivity|].
  split; [reflexivity|]. split; [exact Hdistinct|]. split.
  - destruct (X16_add_contact_keeps_phones_distinct None accounts addRequest
                (js "c002") ashaAccount (js "Ravi") (Str (js "9000000001")) None
                eq_refl eq_refl) as [Hstring _].
    destruct (Hstring (js "9000000001") eq_refl) as (_ & _ & Hfresh).
    destruct Hfresh as [Hreply Hkeeps]; [|reflexivity|].
    { intros c Hc. cbn in Hc.
      repeat (apply elem_of_cons in Hc as [->|Hc]; [discriminate|]).
      by apply elem_of_nil in Hc. }
    split; [exact Hreply|exact (Hkeeps Hdistinct)].
  - destruct (X16_add_contact_keeps_phones_distinct None accounts numberRequest
                (js "c002") ashaAccount (js "Meena") (NonStr (Some (js "9123456789"))) None
                eq_refl eq_refl) as [_ Hnumber].
    destruct (Hnumber (js "9123456789") eq_refl eq_refl) as [Hreply Hdouble].
    eexists. split; [rewrite Hreply; reflexivity|]. split; [reflexivity|].
    apply Hdouble. eexists. split; [apply elem_of_cons; left; reflexivity|reflexivity].
Defined.

Lemma X17_witness :
  creq_user deleteKiran = Some ashaAccount /\
  exists meena kiran office,
    account_contacts ashaAccount = [meena; kiran; office] /\
    toString (saved_id kiran) = params_contactId deleteKiran /\
    toString (saved_id meena) <> params_contactId deleteKiran /\
    deleteContact None accounts deleteKiran =
      (ContactDeleted [meena; office],
       saved_as (set_contacts [meena; office] ashaAccount) accounts).
Proof.
  split; [reflexivity|].
  eexists _, _, _. split; [reflexivity|]. split; [reflexivity|].
  assert (toString (js "c001") <> params_contactId deleteKiran) as Hne by discriminate.
  split; [exact Hne|].
  destruct (X17_delete_contact_removes_one None accounts deleteKiran ashaAccount
              eq_refl eq_refl) as [_ Hfound].
  refine (Hfound [_] _ [_] eq_refl eq_refl _).
  intros b Hb. apply elem_of_cons in Hb as [->|Hb]; [exact Hne|].
  by apply elem_of_nil in Hb.
Defined.

Lemma X18_witness :
  creq_user addRequest = Some ashaAccount /\
  creq_user deleteRequest =
    Some (set_contacts (account_contacts ashaAccount ++ [ravi]) ashaAccount) /\
  params_contactId deleteRequest = toString (js "c002") /\
  exists accounts',
    addContact (js "c002") None accounts addRequest =
      (ContactAdded (account_contacts ashaAccount ++ [ravi]), accounts') /\
    deleteContact None accounts' deleteRequest =
      (ContactDeleted (account_contacts ashaAccount), accounts).
Proof.
  split; [reflexivity|]. split; [reflexivity|]. split; [reflexivity|].
  eexists. split; [reflexivity|].
  refine (X18_add_then_delete_restores accounts (js "c002") addRequest deleteRequest
            ashaAccount (account_contacts ashaAccount ++ [ravi]) _
            eq_refl _ _ eq_refl eq_refl eq_refl).
  - intros b Hb Hid. unfold accounts in Hb.
    apply elem_of_cons in Hb as [->|Hb]; [reflexivity|].
    apply elem_of_cons in Hb as [->|Hb]; [|by apply elem_of_nil in Hb].
    vm_compute in Hid. discriminate Hid.
  - intros c Hc. cbn in Hc.
    repeat (apply elem_of_cons in Hc as [->|Hc]; [discriminate|]).
    by apply elem_of_nil in Hc.
Defined.

Lemma X20_witness :
  creq_user renameKiran = Some ashaAccount /\
  exists meena kiran office contacts accounts',
    account_contacts ashaAccount = [meena; kiran; office] /\
    updateContact None accounts renameKiran = (ContactUpdated contacts, accounts') /\
    accounts' = saved_as (set_contacts contacts ashaAccount) accounts /\
    contacts =
      [meena;
       mkSaved (saved_id kiran)
         (mkContact (Some (js "Kiran S")) (contact_phone (saved kiran))
            (contact_relationship (saved kiran)));
       office].
Proof.
  split; [reflexivity|].
  eexists _, _, _, _, _. split; [reflexivity|]. split; [reflexivity|].
  destruct (X20_update_contact_is_local accounts None renameKiran ashaAccount
              _ _ eq_refl eq_refl) as [Hsaved _].
  split; [exact Hsaved|reflexivity].
Defined.

Lemma X21_witness :
  reliable env /\
  ashaAccount ∈ accounts /\
  creq_user addRequest = Some ashaAccount /\
  addValidation addRequest = inr (js "Ravi", (Str (js "9000000001"), None)) /\
  req_user (request (Some asha) None) = Some asha /\
  user_id asha = account_id ashaAccount /\
  castObjectId env (params_alertId (request (Some asha) None)) = Some (alert_id alert) /\
  alerts db !! alert_id alert = Some alert /\
  validate alert = true /\
  userId alert = RefId (account_id ashaAccount) /\
  exists added accounts' notifications summary db' entry,
    addContact (js "c002") None accounts addRequest = (ContactAdded added, accounts') /\
    notifyContacts env (mkDb (alerts db) (userOf <$> accounts'))
        (request (Some asha) None) =
      (ContactsNotified notifications summary, db') /\
    length notifications = 4%nat /\
    last notifications = Some entry /\
    nr_name entry = Some (js "Ravi") /\
    nr_phone entry = js "+919000000001".
Proof.
  assert (ashaAccount ∈ accounts) as Hin
    by (unfold accounts; apply elem_of_cons; left; reflexivity).
  split; [exact env_reliable|]. split; [exact Hin|].
  split; [reflexivity|]. split; [reflexivity|]. split; [reflexivity|].
  split; [reflexivity|]. split; [reflexivity|]. split; [reflexivity|].
  split; [reflexivity|]. split; [reflexivity|].
  destruct (addContact (js "c002") None accounts addRequest) as [reply accounts']
    eqn:Hadd.
  destruct reply as [c|added|c|c|d| | | |e];
    try (vm_compute in Hadd; discriminate Hadd).
  destruct (X21_added_contact_is_notified env (alerts db) accounts env_reliable
              (js "c002") addRequest (request (Some asha) None) ashaAccount asha
              (alert_id alert) alert
              (js "Ravi") (js "9000000001") None added accounts'
              Hin eq_refl eq_refl Hadd eq_refl eq_refl eq_refl eq_refl eq_refl eq_refl)
    as (notifications & summary & db' & entry & H).
  exists added, accounts', notifications, summary, db', entry.
  split; [reflexivity|]. exact H.
Defined.

Lemma X23_witness :
  registerValidation lib registerRequest =
    inr (js "999988887777", (js "hunter22", (js "9000000002", (None, None)))) /\
  registerValidation lib secondRequest =
    inr (js "111122223333", (js "hunter23", (js "9000000002", (None, None)))) /\
  exists user token docs',
    register lib (js "64e5") None None docs registerRequest =
      (Registered user token, docs') /\
    register lib (js "64f6") None None docs' secondRequest = (AlreadyExists, docs').
Proof.
  split; [reflexivity|]. split; [reflexivity|].
  eexists _, _, _. split; [reflexivity|].
  exact (X23_registered_identity_is_taken lib (js "64e5") (js "64f6") None docs _
           registerRequest secondRequest _ _
           (js "999988887777") (js "hunter22") (js "9000000002") None None
           (js "111122223333") (js "hunter23") (js "9000000002") None None
           eq_refl eq_refl eq_refl (or_intror eq_refl)).
Defined.

Lemma X25_witness :
  (maxLocationAttempts <= 2)%nat /\
  exists req,
    sosRequest lost 2 (js "help") (js "medical") = Some req /\
    body_latitude req = Some 0%Q /\
    body_longitude req = Some 0%Q /\
    body_description req = Some (js "help") /\
    body_emergencyType req = Some (js "medical") /\
    req_user req = Some asha.
Proof.
  assert (maxLocationAttempts <= 2)%nat as Hfuel by (unfold maxLocationAttempts; lia).
  split; [exact Hfuel|].
  destruct (X25_sos_request_is_always_built lost 2 (js "help") (js "medical") Hfuel)
    as (req & location & Hreq & -> & H).
  exists req. split; [exact Hreq|exact H].
Defined.

End MoreWitnesses.
